(** * Aggregation pipeline of the content agents: data processor and insight generator

    A shallow embedding of [src/data_processor.py] and
    [src/insight_generator.py].

    Numeric model.  Python integers (counts) are [Z].  A number read from
    an item (relevance score, engagement value) is given by its exact value,
    a rational [Q], and the tests on these numbers (the relevance filter, the
    percentile of the engagement filter, the high-engagement test) compare
    exact values.  The arithmetic of the stages on non-integers, that is the
    mean engagement of a trend candidate, the trend score, the percentages
    and the per-source totals and averages, is binary64 arithmetic with
    rounding to nearest, as [Py.float] gives it: a number of an item enters
    it as the float nearest to its value, which is the value itself when the
    number is a float.  Python adds integers exactly; the sums here agree
    with it as long as the sums of integer engagement values stay below
    2^53.

    Python dictionaries keep insertion order, and several results depend on
    it (tie-breaking of [Counter.most_common], order of clusters), so a
    dictionary is an association list with unique keys. *)

From Stdlib Require Import List String Ascii ZArith QArith Qround Lia Lqa.
From Stdlib Require Import Permutation Sorted Bool Arith SpecFloat.
Import ListNotations.

(* ================================================================== *)
(** ** Python runtime pieces used by the pipeline *)
(* ================================================================== *)

Module Py.

(** Outcome of a call that may raise.  [AttributeError]: a method looked
    up on a value that has none; [OSError]: a file that cannot be opened
    for writing. *)
Inductive exn : Type :=
| ValueError
| AttributeError
| OSError.

Inductive result (A : Type) : Type :=
| Ok (a : A)
| Raise (e : exn).
Arguments Ok {A} a.
Arguments Raise {A} e.

(** *** Dictionaries with string keys, in insertion order *)

Definition dict (V : Type) : Type := list (string * V).

Fixpoint dict_get {V : Type} (d : dict V) (k : string) : option V :=
  match d with
  | [] => None
  | (k', v) :: d' => if String.eqb k k' then Some v else dict_get d' k
  end.

Definition dict_mem {V : Type} (d : dict V) (k : string) : bool :=
  match dict_get d k with Some _ => true | None => false end.

(** [d[k] = v]: an existing key keeps its position, a new key goes last. *)
Fixpoint dict_set {V : Type} (d : dict V) (k : string) (v : V) : dict V :=
  match d with
  | [] => [(k, v)]
  | (k', v') :: d' =>
      if String.eqb k k' then (k', v) :: d' else (k', v') :: dict_set d' k v
  end.

Definition dict_keys {V : Type} (d : dict V) : list string := map fst d.
Definition dict_values {V : Type} (d : dict V) : list V := map snd d.

(** [x in l] for a list of strings. *)
Definition str_in (x : string) (l : list string) : bool :=
  existsb (String.eqb x) l.

(** *** [list.sort(key=..., reverse=True)] and [sorted(...)]

    Python's sort is stable, also with [reverse=True]: elements with equal
    keys keep their relative order.  On a total preorder of keys the result
    of a stable sort is unique, so it is given here by insertion, the list
    being consumed from its right end. *)

Section Sort.
Variables (A K : Type).
Variable leb : K -> K -> bool.
Variable key : A -> K.

Fixpoint insert_desc (x : A) (s : list A) : list A :=
  match s with
  | [] => [x]
  | y :: s' =>
      if leb (key y) (key x) then x :: y :: s' else y :: insert_desc x s'
  end.

Definition sort_desc (l : list A) : list A := fold_right insert_desc [] l.
End Sort.
Arguments insert_desc {A K} leb key x s.
Arguments sort_desc {A K} leb key l.

(** Ascending stable sort: the same insertion with the order flipped. *)
Definition sort_asc {A K : Type} (leb : K -> K -> bool) (key : A -> K)
  : list A -> list A :=
  sort_desc (fun a b => leb b a) key.

(** *** [collections.Counter] *)

Definition Counter : Type := dict Z.

(** [c[k] += 1], a missing key counting as 0. *)
Fixpoint counter_incr (c : Counter) (k : string) : Counter :=
  match c with
  | [] => [(k, 1%Z)]
  | (k', n) :: c' =>
      if String.eqb k k' then (k', (n + 1)%Z) :: c'
      else (k', n) :: counter_incr c' k
  end.

(** [Counter(iterable)]. *)
Definition counter_of (l : list string) : Counter :=
  fold_left counter_incr l [].

(** [c[k]], which is 0 for a missing key. *)
Definition counter_get (c : Counter) (k : string) : Z :=
  match dict_get c k with Some n => n | None => 0%Z end.

(** [a + b]: the keys of [a] first, with the sum of both counts, then the
    keys that only [b] has; only positive counts are kept. *)
Definition counter_add (a b : Counter) : Counter :=
  let step1 (r : Counter) (kv : string * Z) :=
    let newcount := (snd kv + counter_get b (fst kv))%Z in
    if (0 <? newcount)%Z then dict_set r (fst kv) newcount else r in
  let step2 (r : Counter) (kv : string * Z) :=
    if negb (dict_mem a (fst kv)) && (0 <? snd kv)%Z
    then dict_set r (fst kv) (snd kv) else r in
  fold_left step2 b (fold_left step1 a []).

(** [c.most_common(n)] for an integer [n]: [heapq.nlargest(n, c.items(),
    key=count)], that is [sorted(items, key=count, reverse=True)[:n]];
    nothing for [n <= 0]. *)
Definition most_common (n : Z) (c : Counter) : list (string * Z) :=
  firstn (Z.to_nat n) (sort_desc Z.leb (@snd string Z) c).

(** *** [pandas.Series(values).quantile(q)], linear interpolation

    The values are sorted; the virtual index is [q * (n - 1)], and the
    result interpolates between the values at its floor and at the next
    position.  A [q] outside [0, 1] raises [ValueError]. *)

Definition nthQ (s : list Q) (i : Z) : Q := nth (Z.to_nat i) s 0%Q.

Definition lerp_at (s : list Q) (h : Q) : Q :=
  let n := Z.of_nat (List.length s) in
  let lo := Qfloor h in
  let hi := Z.min (lo + 1) (n - 1) in
  let gamma := (h - inject_Z lo)%Q in
  (nthQ s lo + (nthQ s hi - nthQ s lo) * gamma)%Q.

Definition quantile (values : list Q) (q : Q) : result Q :=
  if Qle_bool 0 q && Qle_bool q 1 then
    let s := sort_asc Qle_bool (fun v : Q => v) values in
    Ok (lerp_at s (q * inject_Z (Z.of_nat (List.length s) - 1))%Q)
  else Raise ValueError.

(** *** Floating-point numbers

    A Python [float] is a binary64 number: a [spec_float] of precision 53
    and exponent bound 1024 in canonical form, a NaN, an infinity or a
    signed zero.  [fadd], [fmul] and [fdiv] are the operations [+], [*] and
    [/] of IEEE 754, rounding to nearest with ties to even; the divisions of
    the stages are guarded, so that the divisor is never zero.  The
    comparisons are false as soon as one side is a NaN. *)

Definition float : Type := spec_float.

Definition fadd : float -> float -> float := SFadd 53 1024.
Definition fmul : float -> float -> float := SFmul 53 1024.
Definition fdiv : float -> float -> float := SFdiv 53 1024.

(** [a < b], [a <= b] and [a == b]. *)
Definition flt (a b : float) : bool := SFltb a b.
Definition fle (a b : float) : bool := SFleb a b.
Definition feq (a b : float) : bool := SFeqb a b.

Definition is_nan (a : float) : bool :=
  match a with S754_nan => true | _ => false end.

(** [float(n)] for an integer [n], as an operation between an integer and
    a float first computes it: the nearest binary64 number.  Python raises
    [OverflowError] instead when [n] is beyond the range of the finite
    numbers, which is when the rounding gives an infinity; [int_fits n]
    says that it does not. *)
Definition float_of_Z (n : Z) : float := binary_normalize 53 1024 n 0 false.

Definition int_fits (n : Z) : bool :=
  match float_of_Z n with
  | S754_infinity _ => false
  | _ => true
  end.

(** An integer as a number with exponent 0, not rounded. *)
Definition unrounded (n : Z) : float :=
  match n with
  | Z0 => S754_zero false
  | Zpos m => S754_finite false m 0
  | Zneg m => S754_finite true m 0
  end.

(** The binary64 number nearest to a rational: the value of a decimal
    literal such as [0.6], the float of a number of a JSON file, and the
    quotient [n / d] of two integers, which Python rounds once. *)
Definition float_of_Q (q : Q) : float :=
  fdiv (unrounded (Qnum q)) (unrounded (Zpos (Qden q))).

End Py.

Import Py.

(* ================================================================== *)
(** ** Data model: the JSON records exchanged by the stages *)
(* ================================================================== *)

(** The value under ["engagement"]: a JSON object with the optional keys
    ["normalized_engagement"] and ["total_engagement"], or something that is
    not an object. *)
Inductive EngagementField : Type :=
| EngDict (normalized_engagement total_engagement : option Q)
| EngOther.

(** An item as the collectors write it, with the keys the stages read; a
    key may be absent. *)
Module Item.
Record t : Type := mk {
  source : option string;
  content : option string;
  text : option string;
  caption : option string;
  entities : option (list string);
  hashtags : option (list string);
  relevance_score : option Q;
  engagement : option EngagementField
}.
End Item.

(** An entry of ["trending_topics"]. *)
Module TrendingTopic.
Record t : Type := mk {
  topic : option string;
  count : option Z;
  avg_engagement : option float;
  sources : option (list string);
  related_items_count : option Z;
  key_facts : option (list string)
}.
End TrendingTopic.

(** The dictionary written to [consolidated_data.json]. *)
Module Consolidated.
Record t : Type := mk {
  total_items : Z;
  filtered_items : Z;
  topics : dict (list Item.t);
  trending_topics : list TrendingTopic.t;
  processed_at : string
}.
End Consolidated.

Module Insight.
Record t : Type := mk {
  topic : string;
  mentions : Z;
  engagement : float;
  trend_score : float;
  trend_status : string;
  sources : list string;
  key_facts : list string;
  summary : string
}.
End Insight.

Module Recommendation.
Record t : Type := mk {
  topic : string;
  key_facts : list string;
  recommendation : string;
  priority : string
}.
End Recommendation.

Module SourceShare.
Record t : Type := mk { count : Z; percentage : float }.
End SourceShare.

(** A row of the per-source engagement metrics; the last key is only added
    by the final pass. *)
Module SourceMetrics.
Record t : Type := mk {
  total_items : Z;
  total_engagement : float;
  avg_engagement : float;
  high_engagement_items : Z;
  high_engagement_percentage : option float
}.
End SourceMetrics.

(** The dictionary written to [insights.json]. *)
Module InsightBundle.
Record t : Type := mk {
  source_distribution : dict SourceShare.t;
  topic_insights : list Insight.t;
  engagement_metrics : dict SourceMetrics.t;
  content_recommendations : list Recommendation.t;
  generated_at : string
}.
End InsightBundle.

(** An element of the content of an input file: an object, or a JSON
    value of another kind. *)
Inductive Element : Type :=
| Object (item : Item.t)
| NotObject.

(** What opening and decoding an input file gives.  [Unreadable]: the file
    cannot be opened or decoded, or it holds a value that has no length
    (null, a number, a boolean).  [Decoded data]: the elements that
    extending a list with the content adds, which are the elements of a
    list, the keys of an object (they are strings, so none is an object),
    and the characters of a string. *)
Inductive InputFile : Type :=
| Unreadable
| Decoded (data : list Element).

(** The file whose content is a list of objects. *)
Definition items_file (items : list Item.t) : InputFile :=
  Decoded (map Object items).

(** The elements as items; nothing when one of them is not an object. *)
Fixpoint as_items (data : list Element) : option (list Item.t) :=
  match data with
  | [] => Some []
  | Object item :: data' =>
      match as_items data' with
      | Some items => Some (item :: items)
      | None => None
      end
  | NotObject :: _ => None
  end.

(** Library and interpreter behaviour the stages rely on: [str.lower],
    [str.split()], [nltk.sent_tokenize], the formatting of an integer and of
    a number with two decimals in an f-string, and [set_iter l] for
    [list(set(l))]: the distinct elements of [l] in the iteration order of
    the hash table, which depends on the string hashes of the process and is
    only known to enumerate each distinct element once. *)
Record Runtime : Type := mkRuntime {
  str_lower : string -> string;
  str_split : string -> list string;
  sent_tokenize : string -> list string;
  fmt_int : Z -> string;
  fmt_2f : float -> string;
  set_iter : list string -> list string;
  set_iter_perm : forall l, Permutation (set_iter l) (nodup string_dec l)
}.

(** [needle in hay] for strings. *)
Fixpoint str_contains (needle hay : string) : bool :=
  String.prefix needle hay ||
  match hay with
  | EmptyString => false
  | String _ hay' => str_contains needle hay'
  end.

Definition Alta : string := "Alta".
Definition Media : string := "Média".
Definition Baixa : string := "Baixa".

(* ================================================================== *)
(** ** [DataProcessor] *)
(* ================================================================== *)

Module DataProcessor.

(** [item.get("entities", [])] and [item.get("hashtags", [])]. *)
Definition get_entities (item : Item.t) : list string :=
  match Item.entities item with Some l => l | None => [] end.

Definition get_hashtags (item : Item.t) : list string :=
  match Item.hashtags item with Some l => l | None => [] end.

(** The engagement value of an item: ["normalized_engagement"] when the
    key is there, else ["total_engagement"], else 0; also 0 when
    ["engagement"] is missing or is not a dictionary. *)
Definition engagement_value (item : Item.t) : Q :=
  match Item.engagement item with
  | Some (EngDict (Some v) _) => v
  | Some (EngDict None (Some v)) => v
  | Some (EngDict None None) => 0
  | Some EngOther => 0
  | None => 0
  end.

(** The first present of ["content"], ["text"], ["caption"], else [""]. *)
Definition get_content (item : Item.t) : string :=
  match Item.content item with
  | Some c => c
  | None =>
      match Item.text item with
      | Some c => c
      | None =>
          match Item.caption item with
          | Some c => c
          | None => EmptyString
          end
      end
  end.

Definition load_data (f : InputFile) : list Element :=
  match f with
  | Decoded data => data
  | Unreadable => []
  end.

Definition filter_by_relevance (min_relevance_score : Q)
    (data : list Item.t) : list Item.t :=
  filter
    (fun item =>
       Qle_bool min_relevance_score
         (match Item.relevance_score item with Some s => s | None => 0 end))
    data.

Definition filter_by_engagement (data : list Item.t) (min_percentile : Q)
  : result (list Item.t) :=
  match data with
  | [] => Ok []
  | _ :: _ =>
      let engagement_values := map engagement_value data in
      let threshold :=
        match engagement_values with
        | [] => Ok 0%Q
        | _ :: _ => quantile engagement_values min_percentile
        end in
      match threshold with
      | Raise e => Raise e
      | Ok threshold =>
          Ok (map fst
                (filter (fun iv => Qle_bool threshold (snd iv))
                   (combine data engagement_values)))
      end
  end.

(** [enumerate]: every element of the list is an object of its own, and
    its position stands for [id(item)]. *)
Definition objects (data : list Item.t) : list (nat * Item.t) :=
  combine (seq 0 (List.length data)) data.

Definition top_entities (data : list Item.t) : list string :=
  let all_entities := flat_map get_entities data in
  let entity_counter := counter_of all_entities in
  map fst (filter (fun ec => (1 <? snd ec)%Z) (most_common 10 entity_counter)).

(** The clusters by entity, before the catch-all is added. *)
Definition entity_topics (data : list Item.t) : dict (list (nat * Item.t)) :=
  fold_left
    (fun topics entity =>
       dict_set topics entity
         (filter (fun o => str_in entity (get_entities (snd o)))
            (objects data)))
    (top_entities data) [].

Definition classified_items (topics : dict (list (nat * Item.t))) : list nat :=
  flat_map (map fst) (dict_values topics).

Definition outros : string := "outros".

Definition group_by_topic (data : list Item.t) : dict (list Item.t) :=
  let topics := entity_topics data in
  let classified := classified_items topics in
  let rest :=
    filter (fun o => negb (existsb (Nat.eqb (fst o)) classified))
      (objects data) in
  map (fun kv => (fst kv, map snd (snd kv))) (dict_set topics outros rest).

(** The loop that adds up the engagement of the related items: an item
    adds its ["normalized_engagement"], else its ["total_engagement"], and
    nothing when it has neither or when ["engagement"] is not a dictionary.
    The sum starts at 0 and is a binary64 number; a value that is an integer
    is added as the float of that integer, which is what Python computes as
    long as the sums of integers stay below 2^53. *)
Definition engagement_sum (related_items : list Item.t) : float :=
  fold_left
    (fun engagement_sum item =>
       match Item.engagement item with
       | Some (EngDict (Some v) _) => fadd engagement_sum (float_of_Q v)
       | Some (EngDict None (Some v)) => fadd engagement_sum (float_of_Q v)
       | Some (EngDict None None) => engagement_sum
       | Some EngOther => engagement_sum
       | None => engagement_sum
       end)
    related_items (float_of_Z 0).

Definition is_related (topic : string) (item : Item.t) : bool :=
  str_in topic (get_entities item) || str_in topic (get_hashtags item).

Definition extract_trending_topics (R : Runtime) (data : list Item.t)
    (top_n : Z) : list TrendingTopic.t :=
  let all_entities := flat_map get_entities data in
  let all_hashtags := flat_map get_hashtags data in
  let combined_counter :=
    counter_add (counter_of all_entities) (counter_of all_hashtags) in
  map
    (fun tc =>
       let related_items := filter (is_related (fst tc)) data in
       let avg_engagement :=
         match related_items with
         | [] => float_of_Z 0
         | _ :: _ =>
             fdiv (engagement_sum related_items)
               (float_of_Z (Z.of_nat (List.length related_items)))
         end in
       TrendingTopic.mk
         (Some (fst tc))
         (Some (snd tc))
         (Some avg_engagement)
         (Some (set_iter R
                  (map (fun item =>
                          match Item.source item with
                          | Some s => s
                          | None => EmptyString
                          end)
                     related_items)))
         (Some (Z.of_nat (List.length related_items)))
         None)
    (most_common top_n combined_counter).

Definition mentions (R : Runtime) (topic s : string) : bool :=
  str_contains (str_lower R topic) (str_lower R s).

(** The sentences collected before duplicates are removed. *)
Definition topic_sentences (R : Runtime) (data : list Item.t)
    (topic : string) : list string :=
  let related_items :=
    filter
      (fun item =>
         is_related topic item || mentions R topic (get_content item))
      data in
  flat_map
    (fun item =>
       match get_content item with
       | EmptyString => []
       | String _ _ as content =>
           filter (mentions R topic) (sent_tokenize R content)
       end)
    related_items.

Definition long_enough (R : Runtime) (s : string) : bool :=
  (5 <? List.length (str_split R s))%nat.

Definition extract_key_facts (R : Runtime) (data : list Item.t)
    (topic : string) : list string :=
  let sentences := topic_sentences R data topic in
  let unique_sentences := set_iter R sentences in
  let filtered_sentences := filter (long_enough R) unique_sentences in
  let max_facts := Nat.min (List.length filtered_sentences) 10 in
  firstn max_facts filtered_sentences.

Definition output_path : string := "data/processed/consolidated_data.json".

(** One turn of the loop that adds the key facts to the trend candidates:
    [topic["key_facts"] = self.extract_key_facts(filtered_data,
    topic["topic"])]. *)
Definition add_key_facts (R : Runtime) (filtered_data : list Item.t)
    (topic : TrendingTopic.t) : TrendingTopic.t :=
  let topic_name :=
    match TrendingTopic.topic topic with
    | Some s => s
    | None => EmptyString
    end in
  TrendingTopic.mk
    (TrendingTopic.topic topic)
    (TrendingTopic.count topic)
    (TrendingTopic.avg_engagement topic)
    (TrendingTopic.sources topic)
    (TrendingTopic.related_items_count topic)
    (Some (extract_key_facts R filtered_data topic_name)).

(** [consolidate_data], the clock reading [now] being an input and
    [writable] telling whether the file at a path can be opened for
    writing.  The relevance filter calls [item.get] on every element, which
    raises [AttributeError] at an element that is not an object.  The
    engagement filter is called with its default percentile, 0.3.  The
    result is written to [output_path] outside any [try], so a file that
    cannot be written raises [OSError]. *)
Definition consolidate_data (R : Runtime) (writable : string -> bool)
    (min_relevance_score : Q) (now : string) (data_files : list InputFile)
  : result Consolidated.t :=
  let all_data := flat_map load_data data_files in
  match as_items all_data with
  | None => Raise AttributeError
  | Some items =>
  let filtered_data := filter_by_relevance min_relevance_score items in
  match filter_by_engagement filtered_data (3 # 10) with
  | Raise e => Raise e
  | Ok filtered_data =>
      let grouped_data := group_by_topic filtered_data in
      let trending_topics := extract_trending_topics R filtered_data 5 in
      let trending_topics :=
        map (add_key_facts R filtered_data) trending_topics in
      let consolidated_data :=
        Consolidated.mk
          (Z.of_nat (List.length all_data))
          (Z.of_nat (List.length filtered_data))
          grouped_data
          trending_topics
          now in
      if writable output_path then Ok consolidated_data else Raise OSError
  end
  end.

End DataProcessor.

(* ================================================================== *)
(** ** [InsightGenerator] *)
(* ================================================================== *)

Module InsightGenerator.

(** The two settings read from [METRICS_CONFIG]: the engagement threshold
    by its exact value, the trending threshold as the float it is. *)
Record Config : Type := mkConfig {
  engagement_threshold : Q;
  trending_threshold : float
}.

(** The defaults 0.5 and 0.7. *)
Definition default_config : Config := mkConfig (5 # 10) (float_of_Q (7 # 10)).

(** [topic.get(key, default)] for the keys of a trending topic. *)
Definition get_topic (t : TrendingTopic.t) : string :=
  match TrendingTopic.topic t with Some s => s | None => EmptyString end.
Definition get_count (t : TrendingTopic.t) : Z :=
  match TrendingTopic.count t with Some n => n | None => 0%Z end.
Definition get_avg_engagement (t : TrendingTopic.t) : float :=
  match TrendingTopic.avg_engagement t with
  | Some v => v
  | None => float_of_Z 0
  end.
Definition get_sources (t : TrendingTopic.t) : list string :=
  match TrendingTopic.sources t with Some l => l | None => [] end.
Definition get_key_facts (t : TrendingTopic.t) : list string :=
  match TrendingTopic.key_facts t with Some l => l | None => [] end.

(** [(count * 0.6) + (avg_engagement * 0.4)]: the count is an integer and
    is converted for the product, the literals are the binary64 numbers
    nearest to 0.6 and 0.4, and each operation rounds. *)
Definition score (t : TrendingTopic.t) : float :=
  fadd (fmul (float_of_Z (get_count t)) (float_of_Q (6 # 10)))
       (fmul (get_avg_engagement t) (float_of_Q (4 # 10))).

(** [a > b] on exact values. *)
Definition Qgtb (a b : Q) : bool := negb (Qle_bool a b).

(** [self.trending_threshold / 2]. *)
Definition half_threshold (cfg : Config) : float :=
  fdiv (trending_threshold cfg) (float_of_Z 2).

(** The [if]/[elif]/[else] on the trend score. *)
Definition status_of (cfg : Config) (trend_score : float) : string :=
  if flt (trending_threshold cfg) trend_score then Alta
  else if flt (half_threshold cfg) trend_score then Media
  else Baixa.

Definition insight_of (cfg : Config) (R : Runtime) (t : TrendingTopic.t)
  : Insight.t :=
  let topic_name := get_topic t in
  let count := get_count t in
  let avg_engagement := get_avg_engagement t in
  let trend_score := score t in
  let trend_status := status_of cfg trend_score in
  Insight.mk topic_name count avg_engagement trend_score trend_status
    (get_sources t) (get_key_facts t)
    ("O tópico '" ++ topic_name ++ "' apresenta tendência "
       ++ str_lower R trend_status ++ " com " ++ fmt_int R count
       ++ " menções e engajamento médio de " ++ fmt_2f R avg_engagement
       ++ ".")%string.

Definition generate_topic_insights (cfg : Config) (R : Runtime)
    (data : Consolidated.t) : list Insight.t :=
  sort_desc fle Insight.trend_score
    (map (insight_of cfg R) (Consolidated.trending_topics data)).

Definition in_high_band (cfg : Config) (t : TrendingTopic.t) : bool :=
  flt (trending_threshold cfg) (score t).

Definition in_medium_band (cfg : Config) (t : TrendingTopic.t) : bool :=
  flt (half_threshold cfg) (score t)
  && fle (score t) (trending_threshold cfg).

Definition high_recommendation (t : TrendingTopic.t) : Recommendation.t :=
  let topic_name := get_topic t in
  let key_facts := get_key_facts t in
  Recommendation.mk topic_name key_facts
    ("Criar matéria sobre '" ++ topic_name
       ++ "' com base nos fatos coletados.")%string
    (if (3 <=? List.length key_facts)%nat then Alta else Media).

Definition medium_recommendation (t : TrendingTopic.t) : Recommendation.t :=
  let topic_name := get_topic t in
  Recommendation.mk topic_name (get_key_facts t)
    ("Considerar matéria sobre '" ++ topic_name
       ++ "' se houver desenvolvimento adicional.")%string
    Media.

Definition generate_content_recommendations (cfg : Config)
    (data : Consolidated.t) : list Recommendation.t :=
  let trending_topics := Consolidated.trending_topics data in
  let high_trend_topics := filter (in_high_band cfg) trending_topics in
  let recommendations := map high_recommendation high_trend_topics in
  let medium_trend_topics := filter (in_medium_band cfg) trending_topics in
  recommendations
    ++ map medium_recommendation
         (filter (fun t => (2 <=? List.length (get_key_facts t))%nat)
            medium_trend_topics).

(** Every item of every cluster, a cluster after the other. *)
Definition all_items (data : Consolidated.t) : list Item.t :=
  flat_map (fun l => l) (dict_values (Consolidated.topics data)).

Definition get_source (item : Item.t) : string :=
  match Item.source item with Some s => s | None => "Desconhecido" end.

Definition generate_source_distribution (data : Consolidated.t)
  : dict SourceShare.t :=
  let items := all_items data in
  let source_counts := fold_left counter_incr (map get_source items) [] in
  let total_items := Z.of_nat (List.length items) in
  map
    (fun sc =>
       (fst sc,
        SourceShare.mk (snd sc)
          (if (0 <? total_items)%Z
           then fmul (float_of_Q (Qmake (snd sc) (Z.to_pos total_items)))
                  (float_of_Z 100)
           else float_of_Z 0)))
    source_counts.

(** [d[k][...] op= ...]: the row under [k] is changed in place. *)
Fixpoint dict_update {V : Type} (d : dict V) (k : string) (f : V -> V)
  : dict V :=
  match d with
  | [] => []
  | (k', v) :: d' =>
      if String.eqb k k' then (k', f v) :: d'
      else (k', v) :: dict_update d' k f
  end.

Definition new_row : SourceMetrics.t :=
  SourceMetrics.mk 0 (float_of_Z 0) (float_of_Z 0) 0 None.

(** One turn of the loop over the items.  The total engagement is a
    running sum that starts at 0, a binary64 number as [engagement_sum]
    is. *)
Definition count_item (cfg : Config) (by_source : dict SourceMetrics.t)
    (item : Item.t) : dict SourceMetrics.t :=
  let source := get_source item in
  let by_source :=
    if negb (dict_mem by_source source)
    then dict_set by_source source new_row else by_source in
  let engagement_value := DataProcessor.engagement_value item in
  dict_update by_source source
    (fun m =>
       SourceMetrics.mk
         (SourceMetrics.total_items m + 1)
         (fadd (SourceMetrics.total_engagement m)
            (float_of_Q engagement_value))
         (SourceMetrics.avg_engagement m)
         (if Qgtb engagement_value (engagement_threshold cfg)
          then (SourceMetrics.high_engagement_items m + 1)%Z
          else SourceMetrics.high_engagement_items m)
         (SourceMetrics.high_engagement_percentage m)).

(** The averages when the guard [total_items > 0] holds. *)
Definition with_averages (m : SourceMetrics.t) : SourceMetrics.t :=
  SourceMetrics.mk
    (SourceMetrics.total_items m)
    (SourceMetrics.total_engagement m)
    (fdiv (SourceMetrics.total_engagement m)
       (float_of_Z (SourceMetrics.total_items m)))
    (SourceMetrics.high_engagement_items m)
    (Some (fmul
             (float_of_Q (Qmake (SourceMetrics.high_engagement_items m)
                            (Z.to_pos (SourceMetrics.total_items m))))
             (float_of_Z 100))).

(** The fallback of the [else] branch. *)
Definition without_averages (m : SourceMetrics.t) : SourceMetrics.t :=
  SourceMetrics.mk
    (SourceMetrics.total_items m)
    (SourceMetrics.total_engagement m)
    (float_of_Z 0)
    (SourceMetrics.high_engagement_items m)
    (Some (float_of_Z 0)).

Definition finish_row (m : SourceMetrics.t) : SourceMetrics.t :=
  if (0 <? SourceMetrics.total_items m)%Z
  then with_averages m else without_averages m.

(** The rows after the loop over the items, before the averages. *)
Definition engagement_by_source (cfg : Config) (data : Consolidated.t)
  : dict SourceMetrics.t :=
  fold_left (count_item cfg) (all_items data) [].

Definition generate_engagement_metrics (cfg : Config)
    (data : Consolidated.t) : dict SourceMetrics.t :=
  map (fun sm => (fst sm, finish_row (snd sm)))
    (engagement_by_source cfg data).

Definition output_path : string := "data/processed/insights.json".

(** The three charts: each is saved, outside any [try], by the method that
    computes the table it shows, and only when the table is not empty.  The
    drawing itself is taken to succeed; the saving fails when the file
    cannot be written. *)
Definition source_distribution_chart : string :=
  "data/processed/visualizations/source_distribution.png".
Definition trending_topics_chart : string :=
  "data/processed/visualizations/trending_topics.png".
Definition engagement_by_source_chart : string :=
  "data/processed/visualizations/engagement_by_source.png".

(** Whether the chart of a table can be saved. *)
Definition chart_saved {A : Type} (writable : string -> bool)
    (table : list A) (path : string) : bool :=
  match table with
  | [] => true
  | _ :: _ => writable path
  end.

(** [generate_all_insights]: [loaded] is what reading
    [consolidated_data.json] gave, [None] when the file could not be read
    or holds an empty dictionary; the result [None] is the empty dictionary
    the function then returns.  A chart or the file [output_path] that
    cannot be written raises [OSError]. *)
Definition generate_all_insights (cfg : Config) (R : Runtime)
    (writable : string -> bool) (now : string)
    (loaded : option Consolidated.t)
  : result (option InsightBundle.t) :=
  match loaded with
  | None => Ok None
  | Some data =>
      let source_distribution := generate_source_distribution data in
      if negb (chart_saved writable source_distribution
                 source_distribution_chart)
      then Raise OSError else
      let topic_insights := generate_topic_insights cfg R data in
      if negb (chart_saved writable topic_insights trending_topics_chart)
      then Raise OSError else
      let engagement_metrics := generate_engagement_metrics cfg data in
      if negb (chart_saved writable engagement_metrics
                 engagement_by_source_chart)
      then Raise OSError else
      let content_recommendations :=
        generate_content_recommendations cfg data in
      let all_insights :=
        InsightBundle.mk source_distribution topic_insights
          engagement_metrics content_recommendations now in
      if writable output_path then Ok (Some all_insights)
      else Raise OSError
  end.

End InsightGenerator.

(** The two stages in sequence, the second reading the file the first
    wrote.  [t1] and [t2] are the clock readings of the two stages. *)
Definition run_pipeline (cfg : InsightGenerator.Config) (R : Runtime)
    (writable : string -> bool) (min_relevance_score : Q) (t1 t2 : string)
    (data_files : list InputFile)
  : result (Consolidated.t * option InsightBundle.t) :=
  match
    DataProcessor.consolidate_data R writable min_relevance_score t1 data_files
  with
  | Raise e => Raise e
  | Ok consolidated =>
      match
        InsightGenerator.generate_all_insights cfg R writable t2
          (Some consolidated)
      with
      | Raise e => Raise e
      | Ok insights => Ok (consolidated, insights)
      end
  end.

(* ================================================================== *)
(** ** Reference notions the properties are stated with *)
(* ================================================================== *)

(** [a] may stand before [b] in a list that descends by [key]. *)
Definition desc {A K : Type} (leb : K -> K -> bool) (key : A -> K)
    (a b : A) : Prop :=
  leb (key b) (key a) = true.

(** The elements whose key compares equal to [k]. *)
Definition tied {A K : Type} (leb : K -> K -> bool) (key : A -> K)
    (k : K) (a : A) : bool :=
  leb (key a) k && leb k (key a).

Definition ascending : list Q -> Prop := StronglySorted Qle.

(** A row of the engagement metrics that has counted at least one item. *)
Definition counted (e : string * SourceMetrics.t) : Prop :=
  (1 <= SourceMetrics.total_items (snd e))%Z.

(** The entries of the entity counter, ranked as [most_common] does. *)
Definition entity_ranking (data : list Item.t) : list (string * Z) :=
  sort_desc Z.leb (@snd string Z)
    (counter_of (flat_map DataProcessor.get_entities data)).

(** [Subseq l1 l2]: [l1] is [l2] with some elements left out, the others in
    their order. *)
Inductive Subseq {A : Type} : list A -> list A -> Prop :=
| Subseq_nil : Subseq [] []
| Subseq_skip x l1 l2 : Subseq l1 l2 -> Subseq l1 (x :: l2)
| Subseq_keep x l1 l2 : Subseq l1 l2 -> Subseq (x :: l1) (x :: l2).

(** Duplicates removed, each value staying at its first occurrence. *)
Fixpoint dedup_first (l : list string) : list string :=
  match l with
  | [] => []
  | x :: l' => x :: filter (fun y => negb (String.eqb x y)) (dedup_first l')
  end.


(** Two runtimes that differ at most in the order in which they enumerate
    a set, as two processes with different string hashes do. *)
Definition same_library (R1 R2 : Runtime) : Prop :=
  str_lower R1 = str_lower R2
  /\ str_split R1 = str_split R2
  /\ sent_tokenize R1 = sent_tokenize R2
  /\ fmt_int R1 = fmt_int R2
  /\ fmt_2f R1 = fmt_2f R2.










(** The key facts in the words of the specification: the qualifying
    sentences, each kept at its first occurrence, cut to the first ten. *)
Definition spec_key_facts (R : Runtime) (data : list Item.t)
    (topic : string) : list string :=
  firstn 10
    (dedup_first
       (filter (DataProcessor.long_enough R)
          (DataProcessor.topic_sentences R data topic))).

(** How often [k] occurs in [l]. *)
Definition occurrences (l : list string) (k : string) : Z :=
  Z.of_nat (count_occ string_dec l k).

(** A frequency table in first-seen order of its keys. *)
Definition tally (l : list string) : Counter :=
  map (fun k => (k, occurrences l k)) (dedup_first l).

(** The table merged from two token lists: a key counts its occurrences in
    both, and the keys stand in first-seen order, the first list before the
    second. *)
Definition merged_tally (entities hashtags : list string) : Counter :=
  map (fun k => (k, (occurrences entities k + occurrences hashtags k)%Z))
    (dedup_first (entities ++ hashtags)).

(** The recommendation rule in the words of the specification: a topic is
    recommended when its score is in the high band, or in the medium band
    with at least two key facts. *)
Definition spec_recommended (cfg : InsightGenerator.Config)
    (t : TrendingTopic.t) : Prop :=
  let s := InsightGenerator.score t in
  let thr := InsightGenerator.trending_threshold cfg in
  flt thr s = true
  \/ (flt (fdiv thr (float_of_Z 2)) s = true /\ fle s thr = true
      /\ (2 <= List.length (InsightGenerator.get_key_facts t))%nat).

Definition spec_recommendedb (cfg : InsightGenerator.Config)
    (t : TrendingTopic.t) : bool :=
  let s := InsightGenerator.score t in
  let thr := InsightGenerator.trending_threshold cfg in
  flt thr s
  || (flt (fdiv thr (float_of_Z 2)) s && fle s thr
      && (2 <=? List.length (InsightGenerator.get_key_facts t))%nat).

(** The recommendation the specification gives a recommended topic. *)
Definition spec_recommendation (cfg : InsightGenerator.Config)
    (t : TrendingTopic.t) : Recommendation.t :=
  let topic_name := InsightGenerator.get_topic t in
  let key_facts := InsightGenerator.get_key_facts t in
  if flt (InsightGenerator.trending_threshold cfg) (InsightGenerator.score t)
  then
    Recommendation.mk topic_name key_facts
      ("Criar matéria sobre '" ++ topic_name
         ++ "' com base nos fatos coletados.")%string
      (if (3 <=? List.length key_facts)%nat then Alta else Media)
  else
    Recommendation.mk topic_name key_facts
      ("Considerar matéria sobre '" ++ topic_name
         ++ "' se houver desenvolvimento adicional.")%string
      Media.

(** Two runtimes for running the model on examples.  Both lower-case the
    letters A-Z, split words at blanks and sentences after full stops; the
    first enumerates a set in the order of the last occurrences of its
    elements, the second in the opposite order. *)
Module Example.

Definition lower_ascii (c : ascii) : ascii :=
  let n := nat_of_ascii c in
  if ((65 <=? n) && (n <=? 90))%nat then ascii_of_nat (n + 32) else c.

Fixpoint lower (s : string) : string :=
  match s with
  | EmptyString => EmptyString
  | String c s' => String (lower_ascii c) (lower s')
  end.

(** Splits at [sep]; with [keep] the separator stays at the end of the
    piece before it.  Empty pieces are dropped. *)
Fixpoint pieces (sep : ascii) (keep : bool) (cur : string) (s : string)
  : list string :=
  let close (w : string) :=
    match w with EmptyString => [] | String _ _ => [w] end in
  match s with
  | EmptyString => close cur
  | String c s' =>
      if Ascii.eqb c sep then
        close (if keep then cur ++ String c EmptyString else cur)%string
          ++ pieces sep keep EmptyString s'
      else pieces sep keep (cur ++ String c EmptyString)%string s'
  end.

Definition split (s : string) : list string := pieces " " false EmptyString s.

Fixpoint strip_left (s : string) : string :=
  match s with
  | String " " s' => strip_left s'
  | _ => s
  end.

Definition sentences (s : string) : list string :=
  map strip_left (pieces "." true EmptyString s).

Definition fmt (x : float) : string := "?".

(** Every file can be written. *)
Definition all_writable (path : string) : bool := true.

Definition forward : Runtime :=
  mkRuntime lower split sentences (fun _ => "?"%string) fmt
    (fun l => nodup string_dec l)
    (fun l => Permutation_refl _).

Definition backward : Runtime :=
  mkRuntime lower split sentences (fun _ => "?"%string) fmt
    (fun l => rev (nodup string_dec l))
    (fun l => Permutation_sym (Permutation_rev _)).

(** Four items: sources G1, G1, Twitter, Instagram; entities [Lula],
    [Lula, Dilma], [Dilma], none; engagement 0.2, 0.8, 0.5, 0.1. *)
Definition scenario_item (src : string) (ents : list string) (e : Q)
  : Item.t :=
  Item.mk (Some src) None None None (Some ents) None (Some 1)
    (Some (EngDict (Some e) None)).

Definition scenario : list Item.t :=
  [ scenario_item "G1" ["Lula"] (2 # 10);
    scenario_item "G1" ["Lula"; "Dilma"] (8 # 10);
    scenario_item "Twitter" ["Dilma"] (5 # 10);
    scenario_item "Instagram" [] (1 # 10) ]%string.

(** Two items whose entities are Lula, Dilma, Lula and whose hashtags are
    Lula, Bolsonaro, in the order of the scan. *)
Definition merge_example : list Item.t :=
  [ Item.mk (Some "Twitter") None None None
      (Some ["Lula"; "Dilma"]) (Some ["Lula"]) None None;
    Item.mk (Some "Instagram") None None None
      (Some ["Lula"]) (Some ["Bolsonaro"]) None None ]%string.

(** Two items with the entity "outros" and one with another entity. *)
Definition entity_item (src : string) (ents : list string) : Item.t :=
  Item.mk (Some src) None None None (Some ents) None None None.

Definition collision : list Item.t :=
  [ entity_item "G1" ["outros"];
    entity_item "Twitter" ["outros"];
    entity_item "Instagram" ["Lula"] ]%string.

(** An item whose text has two sentences naming the topic Lula, each of
    more than five words. *)
Definition two_facts : list Item.t :=
  [ Item.mk (Some "G1")
      (Some ("Lula foi a feira comprar pao hoje. "
          ++ "Dilma e Lula falaram muito sobre o tema ontem."))
      None None (Some ["Lula"]) None None None ]%string.

(** An item whose text has twelve sentences of seven words, each naming
    the topic Lula. *)
Definition twelve : list Item.t :=
  [ Item.mk (Some "G1")
      (Some ("Lula a1 foi visto na feira hoje. Lula a2 foi visto na feira hoje. "
          ++ "Lula a3 foi visto na feira hoje. Lula a4 foi visto na feira hoje. "
          ++ "Lula a5 foi visto na feira hoje. Lula a6 foi visto na feira hoje. "
          ++ "Lula a7 foi visto na feira hoje. Lula a8 foi visto na feira hoje. "
          ++ "Lula a9 foi visto na feira hoje. Lula b1 foi visto na feira hoje. "
          ++ "Lula b2 foi visto na feira hoje. Lula b3 foi visto na feira hoje."))
      None None (Some ["Lula"]) None None None ]%string.

(** A candidate with the given count, mean engagement and key facts. *)
Definition candidate (name : string) (n : Z) (avg : Q) (facts : list string)
  : TrendingTopic.t :=
  TrendingTopic.mk (Some name) (Some n) (Some (float_of_Q avg)) (Some [])
    (Some n) (Some facts).

(** Score 0.75 with three facts, score 0.5 with one fact, and score 0.5
    with two facts. *)
Definition candidates : Consolidated.t :=
  Consolidated.mk 0 0 []
    [ candidate "A" 1 (375 # 1000) ["f1"; "f2"; "f3"];
      candidate "B" 0 (125 # 100) ["f1"];
      candidate "C" 0 (125 # 100) ["f1"; "f2"] ]%string
    EmptyString.

End Example.

(* ================================================================== *)
(** ** Further notions for the properties of the stages *)
(* ================================================================== *)

(** [item.get("relevance_score", 0)]. *)
Definition relevance_of (item : Item.t) : Q :=
  match Item.relevance_score item with Some s => s | None => 0 end.

(** The sum of a list of integers. *)
Definition sumZ (l : list Z) : Z := fold_right Z.add 0%Z l.

(** The sources of the items handed to the metrics, an item counting once
    for each cluster it is in. *)
Definition item_sources (data : Consolidated.t) : list string :=
  map InsightGenerator.get_source (InsightGenerator.all_items data).

(** The rows of the engagement metrics reduced to their item counts. *)
Definition row_counts (rows : dict SourceMetrics.t) : Counter :=
  map (fun e => (fst e, SourceMetrics.total_items (snd e))) rows.





(* ================================================================== *)
(** ** [ResultValidator] *)
(* ================================================================== *)

(** A decoded JSON value. *)
#[local] Unset Elimination Schemes.
Inductive json : Type :=
| JNull
| JBool (b : bool)
| JNum (q : Q)
| JFloat (x : float)
| JStr (s : string)
| JArr (l : list json)
| JObj (o : list (string * json)).
#[local] Set Elimination Schemes.

Module Validator.

(** What a validation can raise: a method looked up on a value that has
    none, or a failure of opening or decoding a file, with its text. *)
Inductive Error : Type :=
| AttributeError (v : json)
| ReadError (detail : string).

Inductive attempt (A : Type) : Type :=
| Done (a : A)
| Thrown (e : Error).
Arguments Done {A} a.
Arguments Thrown {A} e.

(** The truth value of a JSON value in a condition. *)
Definition truthy (v : json) : bool :=
  match v with
  | JNull => false
  | JBool b => b
  | JNum q => negb (Qeq_bool q 0)
  | JFloat x => negb (feq x (float_of_Z 0))
  | JStr EmptyString => false
  | JStr (String _ _) => true
  | JArr [] => false
  | JArr (_ :: _) => true
  | JObj [] => false
  | JObj (_ :: _) => true
  end.

(** [article.get(k, default)]. *)
Definition get (article : dict json) (k : string) (default : json) : json :=
  match dict_get article k with Some v => v | None => default end.

Definition newline : ascii := ascii_of_nat 10.
Definition double_quote : ascii := ascii_of_nat 34.
Definition single_quote : ascii := ascii_of_nat 39.

(** [c in s] for a character. *)
Fixpoint has_char (c : ascii) (s : string) : bool :=
  match s with
  | EmptyString => false
  | String c' s' => Ascii.eqb c c' || has_char c s'
  end.

(** [s.split(sep)] for the separator made of two line feeds, [cur] being
    the piece read so far. *)
Fixpoint split_paragraphs (cur : string) (s : string) : list string :=
  match s with
  | EmptyString => [cur]
  | String c s' =>
      match s' with
      | String c' s'' =>
          if Ascii.eqb c newline && Ascii.eqb c' newline
          then cur :: split_paragraphs EmptyString s''
          else split_paragraphs (cur ++ String c EmptyString)%string s'
      | EmptyString => [(cur ++ String c EmptyString)%string]
      end
  end.

Record ArticleResult : Type := mkArticleResult {
  valid : bool;
  message : string;
  article : dict json;
  word_count : option Z;
  paragraph_count : option Z
}.

Definition invalid (msg : string) (a : dict json) : ArticleResult :=
  mkArticleResult false msg a None None.

Definition required_fields : list string :=
  ["materia"; "editoria"; "subtitulo"; "titulo"; "keywords"]%string.

Definition validate_article_format (R : Runtime) (a : dict json)
  : attempt ArticleResult :=
  let missing_fields :=
    filter (fun field => negb (dict_mem a field)) required_fields in
  match missing_fields with
  | _ :: _ =>
      Done (invalid ("Campos obrigatórios ausentes: "
                       ++ String.concat ", " missing_fields)%string a)
  | [] =>
      let materia := get a "materia" (JStr EmptyString) in
      if negb (truthy materia)
      then Done (invalid "Conteúdo da matéria está vazio" a)
      else
        match materia with
        | JStr s =>
            let word_count := Z.of_nat (List.length (str_split R s)) in
            if (word_count <? 500)%Z
            then Done (invalid ("Matéria tem apenas " ++ fmt_int R word_count
                                  ++ " palavras (mínimo: 500)")%string a)
            else
              let paragraphs := split_paragraphs EmptyString s in
              if (5 <? List.length paragraphs)%nat
              then Done (invalid ("Matéria tem "
                                    ++ fmt_int R
                                         (Z.of_nat (List.length paragraphs))
                                    ++ " parágrafos (máximo: 5)")%string a)
              else if has_char double_quote s || has_char single_quote s
              then Done (invalid "Matéria contém aspas" a)
              else
                match get a "keywords" (JArr []) with
                | JArr (_ :: _) =>
                    Done (mkArticleResult true "Matéria válida" a
                            (Some word_count)
                            (Some (Z.of_nat (List.length paragraphs))))
                | _ =>
                    Done (invalid "Keywords ausentes ou em formato inválido" a)
                end
        | other => Thrown (AttributeError other)
        end
  end.

(** What is found at the path of the articles file. *)
Inductive ArticlesFile : Type :=
| Missing
| Broken (detail : string)
| NotAList
| Articles (l : list (dict json)).

Record FileResult : Type := mkFileResult {
  file_valid : bool;
  file_message : string;
  articles : option (list (dict json));
  total_articles : option Z;
  valid_articles : option Z;
  invalid_articles : option Z;
  validation_results : option (list ArticleResult)
}.

Definition file_failure (msg : string) : FileResult :=
  mkFileResult false msg (Some []) None None None None.

(** The list comprehension over the articles: it stops at the first
    validation that raises. *)
Fixpoint validate_each (R : Runtime) (l : list (dict json))
  : attempt (list ArticleResult) :=
  match l with
  | [] => Done []
  | a :: l' =>
      match validate_article_format R a with
      | Thrown e => Thrown e
      | Done r =>
          match validate_each R l' with
          | Thrown e => Thrown e
          | Done rs => Done (r :: rs)
          end
      end
  end.

(** [validate_articles_file]; [str_of] is the text of an exception. *)
Definition validate_articles_file (R : Runtime) (str_of : Error -> string)
    (file_path : string) (file : ArticlesFile) : FileResult :=
  let failure (e : Error) :=
    file_failure ("Erro ao validar arquivo: " ++ str_of e)%string in
  match file with
  | Missing => file_failure ("Arquivo não encontrado: " ++ file_path)%string
  | Broken detail => failure (ReadError detail)
  | NotAList =>
      file_failure
        "Formato inválido: o arquivo deve conter uma lista de matérias"
  | Articles l =>
      match validate_each R l with
      | Thrown e => failure e
      | Done validation_results =>
          let valid_count :=
            Z.of_nat (List.length (filter valid validation_results)) in
          let invalid_count :=
            (Z.of_nat (List.length validation_results) - valid_count)%Z in
          mkFileResult (0 <? valid_count)%Z
            (fmt_int R valid_count ++ " matérias válidas, "
               ++ fmt_int R invalid_count ++ " inválidas")%string
            None
            (Some (Z.of_nat (List.length l)))
            (Some valid_count)
            (Some invalid_count)
            (Some validation_results)
      end
  end.

End Validator.

(** An article that meets every test of the validator: the five required
    keys, a body that is a non-empty string of 500 words or more and five
    paragraphs or fewer without quotation marks, and a non-empty list of
    keywords. *)
Definition well_formed (R : Runtime) (a : dict json) : Prop :=
  (forall field, In field Validator.required_fields -> dict_mem a field = true)
  /\ exists s k ks,
       dict_get a "materia" = Some (JStr s)
       /\ s <> EmptyString
       /\ (500 <= List.length (str_split R s))%nat
       /\ (List.length (Validator.split_paragraphs EmptyString s) <= 5)%nat
       /\ Validator.has_char Validator.double_quote s = false
       /\ Validator.has_char Validator.single_quote s = false
       /\ dict_get a "keywords" = Some (JArr (k :: ks)).

(** An article on which the validation raises: the required keys are there
    and the body is a value other than a string that counts as true. *)
Definition ill_typed (a : dict json) (v : json) : Prop :=
  (forall field, In field Validator.required_fields -> dict_mem a field = true)
  /\ dict_get a "materia" = Some v
  /\ Validator.truthy v = true
  /\ (forall s, v <> JStr s).

(* ================================================================== *)
(** ** [TextProcessor] *)
(* ================================================================== *)

(** More library behaviour: [str.strip], which gives the empty string on
    the empty string and always a piece of its argument,
    [s.replace(old, new)], the test [word and word[0].isupper()] on a word,
    [nltk.word_tokenize], and [re.sub(pattern, repl, text)]. *)
Record TextRuntime : Type := mkTextRuntime {
  str_strip : string -> string;
  str_strip_empty : str_strip EmptyString = EmptyString;
  str_strip_within :
    forall s, exists a b, s = (a ++ str_strip s ++ b)%string;
  str_replace : string -> string -> string -> string;
  starts_upper : string -> bool;
  word_tokenize : string -> list string;
  re_sub : string -> string -> string -> string
}.

(** [l[:n]] for an integer [n]: the first [n] elements, and for a negative
    [n] all but the last [-n]. *)
Definition slice_to {A : Type} (n : Z) (l : list A) : list A :=
  if (0 <=? n)%Z then firstn (Z.to_nat n) l
  else firstn (List.length l - Z.to_nat (- n)) l.

Module TextProcessor.

(** The two attributes of a text processor: the stop words, and the stemmer
    when the language resources could be loaded. *)
Record t : Type := mk {
  stop_words : list string;
  stemmer : option (string -> string)
}.

Section Methods.
Variable self : t.
Variable R : Runtime.
Variable T : TextRuntime.

Definition clean_text (text : string) : string :=
  match text with
  | EmptyString => EmptyString
  | String _ _ =>
      let text := re_sub T "https?://\S+|www\.\S+" EmptyString text in
      let text := re_sub T "<.*?>" EmptyString text in
      let text := re_sub T "[^\w\s]" EmptyString text in
      let text := re_sub T "\d+" EmptyString text in
      str_strip T (re_sub T "\s+" " " text)
  end.

Definition tokenize (text : string) : list string :=
  match text with
  | EmptyString => []
  | String _ _ => word_tokenize T (str_lower R text)
  end.

Definition remove_stopwords (tokens : list string) : list string :=
  match tokens with
  | [] => []
  | _ :: _ => filter (fun token => negb (str_in token (stop_words self))) tokens
  end.

Definition stem_tokens (tokens : list string) : list string :=
  match tokens, stemmer self with
  | [], _ => tokens
  | _ :: _, None => tokens
  | _ :: _, Some stem => map stem tokens
  end.

Definition preprocess_text (text : string) : list string :=
  let cleaned_text := clean_text text in
  let tokens := tokenize cleaned_text in
  let tokens_without_stopwords := remove_stopwords tokens in
  stem_tokens tokens_without_stopwords.

Definition calculate_relevance_score (text : string)
    (keywords : list string) : Q :=
  match text, keywords with
  | EmptyString, _ => 0
  | String _ _, [] => 0
  | String _ _, _ :: _ =>
      let processed_text := preprocess_text text in
      let processed_keywords := flat_map preprocess_text keywords in
      let keyword_count :=
        Z.of_nat
          (List.length
             (filter (fun token => str_in token processed_keywords)
                processed_text)) in
      match processed_text with
      | [] => 0
      | _ :: _ =>
          let ratio :=
            inject_Z keyword_count
            / (inject_Z (Z.of_nat (List.length processed_text)) * (1 # 10)) in
          if Qle_bool 1 ratio then 1 else ratio
      end
  end.

Definition extract_entities (text : string) : list string :=
  let words := tokenize text in
  let entities := filter (starts_upper T) words in
  set_iter R entities.

(** The score of a sentence: the frequencies of its words added up. *)
Definition sentence_score (word_freq : Counter) (sentence : string) : Z :=
  fold_left Z.add
    (map (counter_get word_freq) (remove_stopwords (tokenize sentence)))
    0%Z.

Definition summarize_text (text : string) (max_sentences : Z) : string :=
  match text with
  | EmptyString => EmptyString
  | String _ _ =>
      let sentences := sent_tokenize R text in
      if (Z.of_nat (List.length sentences) <=? max_sentences)%Z then text
      else
        let words := remove_stopwords (tokenize text) in
        let word_freq := counter_of words in
        let sentence_scores :=
          combine (seq 0 (List.length sentences))
            (map (sentence_score word_freq) sentences) in
        let top_sentences :=
          slice_to max_sentences
            (sort_desc Z.leb (@snd nat Z) sentence_scores) in
        let top_sentences := sort_asc Nat.leb (@fst nat Z) top_sentences in
        String.concat " "
          (map (fun e => nth (fst e) sentences EmptyString) top_sentences)
  end.

End Methods.

End TextProcessor.

(* ================================================================== *)
(** ** The generation of articles: [OllamaClient] and [ContentGenerator] *)
(* ================================================================== *)

(** [s.split(sep)] for a separator of one character, [cur] being the piece
    read so far. *)
Fixpoint split_char (sep : ascii) (cur : string) (s : string) : list string :=
  match s with
  | EmptyString => [cur]
  | String c s' =>
      if Ascii.eqb c sep then cur :: split_char sep EmptyString s'
      else split_char sep (cur ++ String c EmptyString)%string s'
  end.

(** The truth value of a string in a condition. *)
Definition nonempty (s : string) : bool :=
  match s with EmptyString => false | String _ _ => true end.

(** A generated article; [generated_at] is the key the content generator
    adds to the dictionary of the client. *)
Module Article.
Record t : Type := mk {
  materia : string;
  titulo : string;
  subtitulo : string;
  editoria : string;
  keywords : list string;
  generated_at : option string
}.
End Article.

(** What a request to the model server gives: a reply with its text, a
    reply without the key ['response'], or an exception. *)
Inductive Reply : Type :=
| Text (response : string)
| NoText
| Failed.

(** What the generation takes from outside, each by the number of the call:
    the reply of the model server to a request with its prompt, temperature
    and token limit, the draws of [random.random], the position
    [random.choice] picks, and the clock readings. *)
Record World : Type := mkWorld {
  ollama_generate : nat -> string -> Q -> Z -> Reply;
  random_random : nat -> Q;
  random_choice : nat -> nat;
  datetime_now : nat -> string
}.

(** How many calls of each kind were made so far. *)
Record Calls : Type := mkCalls {
  requests : nat;
  draws : nat;
  choices : nat;
  readings : nat
}.

(** Computations that make such calls. *)
Definition M (A : Type) : Type := Calls -> A * Calls.

Definition ret {A : Type} (a : A) : M A := fun c => (a, c).

Definition bind {A B : Type} (m : M A) (f : A -> M B) : M B :=
  fun c => f (fst (m c)) (snd (m c)).

Notation "x <- m ;; k" := (bind m (fun x => k))
  (at level 61, m at next level, right associativity).

Module OllamaClient.

Section Methods.
Variable W : World.
Variable R : Runtime.
Variable T : TextRuntime.

(** [generate]: a failed request is logged and gives the empty text. *)
Definition generate (prompt : string) (temperature : Q) (max_tokens : Z)
  : M string :=
  fun c =>
    (match ollama_generate W (requests c) prompt temperature max_tokens with
     | Text response => response
     | NoText => EmptyString
     | Failed => EmptyString
     end,
     mkCalls (S (requests c)) (draws c) (choices c) (readings c)).

Definition nl : string := String Validator.newline EmptyString.

Definition extract_keywords (content : string) (num_keywords : Z)
  : M (list string) :=
  let prompt :=
    ("Extraia exatamente " ++ fmt_int R num_keywords
       ++ " palavras-chave relevantes do seguinte texto, retornando apenas as palavras separadas por vírgula, sem explicações adicionais:"
       ++ nl ++ nl ++ content)%string in
  response <- generate prompt (7 # 10) 1000 ;;
  let keywords := map (str_strip T) (split_char "," EmptyString response) in
  ret (slice_to num_keywords keywords).

(** The four variables of the loop over the lines of the reply. *)
Record Parts : Type := mkParts {
  titulo : string;
  subtitulo : string;
  editoria : string;
  corpo : string
}.

(** The body of the loop, for the line [line] at position [i]. *)
Definition read_line (p : Parts) (e : nat * string) : Parts :=
  let i := fst e in
  let line := snd e in
  if String.prefix "Título:" line then
    mkParts (str_strip T (str_replace T line "Título:" EmptyString))
      (subtitulo p) (editoria p) (corpo p)
  else if String.prefix "Subtítulo:" line then
    mkParts (titulo p)
      (str_strip T (str_replace T line "Subtítulo:" EmptyString))
      (editoria p) (corpo p)
  else if String.prefix "Editoria:" line then
    mkParts (titulo p) (subtitulo p)
      (str_strip T (str_replace T line "Editoria:" EmptyString)) (corpo p)
  else if (3 <? i)%nat && nonempty (str_strip T line) then
    mkParts (titulo p) (subtitulo p) (editoria p)
      (corpo p ++ line ++ nl)%string
  else p.

Definition read_lines (lines : list string) : Parts :=
  fold_left read_line (combine (seq 0 (List.length lines)) lines)
    (mkParts EmptyString EmptyString EmptyString EmptyString).

Definition article_prompt (topic : string) (facts : list string)
    (min_words max_paragraphs : Z) : string :=
  let facts_text :=
    String.concat nl (map (fun fact => "- " ++ fact)%string facts) in
  String.concat nl
    [ EmptyString;
      "        Crie uma matéria jornalística completa sobre o seguinte tópico: "
        ++ topic;
      "        ";
      "        Fatos importantes:";
      "        " ++ facts_text;
      "        ";
      "        Regras:";
      "        - Seja objetivo, até " ++ fmt_int R max_paragraphs
        ++ " parágrafos";
      "        - Mínimo de " ++ fmt_int R min_words ++ " palavras";
      "        - Não use aspas";
      "        - Crie título, subtítulo e editoria";
      "        - Use foco no fato principal";
      "        ";
      "        Formato de saída:";
      "        Título: [título da matéria]";
      "        Subtítulo: [subtítulo da matéria]";
      "        Editoria: [editoria da matéria]";
      "        ";
      "        [Corpo da matéria com " ++ fmt_int R max_paragraphs
        ++ " parágrafos]";
      "        " ]%string.

Definition generate_article (topic : string) (facts : list string)
    (min_words max_paragraphs : Z) : M Article.t :=
  let prompt := article_prompt topic facts min_words max_paragraphs in
  response <- generate prompt (7 # 10) 2000 ;;
  let lines := split_char Validator.newline EmptyString (str_strip T response) in
  let p := read_lines lines in
  keywords <- extract_keywords (corpo p) 5 ;;
  ret (Article.mk (str_strip T (corpo p)) (titulo p) (subtitulo p)
         (editoria p) keywords None).

End Methods.

End OllamaClient.

Module ContentGenerator.

(** The attributes the methods read; [temperature] and [top_p] are stored by
    the constructor and not used. *)
Record t : Type := mk {
  min_words : Z;
  max_paragraphs : Z
}.

Definition editorias : list string :=
  ["Política"; "Economia"; "Entretenimento"; "Tecnologia"; "Esportes";
   "Saúde"; "Educação"; "Mundo"]%string.

Section Methods.
Variable self : t.
Variable W : World.
Variable R : Runtime.
Variable T : TextRuntime.

(** [random.choice(l)]. *)
Definition random_choice_of (l : list string) : M string :=
  fun c =>
    (nth (random_choice W (choices c) mod List.length l) l EmptyString,
     mkCalls (requests c) (draws c) (S (choices c)) (readings c)).

(** [random.random()]. *)
Definition random : M Q :=
  fun c =>
    (random_random W (draws c),
     mkCalls (requests c) (S (draws c)) (choices c) (readings c)).

(** [datetime.now().isoformat()]. *)
Definition now : M string :=
  fun c =>
    (datetime_now W (readings c),
     mkCalls (requests c) (draws c) (choices c) (S (readings c))).

(** [generate_article]; [editoria] is [None] when the argument is left
    out.  The client turns a failed request into the empty reply and the
    other calls of the [try] block do not raise on texts and lists of
    texts, so the handler is not reached. *)
Definition generate_article (topic : string) (facts : list string)
    (editoria : option string) : M Article.t :=
  editoria <-
    match editoria with
    | Some (String c s) => ret (String c s)
    | Some EmptyString => random_choice_of editorias
    | None => random_choice_of editorias
    end ;;
  article_data <-
    OllamaClient.generate_article W R T topic facts (min_words self)
      (max_paragraphs self) ;;
  let article_data :=
    if nonempty (Article.editoria article_data) then article_data
    else Article.mk (Article.materia article_data)
           (Article.titulo article_data) (Article.subtitulo article_data)
           editoria (Article.keywords article_data)
           (Article.generated_at article_data) in
  generated_at <- now ;;
  ret (Article.mk (Article.materia article_data)
         (Article.titulo article_data) (Article.subtitulo article_data)
         (Article.editoria article_data) (Article.keywords article_data)
         (Some generated_at)).

(** Whether a recommendation of this priority gets an article: always for
    the high priority, on a draw above one half for the medium one. *)
Definition selected (priority : string) : M bool :=
  if String.eqb priority Alta then ret true
  else if String.eqb priority Media then
    x <- random ;; ret (InsightGenerator.Qgtb x (1 # 2))
  else ret false.

Fixpoint generate_articles_from_recommendations
    (recommendations : list Recommendation.t) : M (list Article.t) :=
  match recommendations with
  | [] => ret []
  | recommendation :: rest =>
      let topic := Recommendation.topic recommendation in
      let facts := Recommendation.key_facts recommendation in
      let priority := Recommendation.priority recommendation in
      go <- selected priority ;;
      if go then
        article <- generate_article topic facts None ;;
        articles <- generate_articles_from_recommendations rest ;;
        ret (article :: articles)
      else generate_articles_from_recommendations rest
  end.

(** The loop over the topics kept. *)
Fixpoint articles_of_topics (top_topics : list Insight.t)
  : M (list Article.t) :=
  match top_topics with
  | [] => ret []
  | topic_insight :: rest =>
      let topic := Insight.topic topic_insight in
      let facts := Insight.key_facts topic_insight in
      match facts with
      | _ :: _ =>
          article <- generate_article topic facts None ;;
          articles <- articles_of_topics rest ;;
          ret (article :: articles)
      | [] => articles_of_topics rest
      end
  end.

Definition generate_articles_from_trending_topics
    (topic_insights : list Insight.t) (max_articles : Z)
  : M (list Article.t) :=
  let sorted_topics :=
    sort_desc fle Insight.trend_score topic_insights in
  let top_topics := slice_to max_articles sorted_topics in
  articles_of_topics top_topics.

(** [generate_all_articles]: [loaded] is what reading [insights.json] gave,
    [None] when it could not be read or held the empty dictionary.  The
    result is the list that is written to [materias.json] and returned. *)
Definition generate_all_articles (loaded : option InsightBundle.t)
    (max_articles : Z) : M (list Article.t) :=
  match loaded with
  | None => ret []
  | Some insights =>
      let recommendations := InsightBundle.content_recommendations insights in
      let topic_insights := InsightBundle.topic_insights insights in
      recommendation_articles <-
        generate_articles_from_recommendations recommendations ;;
      let remaining_articles :=
        (max_articles - Z.of_nat (List.length recommendation_articles))%Z in
      recommendation_articles <-
        (if (0 <? remaining_articles)%Z then
           trending_articles <-
             generate_articles_from_trending_topics topic_insights
               remaining_articles ;;
           ret (recommendation_articles ++ trending_articles)
         else ret recommendation_articles) ;;
      ret (slice_to max_articles recommendation_articles)
  end.

End Methods.

End ContentGenerator.

(** An article as the JSON object of [materias.json]. *)
Definition article_json (a : Article.t) : dict json :=
  [ ("materia", JStr (Article.materia a));
    ("titulo", JStr (Article.titulo a));
    ("subtitulo", JStr (Article.subtitulo a));
    ("editoria", JStr (Article.editoria a));
    ("keywords", JArr (map JStr (Article.keywords a))) ]%string
  ++ match Article.generated_at a with
     | Some s => [ ("generated_at", JStr s) ]%string
     | None => []
     end.

(** A text has an empty line inside: two line feeds in a row. *)
Fixpoint has_blank_line (s : string) : bool :=
  match s with
  | EmptyString => false
  | String c s' =>
      match s' with
      | EmptyString => false
      | String c' _ =>
          (Ascii.eqb c Validator.newline && Ascii.eqb c' Validator.newline)
          || has_blank_line s'
      end
  end.

(** The lines of a reply that go into the body of the article: those after
    the fourth that are no header line and not blank. *)
Definition body_line (T : TextRuntime) (e : nat * string) : bool :=
  negb (String.prefix "Título:" (snd e))
  && negb (String.prefix "Subtítulo:" (snd e))
  && negb (String.prefix "Editoria:" (snd e))
  && (3 <? fst e)%nat
  && nonempty (str_strip T (snd e)).

(** Lines put one after the other, each followed by a line feed. *)
Definition body_of (lines : list string) : string :=
  fold_right (fun line rest => line ++ OllamaClient.nl ++ rest)%string
    EmptyString lines.

(** A text begins with a line feed. *)
Definition starts_blank (s : string) : bool :=
  match s with
  | EmptyString => false
  | String c _ => Ascii.eqb c Validator.newline
  end.

(** What every article of the content generator has: a body without an
    empty line inside, a keyword, a section and the time of generation. *)
Definition generated (a : Article.t) : Prop :=
  has_blank_line (Article.materia a) = false
  /\ Article.keywords a <> []
  /\ Article.editoria a <> EmptyString
  /\ Article.generated_at a <> None.


(** [s ++ ""] is [s]. *)
Fixpoint append_empty (s : string) : (s ++ EmptyString)%string = s :=
  match s with
  | EmptyString => eq_refl
  | String c s' => f_equal (String c) (append_empty s')
  end.

(** A run while the model server cannot be reached: every request raises.
    The texts have no blanks around them, so stripping changes nothing. *)
Module Outage.

Definition world : World :=
  mkWorld (fun _ _ _ _ => Failed) (fun _ => 0) (fun _ => 0%nat)
    (fun _ => "2024-05-01T12:00:00"%string).

Definition text : TextRuntime :=
  mkTextRuntime (fun s => s) eq_refl
    (fun s =>
       ex_intro _ EmptyString
         (ex_intro _ EmptyString (eq_sym (append_empty s))))
    (fun s _ _ => s) (fun _ => false) (fun s => [s]) (fun _ _ s => s).

Definition generator : ContentGenerator.t := ContentGenerator.mk 500 5.

Definition insights : InsightBundle.t :=
  InsightBundle.mk [] [] []
    [Recommendation.mk "Lula" ["Lula fala sobre a economia do país hoje"]
       "Criar conteúdo sobre Lula" Alta]%string
    "2024-05-01T11:00:00"%string.

Definition start : Calls := mkCalls 0 0 0 0.

End Outage.


(* ================================================================== *)
(** ** The G1 agent: [G1Agent.process_data] *)
(* ================================================================== *)

Module G1Agent.

(** An article as collected, with the keys the processing reads; a key may
    be absent. *)
Module Raw.
Record t : Type := mk {
  title : option string;
  subtitle : option string;
  content : option string;
  url : option string;
  published_date : option string;
  author : option string;
  category : option string;
  image_url : option string
}.
End Raw.

(** An article as written to [g1_processed.json]. *)
Module Processed.
Record t : Type := mk {
  title : string;
  subtitle : string;
  content : string;
  summary : string;
  url : string;
  published_date : string;
  author : string;
  category : string;
  image_url : string;
  source : string;
  entities : list string;
  relevance_score : Q;
  word_count : Z;
  processed_at : string
}.
End Processed.

(** [article.get(key, "")]. *)
Definition get (v : option string) : string :=
  match v with Some s => s | None => EmptyString end.

Definition relevance_keywords : list string :=
  ["política"; "entretenimento"; "notícias"]%string.

Section Methods.
Variable text_processor : TextProcessor.t.
Variable W : World.
Variable R : Runtime.
Variable T : TextRuntime.

(** [datetime.now().isoformat()]. *)
Definition now : M string :=
  fun c =>
    (datetime_now W (readings c),
     mkCalls (requests c) (draws c) (choices c) (S (readings c))).

(** The loop over the collected articles; one without content is skipped.
    The calls of the [try] block do not raise on texts, so the handler is
    not reached. *)
Fixpoint process_each (data : list Raw.t) : M (list Processed.t) :=
  match data with
  | [] => ret []
  | article :: rest =>
      if nonempty (get (Raw.content article)) then
        let cleaned_content :=
          TextProcessor.clean_text T (get (Raw.content article)) in
        let summary :=
          TextProcessor.summarize_text text_processor R T cleaned_content 3 in
        let entities := TextProcessor.extract_entities R T cleaned_content in
        let relevance_score :=
          TextProcessor.calculate_relevance_score text_processor R T
            cleaned_content relevance_keywords in
        processed_at <- now ;;
        let processed_article :=
          Processed.mk (get (Raw.title article)) (get (Raw.subtitle article))
            cleaned_content summary (get (Raw.url article))
            (get (Raw.published_date article)) (get (Raw.author article))
            (get (Raw.category article)) (get (Raw.image_url article))
            "G1" entities relevance_score
            (Z.of_nat (List.length (str_split R cleaned_content)))
            processed_at in
        processed_articles <- process_each rest ;;
        ret (processed_article :: processed_articles)
      else process_each rest
  end.

Definition process_data (data : list Raw.t) : M (list Processed.t) :=
  processed_articles <- process_each data ;;
  ret (sort_desc Qle_bool Processed.relevance_score processed_articles).

End Methods.

(** A processed article as the data processor reads it back from the
    file. *)
Definition item_of (p : Processed.t) : Item.t :=
  Item.mk (Some (Processed.source p)) (Some (Processed.content p)) None None
    (Some (Processed.entities p)) None (Some (Processed.relevance_score p))
    None.

End G1Agent.


(* ================================================================== *)
(** ** The collecting agents: [BaseAgent.run] and [AgentOrchestrator] *)
(* ================================================================== *)

Module BaseAgent.

(** What a method of an agent gives: a value, or an exception with its
    text. *)
Inductive outcome (A : Type) : Type :=
| Returned (a : A)
| Raised (text : string).
Arguments Returned {A} a.
Arguments Raised {A} text.

(** An agent: its source name and its two abstract methods, over the type
    of the articles it collects. *)
Record t : Type := mk {
  Raw : Type;
  source_name : string;
  collect_data : outcome (list Raw);
  process_data : list Raw -> outcome (list Item.t)
}.

(** The dictionary [run] returns. *)
Module Result.
Record t : Type := mk {
  source : string;
  success : bool;
  message : string;
  data : list Item.t;
  file_path : string
}.
End Result.

Section Methods.
Variable self : t.
Variable R : Runtime.
(** Whether the file at a path can be written. *)
Variable writable : string -> bool.

(** [save_data]: the path of the file written, and the empty text when the
    writing fails. *)
Definition save_data (filename : string) : string :=
  let file_path :=
    ("data/raw/" ++ source_name self ++ "/" ++ filename)%string in
  if writable file_path then file_path else EmptyString.

Definition failure (message : string) : Result.t :=
  Result.mk (source_name self) false message [] EmptyString.

(** [run]; the writing of the collected articles to their file, which
    does not raise, is left out. *)
Definition run : Result.t :=
  match collect_data self with
  | Raised e => failure ("Erro: " ++ e)
  | Returned [] => failure "Nenhum dado coletado"
  | Returned (first :: others) =>
      let raw_data := first :: others in
      match process_data self raw_data with
      | Raised e => failure ("Erro: " ++ e)
      | Returned processed_data =>
          let processed_file := (source_name self ++ "_processed.json")%string in
          let file_path := save_data processed_file in
          Result.mk (source_name self) true
            ("Coletados " ++ fmt_int R (Z.of_nat (List.length raw_data))
               ++ " itens, processados "
               ++ fmt_int R (Z.of_nat (List.length processed_data))
               ++ " itens")%string
            processed_data file_path
      end
  end.

End Methods.

End BaseAgent.

Module AgentOrchestrator.

(** The three agents the constructor makes. *)
Record t : Type := mk {
  g1 : BaseAgent.t;
  twitter : BaseAgent.t;
  instagram : BaseAgent.t
}.

(** The dictionary [self.agents]. *)
Definition agents (self : t) : dict BaseAgent.t :=
  [ ("g1", g1 self); ("twitter", twitter self);
    ("instagram", instagram self) ]%string.

Section Methods.
Variable self : t.
Variable R : Runtime.
Variable writable : string -> bool.

Definition run_agent (agent_name : string) : BaseAgent.Result.t :=
  match dict_get (agents self) agent_name with
  | None =>
      BaseAgent.Result.mk agent_name false "Agente não encontrado" []
        EmptyString
  | Some agent => BaseAgent.run agent R writable
  end.

(** The items written to [all_data.json]. *)
Definition consolidated_results (results : dict BaseAgent.Result.t)
  : list Item.t :=
  fold_left
    (fun consolidated_data entry =>
       if BaseAgent.Result.success (snd entry)
       then consolidated_data ++ BaseAgent.Result.data (snd entry)
       else consolidated_data)
    results [].

(** [_save_consolidated_results]: the path written, and the empty text
    when the writing fails. *)
Definition save_consolidated_results (results : dict BaseAgent.Result.t)
  : string :=
  let file_path := "data/processed/all_data.json"%string in
  if writable file_path then file_path else EmptyString.

Definition run_all_agents : dict BaseAgent.Result.t :=
  fold_left
    (fun results agent_name => dict_set results agent_name (run_agent agent_name))
    (dict_keys (agents self)) [].

End Methods.

End AgentOrchestrator.


(* ================================================================== *)
(** ** [ResultValidator.validate_insights_file] *)
(* ================================================================== *)

Module ResultValidator.

(** What the validation of the insights file can raise inside its [try]:
    a failure of opening or decoding the file, or [len] of a value that
    has no length. *)
Inductive Error : Type :=
| ReadError (detail : string)
| TypeError (v : json).

(** What is found at the path of the insights file. *)
Inductive InsightsFile : Type :=
| Missing
| Broken (detail : string)
| Loaded (insights : json).

Record InsightsResult : Type := mkInsightsResult {
  valid : bool;
  message : string;
  insights : json;
  topic_count : option Z;
  recommendation_count : option Z
}.

Definition required_fields : list string :=
  ["source_distribution"; "topic_insights"; "engagement_metrics";
   "content_recommendations"]%string.

Section Methods.
(** The text of an exception, and the number of characters of a text. *)
Variable str_of : Error -> string.
Variable str_len : string -> Z.

(** [len(v)]; [None] when the value has no length. *)
Definition len (v : json) : option Z :=
  match v with
  | JArr l => Some (Z.of_nat (List.length l))
  | JObj d => Some (Z.of_nat (List.length d))
  | JStr s => Some (str_len s)
  | JNull => None
  | JBool _ => None
  | JNum _ => None
  | JFloat _ => None
  end.

Definition failure (e : Error) : InsightsResult :=
  mkInsightsResult false ("Erro ao validar arquivo: " ++ str_of e)%string
    (JObj []) None None.

Definition validate_insights_file (file_path : string) (file : InsightsFile)
  : InsightsResult :=
  match file with
  | Missing =>
      mkInsightsResult false ("Arquivo não encontrado: " ++ file_path)%string
        (JObj []) None None
  | Broken detail => failure (ReadError detail)
  | Loaded (JObj insights) =>
      let missing_fields :=
        filter (fun field => negb (dict_mem insights field))
          required_fields in
      match missing_fields with
      | _ :: _ =>
          mkInsightsResult false
            ("Campos obrigatórios ausentes: "
               ++ String.concat ", " missing_fields)%string
            (JObj insights) None None
      | [] =>
          let topic_insights :=
            Validator.get insights "topic_insights" (JArr []) in
          let content_recommendations :=
            Validator.get insights "content_recommendations" (JArr []) in
          match len topic_insights with
          | None => failure (TypeError topic_insights)
          | Some topic_count =>
              match len content_recommendations with
              | None => failure (TypeError content_recommendations)
              | Some recommendation_count =>
                  mkInsightsResult true "Arquivo de insights válido"
                    (JObj insights) (Some topic_count)
                    (Some recommendation_count)
              end
          end
      end
  | Loaded _ =>
      mkInsightsResult false
        "Formato inválido: o arquivo deve conter um dicionário de insights"
        (JObj []) None None
  end.

End Methods.

End ResultValidator.

(** The insights as the JSON object of [insights.json]. *)
Definition share_json (s : SourceShare.t) : json :=
  JObj [ ("count", JNum (inject_Z (SourceShare.count s)));
         ("percentage", JFloat (SourceShare.percentage s)) ]%string.

Definition insight_json (i : Insight.t) : json :=
  JObj [ ("topic", JStr (Insight.topic i));
         ("mentions", JNum (inject_Z (Insight.mentions i)));
         ("engagement", JFloat (Insight.engagement i));
         ("trend_score", JFloat (Insight.trend_score i));
         ("trend_status", JStr (Insight.trend_status i));
         ("sources", JArr (map JStr (Insight.sources i)));
         ("key_facts", JArr (map JStr (Insight.key_facts i)));
         ("summary", JStr (Insight.summary i)) ]%string.

Definition metrics_json (m : SourceMetrics.t) : json :=
  JObj ([ ("total_items", JNum (inject_Z (SourceMetrics.total_items m)));
          ("total_engagement", JFloat (SourceMetrics.total_engagement m));
          ("avg_engagement", JFloat (SourceMetrics.avg_engagement m));
          ("high_engagement_items",
           JNum (inject_Z (SourceMetrics.high_engagement_items m))) ]%string
        ++ match SourceMetrics.high_engagement_percentage m with
           | Some p => [ ("high_engagement_percentage", JFloat p) ]%string
           | None => []
           end).

Definition recommendation_json (r : Recommendation.t) : json :=
  JObj [ ("topic", JStr (Recommendation.topic r));
         ("key_facts", JArr (map JStr (Recommendation.key_facts r)));
         ("recommendation", JStr (Recommendation.recommendation r));
         ("priority", JStr (Recommendation.priority r)) ]%string.

Definition insights_json (b : InsightBundle.t) : dict json :=
  [ ("source_distribution",
     JObj (map (fun e => (fst e, share_json (snd e)))
             (InsightBundle.source_distribution b)));
    ("topic_insights",
     JArr (map insight_json (InsightBundle.topic_insights b)));
    ("engagement_metrics",
     JObj (map (fun e => (fst e, metrics_json (snd e)))
             (InsightBundle.engagement_metrics b)));
    ("content_recommendations",
     JArr (map recommendation_json (InsightBundle.content_recommendations b)));
    ("generated_at", JStr (InsightBundle.generated_at b)) ]%string.


(* ================================================================== *)
(** ** The order of the binary64 numbers *)
(* ================================================================== *)

(** The comparison of two finite numbers of the same sign looks at the
    exponents, then at the mantissas. *)
Definition lex (e1 : Z) (m1 : positive) (e2 : Z) (m2 : positive)
  : comparison :=
  match Z.compare e1 e2 with
  | Lt => Lt
  | Gt => Gt
  | Eq => Pos.compare_cont Eq m1 m2
  end.

(** The place of a number that is not a NaN in the order: the sign class,
    then exponent and mantissa, both negated for a negative number. *)
Definition rank (a : float) : Z * Z * Z :=
  match a with
  | S754_nan => (0, 0, 0)
  | S754_infinity true => (-2, 0, 0)
  | S754_infinity false => (2, 0, 0)
  | S754_zero _ => (0, 0, 0)
  | S754_finite true m e => (-1, - e, - Zpos m)
  | S754_finite false m e => (1, e, Zpos m)
  end%Z.

Definition rank_le (x y : Z * Z * Z) : Prop :=
  let '(a1, b1, c1) := x in
  let '(a2, b2, c2) := y in
  (a1 < a2 \/ (a1 = a2 /\ (b1 < b2 \/ (b1 = b2 /\ c1 <= c2))))%Z.

(* ================================================================== *)
(** ** Facts about comparisons of rationals *)
(* ================================================================== *)

Lemma Qle_bool_total (a b : Q) : Qle_bool a b = true \/ Qle_bool b a = true.
Proof.
  rewrite !Qle_bool_iff.
  destruct (Qlt_le_dec a b) as [H | H]; [left; apply Qlt_le_weak, H | now right].
Qed.

Lemma Qle_bool_trans (a b c : Q) :
  Qle_bool a b = true -> Qle_bool b c = true -> Qle_bool a c = true.
Proof. rewrite !Qle_bool_iff. apply Qle_trans. Qed.

Lemma Qgtb_lt (a b : Q) : InsightGenerator.Qgtb a b = true <-> b < a.
Proof.
  unfold InsightGenerator.Qgtb. rewrite negb_true_iff.
  split; intro H.
  - apply Qnot_le_lt. intro Hle. apply Qle_bool_iff in Hle. congruence.
  - destruct (Qle_bool a b) eqn:E; [| reflexivity].
    apply Qle_bool_iff in E. exfalso. exact (Qlt_not_le _ _ H E).
Qed.

Lemma Qgtb_false_le (a b : Q) : InsightGenerator.Qgtb a b = false <-> a <= b.
Proof.
  unfold InsightGenerator.Qgtb. rewrite negb_false_iff. apply Qle_bool_iff.
Qed.

Lemma Qeq_bool_le (a b : Q) :
  Qeq_bool a b = Qle_bool a b && Qle_bool b a.
Proof.
  destruct (Qeq_bool a b) eqn:E.
  - apply Qeq_bool_iff in E. symmetry. apply andb_true_iff.
    rewrite !Qle_bool_iff. rewrite E. split; apply Qle_refl.
  - symmetry. apply not_true_is_false. intro H.
    apply andb_true_iff in H. rewrite !Qle_bool_iff in H.
    destruct H as [H1 H2].
    assert (Heq : a == b) by (apply Qle_antisym; assumption).
    apply Qeq_bool_iff in Heq. congruence.
Qed.

(* ================================================================== *)
(** ** Facts about comparisons of binary64 numbers *)
(* ================================================================== *)

Lemma lex_Lt (e1 : Z) (m1 : positive) (e2 : Z) (m2 : positive) :
  lex e1 m1 e2 m2 = Lt <-> (e1 < e2 \/ (e1 = e2 /\ Zpos m1 < Zpos m2))%Z.
Proof.
  unfold lex. change (Pos.compare_cont Eq m1 m2) with (Pos.compare m1 m2).
  destruct (Z.compare_spec e1 e2); destruct (Pos.compare_spec m1 m2);
    split; intro H'; try discriminate H'; try reflexivity; try lia.
Qed.

Lemma lex_Eq (e1 : Z) (m1 : positive) (e2 : Z) (m2 : positive) :
  lex e1 m1 e2 m2 = Eq <-> e1 = e2 /\ m1 = m2.
Proof.
  unfold lex. change (Pos.compare_cont Eq m1 m2) with (Pos.compare m1 m2).
  destruct (Z.compare_spec e1 e2); destruct (Pos.compare_spec m1 m2);
    split; intro H'; try discriminate H'; try reflexivity; try lia.
Qed.

Lemma lex_Gt (e1 : Z) (m1 : positive) (e2 : Z) (m2 : positive) :
  lex e1 m1 e2 m2 = Gt <-> (e2 < e1 \/ (e1 = e2 /\ Zpos m2 < Zpos m1))%Z.
Proof.
  unfold lex. change (Pos.compare_cont Eq m1 m2) with (Pos.compare m1 m2).
  destruct (Z.compare_spec e1 e2); destruct (Pos.compare_spec m1 m2);
    split; intro H'; try discriminate H'; try reflexivity; try lia.
Qed.

Lemma lex_opp (e1 : Z) (m1 : positive) (e2 : Z) (m2 : positive) :
  match Z.compare e1 e2 with
  | Lt => Gt
  | Gt => Lt
  | Eq => CompOpp (Pos.compare_cont Eq m1 m2)
  end = CompOpp (lex e1 m1 e2 m2).
Proof. unfold lex. destruct (Z.compare e1 e2); reflexivity. Qed.

Ltac lex_facts :=
  repeat match goal with
         | H : lex _ _ _ _ = Eq |- _ => apply lex_Eq in H
         | H : lex _ _ _ _ = Lt |- _ => apply lex_Lt in H
         | H : lex _ _ _ _ = Gt |- _ => apply lex_Gt in H
         end.

Lemma fle_rank (a b : float) :
  is_nan a = false -> is_nan b = false ->
  (fle a b = true <-> rank_le (rank a) (rank b)).
Proof.
  unfold fle, SFleb, SFcompare.
  destruct a as [sa | sa | | sa ma ea], b as [sb | sb | | sb mb eb];
    intros Ha Hb; try discriminate Ha; try discriminate Hb;
    try destruct sa; try destruct sb; cbn [rank rank_le];
    try (split; [intros _; lia | reflexivity]);
    try (split; [intro H; discriminate H | lia]).
  - rewrite lex_opp.
    destruct (lex ea ma eb mb) eqn:E; cbn [CompOpp]; lex_facts.
    + split; [lia | reflexivity].
    + split; [intro H; discriminate H | lia].
    + split; [lia | reflexivity].
  - fold (lex ea ma eb mb).
    destruct (lex ea ma eb mb) eqn:E; lex_facts.
    + split; [lia | reflexivity].
    + split; [lia | reflexivity].
    + split; [intro H; discriminate H | lia].
Qed.

(** A comparison that holds has no NaN on either side. *)
Lemma fle_not_nan (a b : float) :
  fle a b = true -> is_nan a = false /\ is_nan b = false.
Proof.
  unfold fle, SFleb, SFcompare.
  destruct a as [sa | sa | | sa ma ea], b as [sb | sb | | sb mb eb];
    intro H; try discriminate H; split; reflexivity.
Qed.

Lemma flt_not_nan (a b : float) :
  flt a b = true -> is_nan a = false /\ is_nan b = false.
Proof.
  unfold flt, SFltb, SFcompare.
  destruct a as [sa | sa | | sa ma ea], b as [sb | sb | | sb mb eb];
    intro H; try discriminate H; split; reflexivity.
Qed.

(** Without a NaN, [a < b] is the negation of [b <= a]. *)
Lemma flt_fle (a b : float) :
  is_nan a = false -> is_nan b = false -> flt a b = negb (fle b a).
Proof.
  unfold flt, fle, SFltb, SFleb, SFcompare.
  destruct a as [sa | sa | | sa ma ea], b as [sb | sb | | sb mb eb];
    intros Ha Hb; try discriminate Ha; try discriminate Hb;
    try destruct sa; try destruct sb; try reflexivity.
  - rewrite !lex_opp.
    destruct (lex ea ma eb mb) eqn:E1; destruct (lex eb mb ea ma) eqn:E2;
      try reflexivity; lex_facts; exfalso; lia.
  - fold (lex ea ma eb mb). fold (lex eb mb ea ma).
    destruct (lex ea ma eb mb) eqn:E1; destruct (lex eb mb ea ma) eqn:E2;
      try reflexivity; lex_facts; exfalso; lia.
Qed.

Lemma feq_fle (a b : float) : feq a b = fle a b && fle b a.
Proof.
  unfold feq, fle, SFeqb, SFleb, SFcompare.
  destruct a as [sa | sa | | sa ma ea], b as [sb | sb | | sb mb eb];
    try destruct sa; try destruct sb; try reflexivity.
  - rewrite !lex_opp.
    destruct (lex ea ma eb mb) eqn:E1; destruct (lex eb mb ea ma) eqn:E2;
      try reflexivity; lex_facts; exfalso; lia.
  - fold (lex ea ma eb mb). fold (lex eb mb ea ma).
    destruct (lex ea ma eb mb) eqn:E1; destruct (lex eb mb ea ma) eqn:E2;
      try reflexivity; lex_facts; exfalso; lia.
Qed.

Lemma rank_le_trans (x y z : Z * Z * Z) :
  rank_le x y -> rank_le y z -> rank_le x z.
Proof.
  destruct x as [[a1 b1] c1], y as [[a2 b2] c2], z as [[a3 b3] c3].
  unfold rank_le. lia.
Qed.

Lemma rank_le_total (x y : Z * Z * Z) : rank_le x y \/ rank_le y x.
Proof.
  destruct x as [[a1 b1] c1], y as [[a2 b2] c2]. unfold rank_le. lia.
Qed.

Lemma fle_trans (a b c : float) :
  fle a b = true -> fle b c = true -> fle a c = true.
Proof.
  intros H1 H2.
  destruct (fle_not_nan _ _ H1) as [Ha Hb], (fle_not_nan _ _ H2) as [_ Hc].
  apply fle_rank in H1, H2; try assumption.
  apply fle_rank; try assumption. eapply rank_le_trans; eassumption.
Qed.

Lemma fle_total (a b : float) :
  is_nan a = false -> is_nan b = false -> fle a b = true \/ fle b a = true.
Proof.
  intros Ha Hb. destruct (rank_le_total (rank a) (rank b)) as [H | H];
    [left | right]; apply fle_rank; assumption.
Qed.

(** No number is both above and not above another. *)
Lemma flt_fle_false (a b : float) : flt a b = true -> fle b a = false.
Proof.
  intro H. destruct (flt_not_nan _ _ H) as [Ha Hb].
  rewrite (flt_fle a b Ha Hb) in H. now apply negb_true_iff in H.
Qed.

(** A quotient whose dividend is a NaN is a NaN. *)
Lemma fdiv_nan (a b : float) : is_nan a = true -> is_nan (fdiv a b) = true.
Proof.
  destruct a; intro H; try discriminate H. destruct b; reflexivity.
Qed.

(* ================================================================== *)
(** ** Facts about the stable sort *)
(* ================================================================== *)

Section SortFacts.
Variables (A K : Type).
Variable leb : K -> K -> bool.
Variable key : A -> K.
Hypothesis leb_total : forall a b, leb a b = true \/ leb b a = true.
Hypothesis leb_trans :
  forall a b c, leb a b = true -> leb b c = true -> leb a c = true.

Lemma insert_desc_perm (x : A) (s : list A) :
  Permutation (x :: s) (insert_desc leb key x s).
Proof using Type.
  induction s as [| y s IH]; simpl.
  - apply Permutation_refl.
  - destruct (leb (key y) (key x)).
    + apply Permutation_refl.
    + eapply perm_trans; [apply perm_swap |].
      apply perm_skip, IH.
Qed.

Lemma sort_desc_perm (l : list A) : Permutation l (sort_desc leb key l).
Proof using Type.
  induction l as [| x l IH]; simpl.
  - constructor.
  - eapply perm_trans; [apply perm_skip, IH | apply insert_desc_perm].
Qed.

Lemma insert_desc_sorted (x : A) (s : list A) :
  StronglySorted (desc leb key) s -> StronglySorted (desc leb key) (insert_desc leb key x s).
Proof using leb_total leb_trans.
  induction 1 as [| y s Hs IH Hy]; simpl.
  - repeat constructor.
  - destruct (leb (key y) (key x)) eqn:E.
    + constructor; [constructor; assumption |].
      constructor; [exact E |].
      rewrite Forall_forall in *. intros z Hz.
      unfold desc in *. eapply leb_trans; [apply Hy, Hz | exact E].
    + constructor; [exact IH |].
      rewrite Forall_forall in *. intros z Hz.
      apply Permutation_in with (l' := x :: s) in Hz;
        [| apply Permutation_sym, insert_desc_perm].
      destruct Hz as [<- | Hz]; [| apply Hy, Hz].
      unfold desc. destruct (leb_total (key x) (key y)); congruence.
Qed.

Lemma sort_desc_sorted (l : list A) :
  StronglySorted (desc leb key) (sort_desc leb key l).
Proof using leb_total leb_trans.
  induction l as [| x l IH]; simpl.
  - constructor.
  - apply insert_desc_sorted, IH.
Qed.

Lemma insert_desc_stable (k : K) (x : A) (s : list A) :
  filter (tied leb key k) (insert_desc leb key x s) = filter (tied leb key k) (x :: s).
Proof using leb_trans.
  induction s as [| y s IH]; [reflexivity |].
  cbn [insert_desc]. destruct (leb (key y) (key x)) eqn:E; [reflexivity |].
  cbn [filter] in *. rewrite IH.
  destruct (tied leb key k x) eqn:Ex; [| reflexivity].
  destruct (tied leb key k y) eqn:Ey; [| reflexivity].
  exfalso. unfold tied in *.
  apply andb_true_iff in Ex, Ey. destruct Ex as [_ Ex], Ey as [Ey _].
  rewrite (leb_trans _ _ _ Ey Ex) in E. discriminate.
Qed.

Lemma sort_desc_stable (k : K) (l : list A) :
  filter (tied leb key k) (sort_desc leb key l) = filter (tied leb key k) l.
Proof using leb_trans.
  induction l as [| x l IH]; [reflexivity |].
  cbn [sort_desc fold_right]. rewrite insert_desc_stable.
  cbn [filter]. fold (sort_desc leb key l). rewrite IH. reflexivity.
Qed.

End SortFacts.

(** The same when the order is total on the keys of the list only. *)
Section SortFactsOn.
Variables (A K : Type).
Variable leb : K -> K -> bool.
Variable key : A -> K.
Variable dom : K -> Prop.
Hypothesis leb_total :
  forall a b, dom a -> dom b -> leb a b = true \/ leb b a = true.
Hypothesis leb_trans :
  forall a b c, leb a b = true -> leb b c = true -> leb a c = true.

Lemma insert_desc_sorted_on (x : A) (s : list A) :
  dom (key x) -> Forall (fun y => dom (key y)) s ->
  StronglySorted (desc leb key) s ->
  StronglySorted (desc leb key) (insert_desc leb key x s).
Proof using leb_total leb_trans.
  intros Hx Hd Hs. induction Hs as [| y s Hs IH Hy]; simpl.
  - repeat constructor.
  - inversion Hd as [| ? ? Hdy Hds]; subst.
    destruct (leb (key y) (key x)) eqn:E.
    + constructor; [constructor; assumption |].
      constructor; [exact E |].
      rewrite Forall_forall in *. intros z Hz.
      unfold desc in *. eapply leb_trans; [apply Hy, Hz | exact E].
    + constructor; [exact (IH Hds) |].
      rewrite Forall_forall in *. intros z Hz.
      apply Permutation_in with (l' := x :: s) in Hz;
        [| apply Permutation_sym, insert_desc_perm].
      destruct Hz as [<- | Hz]; [| apply Hy, Hz].
      unfold desc. destruct (leb_total (key x) (key y) Hx Hdy); congruence.
Qed.

Lemma sort_desc_sorted_on (l : list A) :
  Forall (fun y => dom (key y)) l ->
  StronglySorted (desc leb key) (sort_desc leb key l).
Proof using leb_total leb_trans.
  induction 1 as [| x l Hx Hl IH]; simpl.
  - constructor.
  - apply insert_desc_sorted_on; [exact Hx | | exact IH].
    rewrite Forall_forall in *. intros y Hy. apply Hl.
    eapply Permutation_in; [apply Permutation_sym, sort_desc_perm | exact Hy].
Qed.

End SortFactsOn.

(* ================================================================== *)
(** ** Topic insights and recommendations *)
(* ================================================================== *)

Section InsightFacts.
Import InsightGenerator.
Variable cfg : Config.

Lemma status_alta (s : float) :
  status_of cfg s = Alta <-> flt (trending_threshold cfg) s = true.
Proof using Type.
  unfold status_of.
  destruct (flt (trending_threshold cfg) s).
  - tauto.
  - destruct (flt (half_threshold cfg) s);
      split; intro H; discriminate H.
Qed.

(** A score above half the threshold is not above the threshold exactly
    when it is at most the threshold: neither is a NaN then. *)
Lemma not_above_threshold (s : float) :
  flt (half_threshold cfg) s = true ->
  (flt (trending_threshold cfg) s = false
   <-> fle s (trending_threshold cfg) = true).
Proof using Type.
  intro H. destruct (flt_not_nan _ _ H) as [Hh Hs].
  assert (Ht : is_nan (trending_threshold cfg) = false).
  { destruct (is_nan (trending_threshold cfg)) eqn:E; [| reflexivity].
    unfold half_threshold in Hh. rewrite (fdiv_nan _ _ E) in Hh.
    discriminate Hh. }
  rewrite (flt_fle _ _ Ht Hs), negb_false_iff. reflexivity.
Qed.

Lemma status_media (s : float) :
  status_of cfg s = Media
  <-> flt (half_threshold cfg) s = true
      /\ fle s (trending_threshold cfg) = true.
Proof using Type.
  unfold status_of.
  destruct (flt (half_threshold cfg) s) eqn:Eh.
  - rewrite <- (not_above_threshold s Eh).
    destruct (flt (trending_threshold cfg) s).
    + split; [intro H; discriminate H | intros [_ H]; discriminate H].
    + tauto.
  - destruct (flt (trending_threshold cfg) s);
      (split; [intro H; discriminate H | intros [H _]; discriminate H]).
Qed.

Lemma status_baixa (s : float) :
  status_of cfg s = Baixa
  <-> flt (trending_threshold cfg) s = false
      /\ ~ (flt (half_threshold cfg) s = true
            /\ fle s (trending_threshold cfg) = true).
Proof using Type.
  rewrite <- status_media. unfold status_of.
  destruct (flt (trending_threshold cfg) s).
  - split; [intro H; discriminate H | intros [H _]; discriminate H].
  - destruct (flt (half_threshold cfg) s).
    + split; [intro H; discriminate H | intros [_ H]; now elim H].
    + split; [intros _; split; [reflexivity | intro H; discriminate H]
             | reflexivity].
Qed.

End InsightFacts.

(** C1. For trend candidates whose counts are in the range of the floats
    (beyond it the product raises [OverflowError]) and none of whose scores
    is a NaN: each candidate gives one topic insight whose [trend_score] is
    [count * 0.6 + avg_engagement * 0.4] in binary64 arithmetic; its
    [trend_status] is "Alta" exactly when the score is above
    [trending_threshold], "Média" exactly when it is above half the
    threshold and at most the threshold, and "Baixa" in every other case.
    The returned list holds the insights of the candidates in descending
    order of score, and insights with the same score stand in the order of
    their candidates.  With the default threshold 0.7 a score of 0.7 is
    "Média" and a score of 0.35 is "Baixa"; the score of a candidate with
    count 0 and mean engagement 1.75 is 0.7000000000000001, the product
    [1.75 * 0.4] being rounded, and its status is "Alta". *)
Theorem topic_insights_scored_and_ranked
    (cfg : InsightGenerator.Config) (R : Runtime) (data : Consolidated.t) :
  (forall t, In t (Consolidated.trending_topics data) ->
     int_fits (InsightGenerator.get_count t) = true) ->
  (forall t, In t (Consolidated.trending_topics data) ->
     is_nan (InsightGenerator.score t) = false) ->
  let thr := InsightGenerator.trending_threshold cfg in
  let half := fdiv thr (float_of_Z 2) in
  let insights :=
    map (InsightGenerator.insight_of cfg R) (Consolidated.trending_topics data) in
  let out := InsightGenerator.generate_topic_insights cfg R data in
  Permutation insights out
  /\ (forall t : TrendingTopic.t,
        let i := InsightGenerator.insight_of cfg R t in
        let s := Insight.trend_score i in
        s = fadd (fmul (float_of_Z (InsightGenerator.get_count t))
                    (float_of_Q (6 # 10)))
              (fmul (InsightGenerator.get_avg_engagement t)
                 (float_of_Q (4 # 10)))
        /\ (Insight.trend_status i = Alta <-> flt thr s = true)
        /\ (Insight.trend_status i = Media
            <-> flt half s = true /\ fle s thr = true)
        /\ (Insight.trend_status i = Baixa
            <-> flt thr s = false
                /\ ~ (flt half s = true /\ fle s thr = true)))
  /\ StronglySorted
       (fun a b => fle (Insight.trend_score b) (Insight.trend_score a) = true)
       out
  /\ (forall q : float,
        filter (fun i => feq (Insight.trend_score i) q) out
        = filter (fun i => feq (Insight.trend_score i) q) insights)
  /\ InsightGenerator.status_of InsightGenerator.default_config
       (float_of_Q (7 # 10)) = Media
  /\ InsightGenerator.status_of InsightGenerator.default_config
       (float_of_Q (35 # 100)) = Baixa
  /\ InsightGenerator.score (Example.candidate "T" 0 (175 # 100) [])
     = S754_finite false 6305039478318695 (-53)
  /\ float_of_Q (7 # 10) = S754_finite false 6305039478318694 (-53)
  /\ InsightGenerator.status_of InsightGenerator.default_config
       (InsightGenerator.score (Example.candidate "T" 0 (175 # 100) []))
     = Alta.
Proof.
  intros Hfits Hnan thr half insights out.
  unfold out, InsightGenerator.generate_topic_insights.
  fold insights.
  split; [apply sort_desc_perm |].
  split.
  { intro t. cbv zeta. subst thr half.
    cbn [InsightGenerator.insight_of Insight.trend_score Insight.trend_status].
    split; [reflexivity |].
    split; [apply status_alta |].
    split; [apply status_media | apply status_baixa]. }
  split.
  { assert (Hdom : Forall (fun i => is_nan (Insight.trend_score i) = false)
                     insights).
    { unfold insights. apply Forall_forall. intros i Hi.
      apply in_map_iff in Hi. destruct Hi as (t & <- & Ht).
      exact (Hnan t Ht). }
    pose proof (@sort_desc_sorted_on _ _ fle Insight.trend_score
                  (fun k => is_nan k = false) fle_total fle_trans
                  insights Hdom) as H.
    exact H. }
  split; [| repeat split; vm_compute; reflexivity].
  intro q.
  rewrite !(filter_ext (fun i => feq (Insight.trend_score i) q)
              (tied fle Insight.trend_score q))
    by (intro i; apply feq_fle).
  apply sort_desc_stable. apply fle_trans.
Qed.

(** The three candidates of the example have counts in the range of the
    floats and scores that are numbers; their insights come out in
    descending order of score. *)
Lemma topic_insights_scored_and_ranked_witness :
  (forall t, In t (Consolidated.trending_topics Example.candidates) ->
     int_fits (InsightGenerator.get_count t) = true)
  /\ (forall t, In t (Consolidated.trending_topics Example.candidates) ->
        is_nan (InsightGenerator.score t) = false)
  /\ Permutation
       (map (InsightGenerator.insight_of InsightGenerator.default_config
               Example.forward)
          (Consolidated.trending_topics Example.candidates))
       (InsightGenerator.generate_topic_insights InsightGenerator.default_config
          Example.forward Example.candidates)
  /\ StronglySorted
       (fun a b => fle (Insight.trend_score b) (Insight.trend_score a) = true)
       (InsightGenerator.generate_topic_insights InsightGenerator.default_config
          Example.forward Example.candidates).
Proof.
  assert (H1 : forall t,
            In t (Consolidated.trending_topics Example.candidates) ->
            int_fits (InsightGenerator.get_count t) = true).
  { intros t [<- | [<- | [<- | []]]]; vm_compute; reflexivity. }
  assert (H2 : forall t,
            In t (Consolidated.trending_topics Example.candidates) ->
            is_nan (InsightGenerator.score t) = false).
  { intros t [<- | [<- | [<- | []]]]; vm_compute; reflexivity. }
  split; [exact H1 |]. split; [exact H2 |].
  pose proof (topic_insights_scored_and_ranked InsightGenerator.default_config
                Example.forward Example.candidates H1 H2) as H.
  cbv zeta in H. destruct H as (Hp & _ & Hs & _).
  split; [exact Hp | exact Hs].
Defined.

Lemma filter_andb {A : Type} (f g : A -> bool) (l : list A) :
  filter f (filter g l) = filter (fun x => g x && f x) l.
Proof.
  induction l as [| x l IH]; [reflexivity |].
  cbn [filter]. destruct (g x); cbn [andb filter]; rewrite IH; reflexivity.
Qed.

Lemma spec_recommendedb_iff (cfg : InsightGenerator.Config)
    (t : TrendingTopic.t) :
  spec_recommendedb cfg t = true <-> spec_recommended cfg t.
Proof.
  unfold spec_recommendedb, spec_recommended. cbv zeta.
  rewrite orb_true_iff, !andb_true_iff, Nat.leb_le.
  tauto.
Qed.

Lemma bands_disjoint (cfg : InsightGenerator.Config) (t : TrendingTopic.t) :
  InsightGenerator.in_high_band cfg t && InsightGenerator.in_medium_band cfg t
  = false.
Proof.
  unfold InsightGenerator.in_high_band, InsightGenerator.in_medium_band.
  destruct (flt (InsightGenerator.trending_threshold cfg)
              (InsightGenerator.score t)) eqn:E; [| reflexivity].
  rewrite (flt_fle_false _ _ E). cbn. apply andb_false_r.
Qed.

Lemma spec_in_high_band (cfg : InsightGenerator.Config)
    (t : TrendingTopic.t) :
  InsightGenerator.in_high_band cfg t = true ->
  spec_recommendedb cfg t = true
  /\ spec_recommendation cfg t = InsightGenerator.high_recommendation t
  /\ InsightGenerator.in_medium_band cfg t = false.
Proof.
  intro H. pose proof (bands_disjoint cfg t) as Hd. rewrite H in Hd.
  unfold spec_recommendedb, spec_recommendation.
  unfold InsightGenerator.in_high_band in H.
  rewrite H. auto.
Qed.

Lemma spec_not_in_high_band (cfg : InsightGenerator.Config)
    (t : TrendingTopic.t) :
  InsightGenerator.in_high_band cfg t = false ->
  spec_recommendedb cfg t
  = InsightGenerator.in_medium_band cfg t
    && (2 <=? List.length (InsightGenerator.get_key_facts t))%nat
  /\ spec_recommendation cfg t = InsightGenerator.medium_recommendation t.
Proof.
  intro H.
  unfold spec_recommendedb, spec_recommendation,
    InsightGenerator.in_medium_band, InsightGenerator.half_threshold.
  unfold InsightGenerator.in_high_band in H.
  rewrite H. auto.
Qed.

(** C2. For trend candidates whose counts are in the range of the floats
    (beyond it the product raises [OverflowError]): the recommendations are
    those of the high band (score above [trending_threshold]; priority
    "Alta" with three key facts or more, else "Média") followed by those of
    the medium band (score above half the threshold and at most the
    threshold, two key facts or more; priority "Média"), the score being
    [count * 0.6 + avg_engagement * 0.4] in binary64 arithmetic.  No topic
    is in both bands, and the list holds exactly one recommendation for each
    topic that meets one of the two conditions and none for any other
    topic.  A candidate with count 0, mean engagement 1.75 and two key
    facts, whose score is 0.7000000000000001, gets the recommendation of
    the high band. *)
Theorem recommendations_by_band
    (cfg : InsightGenerator.Config) (data : Consolidated.t) :
  (forall t, In t (Consolidated.trending_topics data) ->
     int_fits (InsightGenerator.get_count t) = true) ->
  let thr := InsightGenerator.trending_threshold cfg in
  let half := fdiv thr (float_of_Z 2) in
  let topics := Consolidated.trending_topics data in
  let facts t := List.length (InsightGenerator.get_key_facts t) in
  let out := InsightGenerator.generate_content_recommendations cfg data in
  (forall t, InsightGenerator.score t
             = fadd (fmul (float_of_Z (InsightGenerator.get_count t))
                       (float_of_Q (6 # 10)))
                 (fmul (InsightGenerator.get_avg_engagement t)
                    (float_of_Q (4 # 10))))
  /\ (forall t, InsightGenerator.in_high_band cfg t = true
                <-> flt thr (InsightGenerator.score t) = true)
  /\ (forall t, InsightGenerator.in_medium_band cfg t = true
                <-> flt half (InsightGenerator.score t) = true
                    /\ fle (InsightGenerator.score t) thr = true)
  /\ (forall t, ~ (InsightGenerator.in_high_band cfg t = true
                   /\ InsightGenerator.in_medium_band cfg t = true))
  /\ out
     = map InsightGenerator.high_recommendation
         (filter (InsightGenerator.in_high_band cfg) topics)
       ++ map InsightGenerator.medium_recommendation
            (filter (fun t => InsightGenerator.in_medium_band cfg t
                              && (2 <=? facts t)%nat) topics)
  /\ (forall t,
        Recommendation.priority (InsightGenerator.high_recommendation t)
        = (if (3 <=? facts t)%nat then Alta else Media)
        /\ Recommendation.priority (InsightGenerator.medium_recommendation t)
           = Media)
  /\ (forall t, spec_recommendedb cfg t = true <-> spec_recommended cfg t)
  /\ Permutation out
       (map (spec_recommendation cfg) (filter (spec_recommendedb cfg) topics))
  /\ InsightGenerator.generate_content_recommendations
       InsightGenerator.default_config
       (Consolidated.mk 0 0 []
          [Example.candidate "T" 0 (175 # 100) ["f1"; "f2"]%string]
          EmptyString)
     = [InsightGenerator.high_recommendation
          (Example.candidate "T" 0 (175 # 100) ["f1"; "f2"]%string)].
Proof.
  intros Hfits thr half topics facts out.
  assert (Hout :
    out
    = map InsightGenerator.high_recommendation
        (filter (InsightGenerator.in_high_band cfg) topics)
      ++ map InsightGenerator.medium_recommendation
           (filter (fun t => InsightGenerator.in_medium_band cfg t
                             && (2 <=? facts t)%nat) topics)).
  { unfold out, InsightGenerator.generate_content_recommendations.
    cbv zeta. fold topics. rewrite filter_andb. reflexivity. }
  split; [intro t; reflexivity |].
  split; [intro t; reflexivity |].
  split.
  { intro t. unfold InsightGenerator.in_medium_band.
    rewrite andb_true_iff. reflexivity. }
  split.
  { intros t [H1 H2]. pose proof (bands_disjoint cfg t) as H.
    rewrite H1, H2 in H. discriminate H. }
  split; [exact Hout |].
  split; [intro t; split; reflexivity |].
  split; [intro t; apply spec_recommendedb_iff |].
  split; [| vm_compute; reflexivity].
  rewrite Hout. clear Hout out Hfits.
  induction topics as [| t l IH]; [constructor |].
  cbn [filter].
  destruct (InsightGenerator.in_high_band cfg t) eqn:Ehi.
  - destruct (spec_in_high_band cfg t Ehi) as (H1 & H2 & H3).
    rewrite H1, H3. cbn [andb map app]. rewrite H2.
    apply perm_skip, IH.
  - destruct (spec_not_in_high_band cfg t Ehi) as (H1 & H2).
    rewrite H1. fold (facts t).
    destruct (InsightGenerator.in_medium_band cfg t && (2 <=? facts t)%nat).
    + cbn [map]. rewrite H2. eapply perm_trans;
        [apply Permutation_sym, Permutation_middle |].
      apply perm_skip, IH.
    + exact IH.
Qed.

(** The three candidates of the example have counts in the range of the
    floats: the first gets the recommendation of the high band, the second
    none, the third that of the medium band. *)
Lemma recommendations_by_band_witness :
  (forall t, In t (Consolidated.trending_topics Example.candidates) ->
     int_fits (InsightGenerator.get_count t) = true)
  /\ InsightGenerator.generate_content_recommendations
       InsightGenerator.default_config Example.candidates
     = map InsightGenerator.high_recommendation
         (filter (InsightGenerator.in_high_band InsightGenerator.default_config)
            (Consolidated.trending_topics Example.candidates))
       ++ map InsightGenerator.medium_recommendation
            (filter
               (fun t =>
                  InsightGenerator.in_medium_band
                    InsightGenerator.default_config t
                  && (2 <=? List.length (InsightGenerator.get_key_facts t))%nat)
               (Consolidated.trending_topics Example.candidates)).
Proof.
  assert (H1 : forall t,
            In t (Consolidated.trending_topics Example.candidates) ->
            int_fits (InsightGenerator.get_count t) = true).
  { intros t [<- | [<- | [<- | []]]]; vm_compute; reflexivity. }
  split; [exact H1 |].
  pose proof (recommendations_by_band InsightGenerator.default_config
                Example.candidates H1) as H.
  cbv zeta in H. destruct H as (_ & _ & _ & _ & H & _).
  exact H.
Defined.

(* ================================================================== *)
(** ** The quantile and the engagement filter *)
(* ================================================================== *)

Lemma sort_asc_perm (values : list Q) :
  Permutation values (sort_asc Qle_bool (fun v : Q => v) values).
Proof. apply sort_desc_perm. Qed.

Lemma sort_asc_ascending (values : list Q) :
  ascending (sort_asc Qle_bool (fun v : Q => v) values).
Proof.
  unfold ascending, sort_asc.
  pose proof (@sort_desc_sorted Q Q (fun a b => Qle_bool b a) (fun v => v)
                (fun a b => Qle_bool_total b a)
                (fun a b c H1 H2 => Qle_bool_trans _ _ _ H2 H1) values) as H.
  induction H as [| a l _ IH Ha]; constructor; [exact IH |].
  eapply Forall_impl; [| exact Ha].
  intros b Hb. apply Qle_bool_iff, Hb.
Qed.

Lemma ascending_nth (s : list Q) (i j : nat) :
  ascending s -> (i <= j < List.length s)%nat -> nth i s 0 <= nth j s 0.
Proof.
  intro Hs. revert i j.
  induction Hs as [| a l _ IH Ha]; intros i j [Hij Hj]; cbn in Hj; [lia |].
  destruct i as [| i], j as [| j]; cbn [nth]; try lia.
  - apply Qle_refl.
  - rewrite Forall_forall in Ha. apply Ha, nth_In. lia.
  - apply IH. lia.
Qed.

Lemma nthQ_mono (s : list Q) (i j : Z) :
  ascending s -> (0 <= i <= j)%Z -> (j < Z.of_nat (List.length s))%Z ->
  nthQ s i <= nthQ s j.
Proof.
  intros Hs Hij Hj. unfold nthQ. apply ascending_nth; [exact Hs | lia].
Qed.

(** The floor of a virtual index within [0, n - 1] is a position of the
    list. *)
Lemma floor_in_range (h : Q) (n : Z) :
  0 <= h -> h <= inject_Z (n - 1) -> (0 <= Qfloor h <= n - 1)%Z.
Proof.
  intros H0 Hn. split.
  - change 0%Z with (Qfloor 0). apply Qfloor_resp_le, H0.
  - rewrite <- (Qfloor_Z (n - 1)). apply Qfloor_resp_le, Hn.
Qed.

Lemma gamma_range (h : Q) :
  0 <= h - inject_Z (Qfloor h) /\ h - inject_Z (Qfloor h) < 1.
Proof.
  pose proof (Qfloor_le h) as H1. pose proof (Qlt_floor h) as H2.
  rewrite inject_Z_plus in H2. change (inject_Z 1) with 1 in H2.
  split; lra.
Qed.

(** The interpolated value lies between its two neighbours. *)
Lemma lerp_at_between (s : list Q) (h : Q) :
  ascending s -> 0 <= h -> h <= inject_Z (Z.of_nat (List.length s) - 1) ->
  let lo := Qfloor h in
  let hi := Z.min (lo + 1) (Z.of_nat (List.length s) - 1) in
  nthQ s lo <= lerp_at s h /\ lerp_at s h <= nthQ s hi.
Proof.
  intros Hs H0 Hn lo hi.
  pose proof (floor_in_range h _ H0 Hn) as Hlo. fold lo in Hlo.
  assert (Hle : nthQ s lo <= nthQ s hi)
    by (apply nthQ_mono; [exact Hs | unfold hi; lia | unfold hi; lia]).
  destruct (gamma_range h) as [Hg0 Hg1]. fold lo in Hg0, Hg1.
  unfold lerp_at. cbv zeta. fold lo. fold hi.
  set (a := nthQ s lo) in *. set (b := nthQ s hi) in *.
  set (g := h - inject_Z lo) in *.
  split; nra.
Qed.

(** The interpolated value does not decrease with the virtual index. *)
Lemma lerp_at_mono (s : list Q) (h1 h2 : Q) :
  ascending s -> 0 <= h1 -> h1 <= h2 ->
  h2 <= inject_Z (Z.of_nat (List.length s) - 1) ->
  lerp_at s h1 <= lerp_at s h2.
Proof.
  intros Hs H0 H12 Hn.
  assert (H1n : h1 <= inject_Z (Z.of_nat (List.length s) - 1)) by lra.
  assert (H02 : 0 <= h2) by lra.
  pose proof (floor_in_range h1 _ H0 H1n) as Hlo1.
  pose proof (floor_in_range h2 _ H02 Hn) as Hlo2.
  pose proof (Qfloor_resp_le _ _ H12) as Hfl.
  destruct (Z.eq_dec (Qfloor h1) (Qfloor h2)) as [E | NE].
  - destruct (lerp_at_between s h1 Hs H0 H1n) as [_ Hub].
    cbv zeta in Hub.
    assert (Hle : nthQ s (Qfloor h1)
                  <= nthQ s (Z.min (Qfloor h1 + 1)
                               (Z.of_nat (List.length s) - 1)))
      by (apply nthQ_mono; [exact Hs | lia | lia]).
    unfold lerp_at. cbv zeta. rewrite <- E.
    set (a := nthQ s (Qfloor h1)) in *.
    set (b := nthQ s (Z.min (Qfloor h1 + 1) (Z.of_nat (List.length s) - 1)))
      in *.
    nra.
  - destruct (lerp_at_between s h1 Hs H0 H1n) as [_ Hub].
    destruct (lerp_at_between s h2 Hs H02 Hn) as [Hlb _].
    cbv zeta in Hub, Hlb.
    eapply Qle_trans; [exact Hub |].
    eapply Qle_trans; [| exact Hlb].
    apply nthQ_mono; [exact Hs | lia | lia].
Qed.

(** The interpolated value is at most the last, that is the greatest,
    value. *)
Lemma lerp_at_le_last (s : list Q) (h : Q) :
  ascending s -> 0 <= h -> h <= inject_Z (Z.of_nat (List.length s) - 1) ->
  lerp_at s h <= nthQ s (Z.of_nat (List.length s) - 1).
Proof.
  intros Hs H0 Hn.
  destruct (lerp_at_between s h Hs H0 Hn) as [_ Hub]. cbv zeta in Hub.
  pose proof (floor_in_range h _ H0 Hn) as Hlo.
  eapply Qle_trans; [exact Hub |].
  apply nthQ_mono; [exact Hs | lia | lia].
Qed.

Lemma quantile_ok (values : list Q) (q : Q) :
  0 <= q -> q <= 1 ->
  quantile values q
  = Ok (lerp_at (sort_asc Qle_bool (fun v : Q => v) values)
          (q * inject_Z
                 (Z.of_nat
                    (List.length (sort_asc Qle_bool (fun v : Q => v) values))
                  - 1))).
Proof.
  intros H0 H1. unfold quantile.
  apply Qle_bool_iff in H0, H1. rewrite H0, H1. reflexivity.
Qed.

Lemma virtual_index_range (n : nat) (q : Q) :
  (0 < n)%nat -> 0 <= q -> q <= 1 ->
  0 <= q * inject_Z (Z.of_nat n - 1)
  /\ q * inject_Z (Z.of_nat n - 1) <= inject_Z (Z.of_nat n - 1).
Proof.
  intros Hn H0 H1.
  assert (Hm : 0 <= inject_Z (Z.of_nat n - 1)).
  { change 0 with (inject_Z 0). rewrite <- Zle_Qle. lia. }
  split; nra.
Qed.

(** The quantile does not decrease with the percentile. *)
Lemma quantile_mono (values : list Q) (q1 q2 : Q) :
  values <> [] -> 0 <= q1 -> q1 <= q2 -> q2 <= 1 ->
  exists t1 t2,
    quantile values q1 = Ok t1 /\ quantile values q2 = Ok t2 /\ t1 <= t2.
Proof.
  intros Hne H0 H12 H1.
  rewrite (quantile_ok values q1) by lra.
  rewrite (quantile_ok values q2) by lra.
  do 2 eexists. split; [reflexivity |]. split; [reflexivity |].
  set (s := sort_asc Qle_bool (fun v : Q => v) values).
  assert (Hlen : (0 < List.length s)%nat).
  { unfold s. rewrite <- (Permutation_length (sort_asc_perm values)).
    destruct values; [congruence | cbn; lia]. }
  destruct (virtual_index_range (List.length s) q1 Hlen) as [Ha Hb];
    [lra | lra |].
  destruct (virtual_index_range (List.length s) q2 Hlen) as [Hc Hd];
    [lra | lra |].
  assert (Hm : 0 <= inject_Z (Z.of_nat (List.length s) - 1)).
  { change 0 with (inject_Z 0). rewrite <- Zle_Qle. lia. }
  apply lerp_at_mono; [apply sort_asc_ascending | exact Ha | nra | exact Hd].
Qed.

(** The quantile is at most some value of the list that no other value
    exceeds. *)
Lemma quantile_le_max (values : list Q) (q : Q) :
  values <> [] -> 0 <= q -> q <= 1 ->
  exists t m,
    quantile values q = Ok t /\ In m values /\ t <= m
    /\ (forall v, In v values -> v <= m).
Proof.
  intros Hne H0 H1.
  rewrite (quantile_ok values q) by lra.
  set (s := sort_asc Qle_bool (fun v : Q => v) values).
  assert (Hperm : Permutation values s) by apply sort_asc_perm.
  assert (Hlen : (0 < List.length s)%nat).
  { rewrite <- (Permutation_length Hperm).
    destruct values; [congruence | cbn; lia]. }
  destruct (virtual_index_range (List.length s) q Hlen H0 H1) as [Ha Hb].
  exists (lerp_at s (q * inject_Z (Z.of_nat (List.length s) - 1))),
         (nthQ s (Z.of_nat (List.length s) - 1)).
  split; [reflexivity |]. split.
  { apply Permutation_in with (l := s); [apply Permutation_sym, Hperm |].
    unfold nthQ. apply nth_In. lia. }
  split.
  { apply lerp_at_le_last; [apply sort_asc_ascending | exact Ha | exact Hb]. }
  intros v Hv. apply (Permutation_in _ Hperm) in Hv.
  destruct (In_nth _ _ 0 Hv) as (i & Hi & <-).
  unfold nthQ. apply ascending_nth; [apply sort_asc_ascending | lia].
Qed.

Section EngagementFilter.
Import DataProcessor.

(** The loop over [enumerate(data)] keeps the items whose own value
    reaches the threshold. *)
Lemma kept_by_threshold (threshold : Q) (data : list Item.t) :
  map fst
    (filter (fun iv => Qle_bool threshold (snd iv))
       (combine data (map engagement_value data)))
  = filter (fun item => Qle_bool threshold (engagement_value item)) data.
Proof using Type.
  induction data as [| item data IH]; [reflexivity |].
  cbn [map combine filter snd].
  destruct (Qle_bool threshold (engagement_value item));
    cbn [map fst]; rewrite IH; reflexivity.
Qed.

Lemma filter_by_engagement_ok (data : list Item.t) (p threshold : Q) :
  data <> [] ->
  quantile (map engagement_value data) p = Ok threshold ->
  filter_by_engagement data p
  = Ok (filter (fun item => Qle_bool threshold (engagement_value item)) data).
Proof using Type.
  intros Hne Hq. destruct data as [| item data]; [congruence |].
  unfold filter_by_engagement.
  cbn [map] in *. rewrite Hq. rewrite <- kept_by_threshold. reflexivity.
Qed.

Lemma filter_Subseq {A : Type} (f : A -> bool) (l : list A) :
  Subseq (filter f l) l.
Proof using Type.
  induction l as [| x l IH]; cbn [filter]; [constructor |].
  destruct (f x); constructor; exact IH.
Qed.

Lemma filter_length_mono {A : Type} (f g : A -> bool) (l : list A) :
  (forall x, f x = true -> g x = true) ->
  (List.length (filter f l) <= List.length (filter g l))%nat.
Proof using Type.
  intro Hfg. induction l as [| x l IH]; cbn [filter]; [lia |].
  destruct (f x) eqn:Ef.
  - rewrite (Hfg x Ef). cbn. lia.
  - destruct (g x); cbn; lia.
Qed.

End EngagementFilter.

(** C5. For percentiles [0 <= p1 <= p2 <= 1] the engagement filter returns
    with both, and what it keeps with [p2] is not longer than what it keeps
    with [p1]. *)
Theorem engagement_filter_antitone (data : list Item.t) (p1 p2 : Q) :
  0 <= p1 -> p1 <= p2 -> p2 <= 1 ->
  exists kept1 kept2,
    DataProcessor.filter_by_engagement data p1 = Ok kept1
    /\ DataProcessor.filter_by_engagement data p2 = Ok kept2
    /\ (List.length kept2 <= List.length kept1)%nat.
Proof.
  intros H0 H12 H1.
  destruct data as [| item data].
  { exists [], []. cbn. auto. }
  set (d := item :: data).
  assert (Hne : d <> []) by discriminate.
  assert (Hv : map DataProcessor.engagement_value d <> [])
    by discriminate.
  destruct (quantile_mono (map DataProcessor.engagement_value d) p1 p2
              Hv H0 H12 H1) as (t1 & t2 & Hq1 & Hq2 & Ht).
  exists (filter (fun i => Qle_bool t1 (DataProcessor.engagement_value i)) d),
         (filter (fun i => Qle_bool t2 (DataProcessor.engagement_value i)) d).
  split; [apply filter_by_engagement_ok; assumption |].
  split; [apply filter_by_engagement_ok; assumption |].
  apply filter_length_mono. intros x Hx.
  apply Qle_bool_iff. apply Qle_bool_iff in Hx.
  eapply Qle_trans; eassumption.
Qed.

Lemma engagement_filter_antitone_witness :
  (0 <= 3 # 10 /\ 3 # 10 <= 1 # 2 /\ 1 # 2 <= 1)
  /\ exists kept1 kept2,
       DataProcessor.filter_by_engagement Example.scenario (3 # 10) = Ok kept1
       /\ DataProcessor.filter_by_engagement Example.scenario (1 # 2) = Ok kept2
       /\ (List.length kept2 <= List.length kept1)%nat.
Proof.
  split.
  - unfold Qle; simpl; lia.
  - apply (engagement_filter_antitone Example.scenario (3 # 10) (1 # 2));
      unfold Qle; simpl; lia.
Defined.



(* ================================================================== *)
(** ** Dictionaries and counters *)
(* ================================================================== *)

Section DictFacts.
Context {V : Type}.

Lemma str_in_In (x : string) (l : list string) :
  str_in x l = true <-> In x l.
Proof using Type.
  unfold str_in. rewrite existsb_exists. split.
  - intros (y & Hy & E). apply String.eqb_eq in E. now subst.
  - intro H. exists x. split; [exact H | apply String.eqb_refl].
Qed.

Lemma str_in_false (x : string) (l : list string) :
  str_in x l = false <-> ~ In x l.
Proof using Type.
  rewrite <- str_in_In. destruct (str_in x l); split; congruence.
Qed.

Lemma dict_mem_keys (d : dict V) (k : string) :
  dict_mem d k = str_in k (dict_keys d).
Proof using Type.
  unfold dict_mem, dict_keys, str_in.
  induction d as [| [k' v] d IH]; [reflexivity |].
  cbn [dict_get map fst existsb].
  destruct (String.eqb k k'); [reflexivity | exact IH].
Qed.

Lemma dict_set_absent (d : dict V) (k : string) (v : V) :
  dict_mem d k = false -> dict_set d k v = d ++ [(k, v)].
Proof using Type.
  unfold dict_mem. induction d as [| [k' v'] d IH]; [reflexivity |].
  cbn [dict_get dict_set app].
  destruct (String.eqb k k'); [discriminate |].
  intro H. rewrite (IH H). reflexivity.
Qed.

Lemma dict_keys_set (d : dict V) (k : string) (v : V) :
  dict_keys (dict_set d k v)
  = if dict_mem d k then dict_keys d else dict_keys d ++ [k].
Proof using Type.
  unfold dict_mem, dict_keys. induction d as [| [k' v'] d IH]; [reflexivity |].
  cbn [dict_get dict_set map fst].
  destruct (String.eqb k k') eqn:E; [reflexivity |].
  cbn [map fst]. rewrite IH.
  destruct (dict_get d k); reflexivity.
Qed.



Lemma dict_get_none (d : dict V) (k : string) :
  ~ In k (dict_keys d) -> dict_get d k = None.
Proof using Type.
  intro H. apply str_in_false in H. rewrite <- dict_mem_keys in H.
  unfold dict_mem in H. destruct (dict_get d k); [discriminate | reflexivity].
Qed.

(** A loop that only sets keys the dictionary does not have yet, each at
    most once, appends its entries in the order of the loop. *)
Lemma fold_set_fresh {E : Type} (key : E -> string) (val : E -> V)
    (cond : E -> bool) (es : list E) (r : dict V) :
  NoDup (map key (filter cond es)) ->
  (forall e, In e es -> cond e = true -> ~ In (key e) (dict_keys r)) ->
  fold_left (fun r e => if cond e then dict_set r (key e) (val e) else r) es r
  = r ++ map (fun e => (key e, val e)) (filter cond es).
Proof using Type.
  revert r. induction es as [| e es IH]; intros r Hnd Hfresh.
  - cbn. now rewrite app_nil_r.
  - cbn [fold_left filter] in *. destruct (cond e) eqn:Ec.
    + cbn [map] in *. inversion Hnd as [| ? ? Hx Hnd']; subst.
      rewrite dict_set_absent.
      2:{ rewrite dict_mem_keys. apply str_in_false.
          apply Hfresh; [now left | exact Ec]. }
      rewrite IH; [now rewrite <- app_assoc | exact Hnd' |].
      intros e' He' Hc'. unfold dict_keys. rewrite map_app, in_app_iff.
      cbn. intros [H | [H | []]].
      * eapply Hfresh; [right; exact He' | exact Hc' | exact H].
      * apply Hx. rewrite H. apply in_map. apply filter_In. now split.
    + apply IH; [exact Hnd |].
      intros e' He'. apply Hfresh. now right.
Qed.

End DictFacts.

Lemma dedup_first_In (l : list string) (x : string) :
  In x (dedup_first l) <-> In x l.
Proof.
  induction l as [| y l IH]; [reflexivity |].
  cbn [dedup_first In]. rewrite filter_In, IH, negb_true_iff.
  destruct (string_dec y x) as [E | NE]; [tauto |].
  apply String.eqb_neq in NE. tauto.
Qed.

Lemma dedup_first_NoDup (l : list string) : NoDup (dedup_first l).
Proof.
  induction l as [| y l IH]; cbn [dedup_first]; constructor.
  - rewrite filter_In, negb_true_iff, String.eqb_neq. tauto.
  - apply NoDup_filter, IH.
Qed.

Lemma filter_comm {A : Type} (f g : A -> bool) (l : list A) :
  filter f (filter g l) = filter g (filter f l).
Proof.
  rewrite !filter_andb. apply filter_ext. intro x. apply andb_comm.
Qed.

Lemma dedup_first_app (l1 l2 : list string) :
  dedup_first (l1 ++ l2)
  = dedup_first l1 ++ filter (fun k => negb (str_in k l1)) (dedup_first l2).
Proof.
  induction l1 as [| x l1 IH]; cbn [app dedup_first].
  - symmetry. apply forallb_filter_id. apply forallb_forall. reflexivity.
  - rewrite IH, filter_app. f_equal. f_equal.
    rewrite filter_andb. apply filter_ext. intro k.
    unfold str_in. cbn [existsb]. rewrite negb_orb.
    rewrite (String.eqb_sym k x). apply andb_comm.
Qed.

Lemma counter_keys_incr (c : Counter) (k : string) :
  dict_keys (counter_incr c k)
  = if dict_mem c k then dict_keys c else dict_keys c ++ [k].
Proof.
  unfold dict_mem, dict_keys. induction c as [| [k' n] c IH]; [reflexivity |].
  cbn [counter_incr dict_get map fst].
  destruct (String.eqb k k'); [reflexivity |].
  cbn [map fst]. rewrite IH. destruct (dict_get c k); reflexivity.
Qed.

Lemma counter_get_incr (c : Counter) (k k' : string) :
  counter_get (counter_incr c k) k'
  = (counter_get c k' + (if String.eqb k' k then 1 else 0))%Z.
Proof.
  unfold counter_get. induction c as [| [k0 n] c IH]; cbn [counter_incr dict_get].
  - destruct (String.eqb k' k); reflexivity.
  - destruct (String.eqb k k0) eqn:E; cbn [dict_get].
    + apply String.eqb_eq in E. subst k0.
      destruct (String.eqb k' k); [reflexivity |].
      destruct (dict_get c k'); lia.
    + destruct (String.eqb k' k0) eqn:E0; [| exact IH].
      apply String.eqb_eq in E0. subst k0.
      rewrite String.eqb_sym, E. lia.
Qed.

Lemma occurrences_cons (x : string) (l : list string) (k : string) :
  occurrences (x :: l) k
  = (occurrences l k + (if String.eqb k x then 1 else 0))%Z.
Proof.
  unfold occurrences. cbn [count_occ].
  destruct (string_dec x k) as [E | NE].
  - subst. rewrite String.eqb_refl. lia.
  - apply not_eq_sym, String.eqb_neq in NE. rewrite NE. lia.
Qed.

Lemma counter_get_fold (l : list string) (c : Counter) (k : string) :
  counter_get (fold_left counter_incr l c) k
  = (counter_get c k + occurrences l k)%Z.
Proof.
  revert c. induction l as [| x l IH]; intro c; cbn [fold_left].
  - unfold occurrences. cbn. lia.
  - rewrite IH, counter_get_incr, occurrences_cons. lia.
Qed.

Lemma counter_keys_fold (l : list string) (c : Counter) :
  dict_keys (fold_left counter_incr l c)
  = dict_keys c
    ++ filter (fun k => negb (str_in k (dict_keys c))) (dedup_first l).
Proof.
  revert c. induction l as [| x l IH]; intro c; cbn [fold_left dedup_first].
  - cbn. now rewrite app_nil_r.
  - rewrite IH, counter_keys_incr, dict_mem_keys. cbn [filter].
    destruct (str_in x (dict_keys c)) eqn:E; cbn [negb].
    + f_equal. rewrite filter_andb. apply filter_ext_in. intros k _.
      destruct (String.eqb x k) eqn:Ek; [| reflexivity].
      apply String.eqb_eq in Ek. subst k. rewrite E. reflexivity.
    + rewrite <- app_assoc. cbn [app]. f_equal. f_equal.
      rewrite filter_andb. apply filter_ext. intro k.
      unfold str_in. rewrite existsb_app. cbn [existsb].
      rewrite orb_false_r, negb_orb, (String.eqb_sym k x).
      apply andb_comm.
Qed.

(** A counter is its keys with their counts. *)
Lemma counter_by_keys (c : Counter) :
  NoDup (dict_keys c) ->
  c = map (fun k => (k, counter_get c k)) (dict_keys c).
Proof.
  unfold dict_keys, counter_get.
  induction c as [| [k n] c IH]; intro Hnd; [reflexivity |].
  cbn [map fst dict_get] in *. inversion Hnd as [| ? ? Hk Hnd']; subst.
  rewrite String.eqb_refl. f_equal.
  etransitivity; [exact (IH Hnd') |]. apply map_ext_in.
  intros k' Hin.
  destruct (String.eqb k' k) eqn:E; [| reflexivity].
  apply String.eqb_eq in E. subst k'. contradiction.
Qed.

(** [Counter(l)] is the frequency table of [l] in first-seen order. *)
Lemma counter_of_tally (l : list string) : counter_of l = tally l.
Proof.
  unfold counter_of, tally.
  assert (Hk : dict_keys (fold_left counter_incr l []) = dedup_first l).
  { rewrite counter_keys_fold. cbn [dict_keys map app].
    apply forallb_filter_id. apply forallb_forall. reflexivity. }
  rewrite (counter_by_keys (fold_left counter_incr l [])) at 1
    by (rewrite Hk; apply dedup_first_NoDup).
  rewrite Hk. apply map_ext. intro k.
  rewrite counter_get_fold. reflexivity.
Qed.

Lemma NoDup_keys_filter {V : Type} (f : string * V -> bool) (d : dict V) :
  NoDup (dict_keys d) -> NoDup (dict_keys (filter f d)).
Proof.
  unfold dict_keys. induction d as [| e d IH]; intro H; [constructor |].
  cbn [map] in H. inversion H as [| ? ? Hx Hnd]; subst.
  cbn [filter]. destruct (f e); [| exact (IH Hnd)].
  cbn [map]. constructor; [| exact (IH Hnd)].
  intro Hin. apply Hx. apply in_map_iff in Hin.
  destruct Hin as (e' & <- & He'). apply in_map.
  apply filter_In in He'. tauto.
Qed.

(** [a + b] entry by entry, for dictionaries with distinct keys. *)
Lemma counter_add_entries (a b : Counter) :
  NoDup (dict_keys a) -> NoDup (dict_keys b) ->
  counter_add a b
  = map (fun e => (fst e, (snd e + counter_get b (fst e))%Z))
      (filter (fun e => (0 <? snd e + counter_get b (fst e))%Z) a)
    ++ map (fun e => (fst e, snd e))
         (filter (fun e => negb (dict_mem a (fst e)) && (0 <? snd e)%Z) b).
Proof.
  intros Ha Hb. unfold counter_add. cbv zeta.
  match goal with
  | |- fold_left _ b (fold_left ?f1 a []) = _ =>
      assert (H1 :
        fold_left f1 a []
        = map (fun e => (fst e, (snd e + counter_get b (fst e))%Z))
            (filter (fun e => (0 <? snd e + counter_get b (fst e))%Z) a))
  end.
  { apply (fold_set_fresh (V := Z) (@fst string Z)
             (fun e => (snd e + counter_get b (fst e))%Z)
             (fun e => (0 <? snd e + counter_get b (fst e))%Z) a []).
    - apply (NoDup_keys_filter _ a Ha).
    - intros e _ _ []. }
  rewrite H1.
  apply (fold_set_fresh (V := Z) (@fst string Z) (@snd string Z)
           (fun e => negb (dict_mem a (fst e)) && (0 <? snd e)%Z) b).
  - apply (NoDup_keys_filter _ b Hb).
  - intros e _ Hc Hin. apply andb_true_iff in Hc. destruct Hc as [Hc _].
    apply negb_true_iff in Hc. rewrite dict_mem_keys in Hc.
    apply str_in_false in Hc. apply Hc.
    unfold dict_keys in *. rewrite map_map in Hin. cbn [fst] in Hin.
    apply in_map_iff in Hin. destruct Hin as (e' & <- & He').
    apply in_map. apply filter_In in He'. tauto.
Qed.

Lemma tally_keys (l : list string) : dict_keys (tally l) = dedup_first l.
Proof.
  unfold tally, dict_keys. rewrite map_map. cbn [fst]. apply map_id.
Qed.

Lemma counter_get_tally (l : list string) (k : string) :
  counter_get (tally l) k = occurrences l k.
Proof.
  rewrite <- counter_of_tally. unfold counter_of.
  rewrite counter_get_fold. reflexivity.
Qed.

Lemma occurrences_pos (l : list string) (k : string) :
  In k l -> (0 < occurrences l k)%Z.
Proof.
  intro H. unfold occurrences.
  apply (count_occ_In string_dec) in H. lia.
Qed.

Lemma occurrences_absent (l : list string) (k : string) :
  ~ In k l -> occurrences l k = 0%Z.
Proof.
  intro H. unfold occurrences.
  apply (count_occ_not_In string_dec) in H. lia.
Qed.

Lemma occurrences_nonneg (l : list string) (k : string) :
  (0 <= occurrences l k)%Z.
Proof. unfold occurrences. lia. Qed.

(** The merged counter of the trend extraction is the merged frequency
    table. *)
Lemma counter_add_merged (entities hashtags : list string) :
  counter_add (counter_of entities) (counter_of hashtags)
  = merged_tally entities hashtags.
Proof.
  rewrite !counter_of_tally.
  rewrite counter_add_entries
    by (rewrite tally_keys; apply dedup_first_NoDup).
  unfold merged_tally. rewrite dedup_first_app, map_app. f_equal.
  - rewrite forallb_filter_id.
    + change (tally entities)
        with (map (fun k => (k, occurrences entities k))
                (dedup_first entities)).
      rewrite map_map. cbn [fst snd].
      apply map_ext. intro k. now rewrite counter_get_tally.
    + apply forallb_forall. intros e Hin.
      unfold tally in Hin. apply in_map_iff in Hin.
      destruct Hin as (k & <- & Hk). cbn [fst snd].
      rewrite dedup_first_In in Hk. apply Z.ltb_lt.
      pose proof (occurrences_pos _ _ Hk).
      rewrite counter_get_tally.
      pose proof (occurrences_nonneg hashtags k). lia.
  - change (tally hashtags)
      with (map (fun k => (k, occurrences hashtags k))
              (dedup_first hashtags)).
    rewrite filter_map_swap, map_map. cbn [fst snd].
    rewrite (filter_ext_in _ (fun k => negb (str_in k entities))).
    + apply map_ext_in. intros k Hk. apply filter_In in Hk.
      destruct Hk as [_ Hk]. apply negb_true_iff, str_in_false in Hk.
      now rewrite (occurrences_absent _ _ Hk).
    + intros k Hk. rewrite dedup_first_In in Hk.
      rewrite dict_mem_keys, tally_keys.
      replace (0 <? occurrences hashtags k)%Z with true
        by (symmetry; apply Z.ltb_lt, occurrences_pos, Hk).
      rewrite andb_true_r. f_equal.
      destruct (str_in k entities) eqn:E.
      * apply str_in_In. apply dedup_first_In. now apply str_in_In.
      * apply str_in_false. rewrite dedup_first_In. now apply str_in_false.
Qed.

Lemma Zleb_total (a b : Z) : (a <=? b)%Z = true \/ (b <=? a)%Z = true.
Proof. rewrite !Z.leb_le. lia. Qed.

Lemma Zleb_trans (a b c : Z) :
  (a <=? b)%Z = true -> (b <=? c)%Z = true -> (a <=? c)%Z = true.
Proof. rewrite !Z.leb_le. lia. Qed.

(** [most_common] ranks by descending count and keeps the order of the
    table among equal counts. *)
Lemma ranked_by_count (c : Counter) :
  let ranked := sort_desc Z.leb (@snd string Z) c in
  Permutation c ranked
  /\ StronglySorted (fun a b => (snd b <= snd a)%Z) ranked
  /\ (forall n : Z,
        filter (fun e => (snd e =? n)%Z) ranked
        = filter (fun e => (snd e =? n)%Z) c).
Proof.
  intro ranked. split; [apply sort_desc_perm |]. split.
  - pose proof (@sort_desc_sorted _ _ Z.leb (@snd string Z)
                  Zleb_total Zleb_trans c) as H.
    fold ranked in H.
    induction H as [| a l _ IH Ha]; constructor; [exact IH |].
    eapply Forall_impl; [| exact Ha].
    intros b Hb. apply Z.leb_le, Hb.
  - intro n.
    assert (Hext : forall e : string * Z,
              (snd e =? n)%Z = tied Z.leb (@snd string Z) n e).
    { intro e. unfold tied.
      destruct (snd e =? n)%Z eqn:E.
      - apply Z.eqb_eq in E. symmetry. apply andb_true_iff.
        rewrite !Z.leb_le. lia.
      - apply Z.eqb_neq in E. symmetry. apply not_true_is_false.
        rewrite andb_true_iff, !Z.leb_le. lia. }
    rewrite !(filter_ext _ _ Hext).
    apply sort_desc_stable, Zleb_trans.
Qed.

(** C6. The merged table of the trend extraction gives every key the sum of
    its occurrences among the entities and among the hashtags, its keys
    standing in first-seen order (entities before hashtags).  The candidates
    are the first [top_n] entries of the table ranked by descending count,
    entries with the same count keeping the order of the table.  For the
    entities Lula, Dilma, Lula and the hashtags Lula, Bolsonaro the counts
    are Lula 3, Dilma 1, Bolsonaro 1, and with [top_n = 2] the candidates
    are Lula and Dilma. *)
Theorem trend_candidates_merge
    (R : Runtime) (data : list Item.t) (top_n : Z) :
  let entities := flat_map DataProcessor.get_entities data in
  let hashtags := flat_map DataProcessor.get_hashtags data in
  let merged := counter_add (counter_of entities) (counter_of hashtags) in
  let ranked := sort_desc Z.leb (@snd string Z) merged in
  merged = merged_tally entities hashtags
  /\ (forall k, counter_get merged k
                = (occurrences entities k + occurrences hashtags k)%Z)
  /\ dict_keys merged = dedup_first (entities ++ hashtags)
  /\ map (fun t => (TrendingTopic.topic t, TrendingTopic.count t))
       (DataProcessor.extract_trending_topics R data top_n)
     = map (fun e => (Some (fst e), Some (snd e)))
         (firstn (Z.to_nat top_n) ranked)
  /\ Permutation merged ranked
  /\ StronglySorted (fun a b => (snd b <= snd a)%Z) ranked
  /\ (forall n : Z,
        filter (fun e => (snd e =? n)%Z) ranked
        = filter (fun e => (snd e =? n)%Z) merged)
  /\ flat_map DataProcessor.get_entities Example.merge_example
     = ["Lula"; "Dilma"; "Lula"]%string
  /\ flat_map DataProcessor.get_hashtags Example.merge_example
     = ["Lula"; "Bolsonaro"]%string
  /\ counter_add (counter_of ["Lula"; "Dilma"; "Lula"]%string)
       (counter_of ["Lula"; "Bolsonaro"]%string)
     = [("Lula", 3%Z); ("Dilma", 1%Z); ("Bolsonaro", 1%Z)]%string
  /\ map TrendingTopic.topic
       (DataProcessor.extract_trending_topics R Example.merge_example 2)
     = [Some "Lula"; Some "Dilma"]%string.
Proof.
  intros entities hashtags merged ranked.
  assert (Hm : merged = merged_tally entities hashtags)
    by apply counter_add_merged.
  split; [exact Hm |].
  split.
  { intro k. rewrite Hm. unfold merged_tally, counter_get.
    destruct (in_dec string_dec k (entities ++ hashtags)) as [Hin | Hout].
    - rewrite <- dedup_first_In in Hin.
      induction (dedup_first (entities ++ hashtags)) as [| x l IH];
        [destruct Hin |].
      cbn [map dict_get]. destruct (String.eqb k x) eqn:E.
      + apply String.eqb_eq in E. now subst.
      + apply IH. destruct Hin as [-> | Hin]; [| exact Hin].
        rewrite String.eqb_refl in E. discriminate.
    - rewrite dict_get_none.
      + rewrite in_app_iff in Hout.
        rewrite !occurrences_absent by tauto. reflexivity.
      + unfold dict_keys. rewrite map_map. cbn [fst]. rewrite map_id.
        now rewrite dedup_first_In. }
  split.
  { rewrite Hm. unfold merged_tally, dict_keys. rewrite map_map. cbn [fst].
    apply map_id. }
  split.
  { unfold DataProcessor.extract_trending_topics. cbv zeta.
    fold entities hashtags merged. unfold most_common. fold ranked.
    rewrite map_map. reflexivity. }
  destruct (ranked_by_count merged) as (Hp & Hs & Ht).
  split; [exact Hp |]. split; [exact Hs |]. split; [exact Ht |].
  repeat split.
Qed.

(* ================================================================== *)
(** ** Topic grouping *)
(* ================================================================== *)

Lemma firstn_min_length {A : Type} (n : nat) (l : list A) :
  firstn (Nat.min (List.length l) n) l = firstn n l.
Proof.
  destruct (Nat.le_ge_cases (List.length l) n) as [H | H].
  - rewrite Nat.min_l by exact H.
    now rewrite firstn_all, firstn_all2.
  - now rewrite Nat.min_r.
Qed.

Lemma firstn_NoDup {A : Type} (n : nat) (l : list A) :
  NoDup l -> NoDup (firstn n l).
Proof.
  intro H. rewrite <- (firstn_skipn n l) in H.
  exact (NoDup_app_remove_r _ _ H).
Qed.

Lemma firstn_In {A : Type} (n : nat) (l : list A) (x : A) :
  In x (firstn n l) -> In x l.
Proof.
  intro H. rewrite <- (firstn_skipn n l). apply in_or_app. now left.
Qed.

Section Grouping.
Import DataProcessor.

Lemma objects_items_from (a : nat) (data : list Item.t) :
  map snd (combine (seq a (List.length data)) data) = data.
Proof using Type.
  revert a. induction data as [| item data IH]; intro a; [reflexivity |].
  cbn. now rewrite IH.
Qed.

Lemma objects_ids_from (a : nat) (data : list Item.t) :
  map fst (combine (seq a (List.length data)) data)
  = seq a (List.length data).
Proof using Type.
  revert a. induction data as [| item data IH]; intro a; [reflexivity |].
  cbn. now rewrite IH.
Qed.

Lemma objects_items (data : list Item.t) : map snd (objects data) = data.
Proof using Type. apply objects_items_from. Qed.

(** No two objects have the same identity. *)
Lemma objects_ids_NoDup (data : list Item.t) : NoDup (map fst (objects data)).
Proof using Type.
  unfold objects. rewrite objects_ids_from. apply seq_NoDup.
Qed.

Lemma same_id_same_object {A B : Type} (l : list (A * B)) (o o' : A * B) :
  NoDup (map fst l) -> In o l -> In o' l -> fst o = fst o' -> o = o'.
Proof using Type.
  induction l as [| x l IH]; intros Hnd Ho Ho' E; [destruct Ho |].
  cbn [map] in Hnd. inversion Hnd as [| ? ? Hx Hnd']; subst.
  destruct Ho as [-> | Ho], Ho' as [-> | Ho'].
  - reflexivity.
  - exfalso. apply Hx. rewrite E. apply in_map, Ho'.
  - exfalso. apply Hx. rewrite <- E. apply in_map, Ho.
  - apply IH; assumption.
Qed.

Lemma Subseq_nil_l {A : Type} (l : list A) : Subseq [] l.
Proof using Type.
  induction l as [| x l IH]; [apply Subseq_nil | apply Subseq_skip, IH].
Qed.

Lemma firstn_Subseq {A : Type} (n : nat) (l : list A) :
  Subseq (firstn n l) l.
Proof using Type.
  revert n. induction l as [| x l IH]; intro n.
  - rewrite firstn_nil. apply Subseq_nil.
  - destruct n; cbn [firstn];
      [apply Subseq_nil_l | apply Subseq_keep, IH].
Qed.

Lemma Subseq_map {A B : Type} (f : A -> B) (l1 l2 : list A) :
  Subseq l1 l2 -> Subseq (map f l1) (map f l2).
Proof using Type. induction 1; cbn [map]; constructor; assumption. Qed.

Lemma Subseq_trans {A : Type} (l1 l2 l3 : list A) :
  Subseq l1 l2 -> Subseq l2 l3 -> Subseq l1 l3.
Proof using Type.
  intros H12 H23. revert l1 H12.
  induction H23 as [| x l2 l3 H23 IH | x l2 l3 H23 IH]; intros l1 H12.
  - exact H12.
  - constructor. apply IH, H12.
  - inversion H12; subst; constructor; apply IH; assumption.
Qed.

Lemma Subseq_In {A : Type} (l1 l2 : list A) (x : A) :
  Subseq l1 l2 -> In x l1 -> In x l2.
Proof using Type.
  induction 1 as [| y l1 l2 H IH | y l1 l2 H IH]; intro Hx.
  - exact Hx.
  - right. apply IH, Hx.
  - destruct Hx as [-> | Hx]; [now left | right; apply IH, Hx].
Qed.

Lemma Subseq_NoDup {A : Type} (l1 l2 : list A) :
  Subseq l1 l2 -> NoDup l2 -> NoDup l1.
Proof using Type.
  induction 1 as [| y l1 l2 H IH | y l1 l2 H IH]; intro Hnd.
  - exact Hnd.
  - inversion Hnd; subst. apply IH. assumption.
  - inversion Hnd as [| ? ? Hy Hnd']; subst. constructor; [| apply IH, Hnd'].
    intro Hin. apply Hy. eapply Subseq_In; eassumption.
Qed.

Lemma top_entities_Subseq (data : list Item.t) :
  Subseq (top_entities data) (map fst (entity_ranking data)).
Proof using Type.
  unfold top_entities, most_common. cbv zeta. fold (entity_ranking data).
  apply Subseq_map.
  eapply Subseq_trans; [apply filter_Subseq | apply firstn_Subseq].
Qed.

Lemma top_entities_NoDup (data : list Item.t) : NoDup (top_entities data).
Proof using Type.
  eapply Subseq_NoDup; [apply top_entities_Subseq |].
  unfold entity_ranking.
  eapply Permutation_NoDup.
  - apply Permutation_map. apply sort_desc_perm.
  - rewrite counter_of_tally. fold (dict_keys (tally (flat_map get_entities data))).
    rewrite tally_keys. apply dedup_first_NoDup.
Qed.

(** The clusters by entity: one per selected entity, in their order, each
    with the objects whose entities contain it. *)
Lemma entity_topics_entries (data : list Item.t) :
  entity_topics data
  = map (fun entity =>
           (entity,
            filter (fun o => str_in entity (get_entities (snd o)))
              (objects data)))
      (top_entities data).
Proof using Type.
  unfold entity_topics.
  pose proof (fold_set_fresh (fun e : string => e)
                (fun e => filter (fun o => str_in e (get_entities (snd o)))
                            (objects data))
                (fun _ => true) (top_entities data) []) as H.
  cbv beta iota in H. rewrite filter_true, map_id in H.
  apply H; [apply top_entities_NoDup | intros e _ _ []].
Qed.

Lemma classified_iff (data : list Item.t) (o : nat * Item.t) :
  In o (objects data) ->
  existsb (Nat.eqb (fst o)) (classified_items (entity_topics data))
  = existsb (fun entity => str_in entity (get_entities (snd o)))
      (top_entities data).
Proof using Type.
  intro Ho. rewrite entity_topics_entries.
  unfold classified_items, dict_values. rewrite map_map. cbn [snd].
  apply eq_true_iff_eq. rewrite !existsb_exists. split.
  - intros (i & Hi & E). apply Nat.eqb_eq in E. subst i.
    apply in_flat_map in Hi. destruct Hi as (cluster & Hc & Hi).
    apply in_map_iff in Hc. destruct Hc as (entity & <- & Hent).
    apply in_map_iff in Hi. destruct Hi as (o' & E & Ho').
    apply filter_In in Ho'. destruct Ho' as [Ho' Hp].
    assert (o' = o)
      by (eapply same_id_same_object;
          [apply objects_ids_NoDup | exact Ho' | exact Ho | exact E]).
    subst o'. exists entity. now split.
  - intros (entity & Hent & Hp). exists (fst o).
    split; [| apply Nat.eqb_refl].
    apply in_flat_map.
    exists (filter (fun o' => str_in entity (get_entities (snd o')))
              (objects data)).
    split; [apply in_map_iff; exists entity; now split |].
    apply in_map. apply filter_In. now split.
Qed.

(** X6. When no selected entity is called "outros", the grouping has one
    cluster per selected entity, with exactly the items whose entities
    contain it, followed by the cluster "outros" with exactly the items that
    have no selected entity. *)
Lemma group_by_topic_without_collision (data : list Item.t) :
  ~ In outros (top_entities data) ->
  group_by_topic data
  = map (fun entity =>
           (entity,
            filter (fun item => str_in entity (get_entities item)) data))
      (top_entities data)
    ++ [(outros,
         filter
           (fun item =>
              negb (existsb (fun entity => str_in entity (get_entities item))
                      (top_entities data)))
           data)].
Proof using Type.
  intro Hfree. unfold group_by_topic. cbv zeta.
  rewrite (filter_ext_in _
             (fun o => negb (existsb
                               (fun entity =>
                                  str_in entity (get_entities (snd o)))
                               (top_entities data))))
    by (intros o Ho; f_equal; apply classified_iff, Ho).
  rewrite dict_set_absent.
  2:{ rewrite dict_mem_keys. apply str_in_false.
      rewrite entity_topics_entries. unfold dict_keys.
      rewrite map_map. cbn [fst]. now rewrite map_id. }
  rewrite map_app, entity_topics_entries, map_map. cbn [map fst snd].
  f_equal.
  - apply map_ext. intro entity. f_equal.
    rewrite <- (filter_map_swap
                  (fun item => str_in entity (get_entities item)) snd).
    now rewrite objects_items.
  - f_equal. f_equal.
    rewrite <- (filter_map_swap
                  (fun item =>
                     negb (existsb
                             (fun entity => str_in entity (get_entities item))
                             (top_entities data))) snd).
    now rewrite objects_items.
Qed.

(** The selected entities: at most ten, each counted more than once, in
    descending order of count, and among equal counts in first-seen
    order. *)
Lemma top_entities_selected (data : list Item.t) :
  let all_entities := flat_map get_entities data in
  (List.length (top_entities data) <= 10)%nat
  /\ (forall entity, In entity (top_entities data) ->
        (1 < occurrences all_entities entity)%Z)
  /\ top_entities data
     = map fst
         (filter (fun ec => (1 <? snd ec)%Z)
            (firstn 10 (sort_desc Z.leb (@snd string Z) (tally all_entities)))).
Proof using Type.
  intro all_entities.
  assert (Heq : top_entities data
                = map fst
                    (filter (fun ec => (1 <? snd ec)%Z)
                       (firstn 10 (sort_desc Z.leb (@snd string Z)
                                     (tally all_entities))))).
  { unfold top_entities, most_common. cbv zeta. fold all_entities.
    now rewrite counter_of_tally. }
  split; [| split; [| exact Heq]].
  - rewrite Heq, length_map.
    eapply Nat.le_trans; [apply List.filter_length_le |].
    apply firstn_le_length.
  - intros entity Hin. rewrite Heq in Hin.
    apply in_map_iff in Hin. destruct Hin as ([k n] & <- & Hin).
    apply filter_In in Hin. destruct Hin as [Hin Hn].
    apply firstn_In in Hin.
    apply (Permutation_in _
             (Permutation_sym (sort_desc_perm _ _ Z.leb snd _))) in Hin.
    unfold tally in Hin. apply in_map_iff in Hin.
    destruct Hin as (k' & E & _). inversion E; subst.
    cbn [fst snd] in *. apply Z.ltb_lt, Hn.
Qed.

End Grouping.

(** C7, as stated for every item list, fails when a selected entity is
    called "outros".  On two items whose only entity is "outros" and a third
    item with another entity, the selected entities are just "outros"; the
    catch-all then takes the key of that cluster, so the result has the
    single cluster "outros" holding the third item only, and the first two
    items, whose entities contain the selected entity, are in no cluster at
    all. *)
Theorem group_by_topic_outros_collision :
  DataProcessor.top_entities Example.collision = ["outros"%string]
  /\ DataProcessor.group_by_topic Example.collision
     = [("outros"%string, [Example.entity_item "Instagram" ["Lula"%string]])]
  /\ (forall item topic cluster,
        In item (firstn 2 Example.collision) ->
        In (topic, cluster) (DataProcessor.group_by_topic Example.collision) ->
        ~ In item cluster).
Proof.
  split; [reflexivity |]. split; [reflexivity |].
  intros item topic cluster Hitem Hc.
  cbn in Hitem.
  change (DataProcessor.group_by_topic Example.collision)
    with [("outros"%string, [Example.entity_item "Instagram" ["Lula"%string]])]
    in Hc.
  destruct Hc as [Hc | []]. inversion Hc; subst.
  intros [H | []].
  destruct Hitem as [<- | [<- | []]]; discriminate H.
Qed.

(* ================================================================== *)
(** ** Empty input *)
(* ================================================================== *)

Lemma set_iter_nil (R : Runtime) : set_iter R [] = [].
Proof.
  apply Permutation_nil. apply Permutation_sym. exact (set_iter_perm R []).
Qed.

(** C8, as stated, fails for the topic grouping: on the empty list it
    returns a dictionary that has the key "outros". *)
Lemma group_by_topic_empty_not_empty : DataProcessor.group_by_topic [] <> [].
Proof. discriminate. Qed.

(** C8. A file that cannot be read or decoded loads as the empty list.  On
    the empty list the relevance filter, the engagement filter (with any
    percentile), the trend extraction and the key-fact extraction return the
    empty list, none of them raising; the topic grouping returns the
    dictionary whose only entry is the empty cluster "outros". *)
Theorem empty_input_stages
    (R : Runtime) (min_score p : Q) (top_n : Z) (topic : string) :
  DataProcessor.load_data Unreadable = []
  /\ DataProcessor.filter_by_relevance min_score [] = []
  /\ DataProcessor.filter_by_engagement [] p = Ok []
  /\ DataProcessor.group_by_topic [] = [(DataProcessor.outros, [])]
  /\ DataProcessor.extract_trending_topics R [] top_n = []
  /\ DataProcessor.extract_key_facts R [] topic = [].
Proof.
  repeat split; try reflexivity.
  - unfold DataProcessor.extract_trending_topics, most_common. cbn.
    rewrite firstn_nil. reflexivity.
  - unfold DataProcessor.extract_key_facts. cbn.
    rewrite set_iter_nil. reflexivity.
Qed.

(* ================================================================== *)
(** ** Per-source engagement metrics *)
(* ================================================================== *)

Section MetricsFacts.
Import InsightGenerator.
Variable cfg : Config.

Lemma dict_update_keys {V : Type} (d : dict V) (k : string) (f : V -> V) :
  dict_keys (dict_update d k f) = dict_keys d.
Proof using Type.
  unfold dict_keys. induction d as [| [k' v] d IH]; [reflexivity |].
  cbn [dict_update]. destruct (String.eqb k k'); cbn [map fst];
    [reflexivity | now rewrite IH].
Qed.

Lemma dict_update_last {V : Type} (d : dict V) (k : string) (v : V)
    (f : V -> V) :
  dict_mem d k = false ->
  dict_update (d ++ [(k, v)]) k f = d ++ [(k, f v)].
Proof using Type.
  unfold dict_mem. induction d as [| [k' v'] d IH]; cbn [app dict_update dict_get].
  - now rewrite String.eqb_refl.
  - destruct (String.eqb k k'); [discriminate |].
    intro H. now rewrite (IH H).
Qed.

Lemma dict_update_Forall {V : Type} (P : V -> Prop) (d : dict V)
    (k : string) (f : V -> V) :
  (forall v, P v -> P (f v)) ->
  Forall (fun e => P (snd e)) d ->
  Forall (fun e => P (snd e)) (dict_update d k f).
Proof using Type.
  intros Hf. induction 1 as [| [k' v] d Hv Hd IH]; [constructor |].
  cbn [dict_update]. destruct (String.eqb k k'); constructor; auto.
  cbn [snd] in *. auto.
Qed.

Lemma count_item_counted (rows : dict SourceMetrics.t) (item : Item.t) :
  Forall counted rows -> Forall counted (count_item cfg rows item).
Proof using Type.
  intro H. unfold count_item. cbv zeta.
  destruct (dict_mem rows (get_source item)) eqn:E; cbn [negb].
  - apply (dict_update_Forall
             (fun m => (1 <= SourceMetrics.total_items m)%Z)); [| exact H].
    intros m Hm. cbn [SourceMetrics.total_items]. lia.
  - rewrite (dict_set_absent _ _ _ E), (dict_update_last _ _ _ _ E).
    apply Forall_app. split; [exact H |].
    constructor; [| constructor].
    unfold counted. cbn. lia.
Qed.

Lemma count_item_keys (rows : dict SourceMetrics.t) (item : Item.t) :
  dict_keys (count_item cfg rows item)
  = if dict_mem rows (get_source item) then dict_keys rows
    else dict_keys rows ++ [get_source item].
Proof using Type.
  unfold count_item. cbv zeta. rewrite dict_update_keys.
  destruct (dict_mem rows (get_source item)) eqn:E; cbn [negb];
    [reflexivity |].
  rewrite dict_keys_set, E. reflexivity.
Qed.

Lemma fold_count_item_counted (items : list Item.t)
    (rows : dict SourceMetrics.t) :
  Forall counted rows -> Forall counted (fold_left (count_item cfg) items rows).
Proof using Type.
  revert rows. induction items as [| item items IH]; intros rows H;
    [exact H |].
  cbn [fold_left]. apply IH, count_item_counted, H.
Qed.

Lemma fold_count_item_keys (items : list Item.t)
    (rows : dict SourceMetrics.t) (s : string) :
  In s (dict_keys (fold_left (count_item cfg) items rows)) ->
  In s (dict_keys rows)
  \/ exists item, In item items /\ get_source item = s.
Proof using Type.
  revert rows. induction items as [| item items IH]; intros rows H;
    [now left |].
  cbn [fold_left] in H. apply IH in H. destruct H as [H | (i & Hi & Hs)].
  - rewrite count_item_keys in H.
    destruct (dict_mem rows (get_source item)); [now left |].
    apply in_app_iff in H. destruct H as [H | [H | []]]; [now left |].
    right. exists item. split; [now left | exact H].
  - right. exists i. split; [now right | exact Hs].
Qed.

End MetricsFacts.

(** C9. Every row of the per-source engagement metrics has
    [total_items >= 1], and its source is the source of some item; so the
    divisor of the two averages is never zero, and every row is finished by
    the branch that divides, never by the fallback. *)
Theorem engagement_metrics_rows_counted
    (cfg : InsightGenerator.Config) (data : Consolidated.t) :
  let rows := InsightGenerator.engagement_by_source cfg data in
  let out := InsightGenerator.generate_engagement_metrics cfg data in
  Forall (fun e => (1 <= SourceMetrics.total_items (snd e))%Z
                   /\ ~ inject_Z (SourceMetrics.total_items (snd e)) == 0)
    out
  /\ (forall s, In s (dict_keys out) ->
        exists item,
          In item (InsightGenerator.all_items data)
          /\ InsightGenerator.get_source item = s)
  /\ Forall (fun e => InsightGenerator.finish_row (snd e)
                      = InsightGenerator.with_averages (snd e)) rows
  /\ out = map (fun e => (fst e, InsightGenerator.with_averages (snd e))) rows.
Proof.
  intros rows out.
  assert (Hrows : Forall counted rows).
  { apply fold_count_item_counted. constructor. }
  assert (Hfin : Forall (fun e => InsightGenerator.finish_row (snd e)
                           = InsightGenerator.with_averages (snd e)) rows).
  { eapply Forall_impl; [| exact Hrows].
    intros e He. unfold counted in He. unfold InsightGenerator.finish_row.
    replace (0 <? SourceMetrics.total_items (snd e))%Z with true
      by (symmetry; apply Z.ltb_lt; lia).
    reflexivity. }
  assert (Hout : out = map (fun e => (fst e,
                     InsightGenerator.with_averages (snd e))) rows).
  { unfold out, InsightGenerator.generate_engagement_metrics. fold rows.
    apply map_ext_in. intros e He. f_equal.
    rewrite Forall_forall in Hfin. apply Hfin, He. }
  split.
  { rewrite Hout. apply Forall_map.
    eapply Forall_impl; [| exact Hrows].
    intros e He. unfold counted in He. cbn [snd].
    unfold InsightGenerator.with_averages. cbn [SourceMetrics.total_items].
    split; [exact He |].
    intro Hz. unfold Qeq in Hz. cbn [Qnum Qden inject_Z] in Hz. lia. }
  split.
  { intros s Hs. rewrite Hout in Hs. unfold dict_keys in Hs.
    rewrite map_map in Hs. cbn [fst] in Hs.
    apply (fold_count_item_keys cfg) in Hs.
    destruct Hs as [[] | Hs]. exact Hs. }
  split; [exact Hfin | exact Hout].
Qed.

(* ================================================================== *)
(** ** Key facts *)
(* ================================================================== *)

Lemma set_iter_NoDup (R : Runtime) (l : list string) : NoDup (set_iter R l).
Proof.
  eapply Permutation_NoDup;
    [apply Permutation_sym, set_iter_perm | apply NoDup_nodup].
Qed.

Lemma set_iter_In (R : Runtime) (l : list string) (x : string) :
  In x (set_iter R l) <-> In x l.
Proof.
  rewrite <- (nodup_In string_dec l x). split; intro H.
  - eapply Permutation_in; [apply set_iter_perm | exact H].
  - eapply Permutation_in; [apply Permutation_sym, set_iter_perm | exact H].
Qed.

Lemma dedup_first_filter (f : string -> bool) (l : list string) :
  dedup_first (filter f l) = filter f (dedup_first l).
Proof.
  induction l as [| x l IH]; [reflexivity |].
  cbn [filter dedup_first]. destruct (f x) eqn:Ex.
  - cbn [dedup_first]. rewrite IH. f_equal. apply filter_comm.
  - rewrite IH, filter_andb. apply filter_ext_in. intros y Hy.
    destruct (String.eqb x y) eqn:E; [| reflexivity].
    apply String.eqb_eq in E. subst y. cbn. now rewrite Ex.
Qed.

(** C3, as stated, fails: when the set of the two qualifying sentences of
    an item enumerates the second before the first, so do the key facts,
    which are then not in first-occurrence order. *)
Lemma key_facts_not_in_source_order :
  DataProcessor.extract_key_facts Example.backward Example.two_facts "Lula"
  <> spec_key_facts Example.backward Example.two_facts "Lula".
Proof. vm_compute. discriminate. Qed.

(** The same with twelve qualifying sentences: the ten key facts are not
    the first ten of the text. *)
Lemma key_facts_twelve_not_first_ten :
  DataProcessor.extract_key_facts Example.backward Example.twelve "Lula"
  <> spec_key_facts Example.backward Example.twelve "Lula"
  /\ List.length
       (DataProcessor.extract_key_facts Example.backward Example.twelve "Lula")
     = 10%nat.
Proof. split; [vm_compute; discriminate | reflexivity]. Qed.

(** C3. The key facts are pairwise distinct qualifying sentences (sentences
    of related items that contain the topic whatever the case, with more
    than five words), as many of them as there are distinct qualifying
    sentences, but at most ten.  When there are at most ten distinct
    qualifying sentences the key facts are all of them, in the order in
    which the set of sentences enumerates them; when the set enumerates in
    first-occurrence order, the key facts are the first ten distinct
    qualifying sentences in the order of the text. *)
Theorem key_facts_distinct_qualifying
    (R : Runtime) (data : list Item.t) (topic : string) :
  let sentences := DataProcessor.topic_sentences R data topic in
  let qualifying := filter (DataProcessor.long_enough R) sentences in
  let out := DataProcessor.extract_key_facts R data topic in
  NoDup out
  /\ List.length out = Nat.min 10 (List.length (dedup_first qualifying))
  /\ (forall s, In s out -> In s qualifying)
  /\ ((List.length (dedup_first qualifying) <= 10)%nat ->
      Permutation out (dedup_first qualifying))
  /\ (set_iter R sentences = dedup_first sentences ->
      out = spec_key_facts R data topic).
Proof.
  intros sentences qualifying out.
  set (F := filter (DataProcessor.long_enough R) (set_iter R sentences)).
  assert (Hout : out = firstn 10 F).
  { unfold out, DataProcessor.extract_key_facts. cbv zeta.
    fold sentences. fold F. apply firstn_min_length. }
  assert (HndF : NoDup F) by (apply NoDup_filter, set_iter_NoDup).
  assert (HinF : forall s, In s F <-> In s qualifying).
  { intro s. unfold F, qualifying. rewrite !filter_In, set_iter_In.
    reflexivity. }
  assert (Hperm : Permutation F (dedup_first qualifying)).
  { apply NoDup_Permutation; [exact HndF | apply dedup_first_NoDup |].
    intro s. rewrite dedup_first_In. apply HinF. }
  split; [rewrite Hout; apply firstn_NoDup, HndF |].
  split.
  { rewrite Hout, length_firstn, (Permutation_length Hperm). reflexivity. }
  split; [intros s Hs; rewrite Hout in Hs; apply HinF, (firstn_In _ _ _ Hs) |].
  split.
  { intro Hlen. rewrite Hout, firstn_all2; [exact Hperm |].
    rewrite (Permutation_length Hperm). exact Hlen. }
  intro Hset. rewrite Hout. unfold F, spec_key_facts. fold sentences.
  rewrite Hset, dedup_first_filter. reflexivity.
Qed.

(* ================================================================== *)
(** ** The whole pipeline *)
(* ================================================================== *)

Lemma filter_by_engagement_returns (data : list Item.t) (p : Q) :
  0 <= p -> p <= 1 ->
  exists kept, DataProcessor.filter_by_engagement data p = Ok kept.
Proof.
  intros H0 H1. destruct data as [| item data]; [now exists [] |].
  eexists. apply filter_by_engagement_ok; [discriminate |].
  apply quantile_ok; assumption.
Qed.






(** Nor is the output the same under two enumeration orders of the sets,
    the clock readings being equal. *)
Lemma pipeline_output_depends_on_set_order :
  run_pipeline InsightGenerator.default_config Example.forward
    Example.all_writable 0
    "2024-05-01T10:00:00" "2024-05-01T10:00:01" [items_file Example.twelve]
  <> run_pipeline InsightGenerator.default_config Example.backward
       Example.all_writable 0
       "2024-05-01T10:00:00" "2024-05-01T10:00:01" [items_file Example.twelve].
Proof. vm_compute. discriminate. Qed.








Section TwoRuns.
Variables R1 R2 : Runtime.
Hypothesis Hlib : same_library R1 R2.










End TwoRuns.

Lemma same_library_refl (R : Runtime) : same_library R R.
Proof. repeat split. Qed.




(* ================================================================== *)
(** ** The worked examples of the specification, run on the model *)
(* ================================================================== *)

(** A percentile outside [0, 1] makes the engagement filter raise on a
    non-empty list. *)
Lemma filter_by_engagement_out_of_range (item : Item.t) (data : list Item.t)
    (p : Q) :
  p < 0 \/ 1 < p ->
  DataProcessor.filter_by_engagement (item :: data) p = Raise ValueError.
Proof.
  intro Hp. unfold DataProcessor.filter_by_engagement. cbn [map].
  unfold quantile.
  replace (Qle_bool 0 p && Qle_bool p 1) with false; [reflexivity |].
  symmetry. apply andb_false_iff.
  destruct Hp as [Hp | Hp]; [left | right];
    apply not_true_is_false; rewrite Qle_bool_iff; lra.
Qed.

(** The four-item scenario: with the percentile 0.3 the threshold is 0.19,
    the item of engagement 0.1 is dropped, and the candidates of the three
    kept items are Lula and Dilma, each counted twice. *)
Example scenario_filtered :
  quantile (map DataProcessor.engagement_value Example.scenario) (3 # 10)
  = Ok (lerp_at [1 # 10; 2 # 10; 5 # 10; 8 # 10] ((3 # 10) * 3))
  /\ lerp_at [1 # 10; 2 # 10; 5 # 10; 8 # 10] ((3 # 10) * 3) == 19 # 100
  /\ DataProcessor.filter_by_engagement Example.scenario (3 # 10)
     = Ok (firstn 3 Example.scenario).
Proof. repeat split. Qed.

Example scenario_candidates (R : Runtime) :
  map (fun t => (TrendingTopic.topic t, TrendingTopic.count t))
    (DataProcessor.extract_trending_topics R (firstn 3 Example.scenario) 5)
  = [(Some "Lula", Some 2%Z); (Some "Dilma", Some 2%Z)]%string.
Proof. reflexivity. Qed.

(** The recommendation bands: a score of 0.75 with three facts is
    recommended with priority "Alta"; a score of 0.5 is dropped with one
    fact and recommended with priority "Média" with two. *)
Example recommendation_bands :
  map InsightGenerator.score
    (Consolidated.trending_topics Example.candidates)
  = [float_of_Q (75 # 100); float_of_Q (5 # 10); float_of_Q (5 # 10)]
  /\ map (fun r => (Recommendation.topic r, Recommendation.priority r))
       (InsightGenerator.generate_content_recommendations
          InsightGenerator.default_config Example.candidates)
     = [("A", Alta); ("C", Media)]%string.
Proof. split; vm_compute; reflexivity. Qed.

(** Rounding decides the band.  With count 0 and mean engagement 1.75 the
    exact value of [count * 0.6 + avg_engagement * 0.4] is the threshold
    0.7, but the product is rounded to 0.7000000000000001, which is above
    the float 0.7: the status is "Alta".  With mean engagement 0.875 the
    score is 0.35000000000000003, above half the threshold: the status is
    "Média". *)
Example trend_score_rounding :
  InsightGenerator.score (Example.candidate "T" 0 (175 # 100) [])
  = S754_finite false 6305039478318695 (-53)
  /\ InsightGenerator.trending_threshold InsightGenerator.default_config
     = S754_finite false 6305039478318694 (-53)
  /\ InsightGenerator.status_of InsightGenerator.default_config
       (InsightGenerator.score (Example.candidate "T" 0 (175 # 100) []))
     = Alta
  /\ InsightGenerator.score (Example.candidate "T" 0 (875 # 1000) [])
     = S754_finite false 6305039478318695 (-54)
  /\ InsightGenerator.half_threshold InsightGenerator.default_config
     = S754_finite false 6305039478318694 (-54)
  /\ InsightGenerator.status_of InsightGenerator.default_config
       (InsightGenerator.score (Example.candidate "T" 0 (875 # 1000) []))
     = Media.
Proof. repeat split; vm_compute; reflexivity. Qed.

(** Three related items of engagement 0.1 have the mean
    0.10000000000000002, the sum 0.30000000000000004 being rounded. *)
Example mean_engagement_rounding :
  let item :=
    Item.mk (Some "G1"%string) None None None (Some ["Lula"%string]) None
      None (Some (EngDict (Some (1 # 10)) None)) in
  map TrendingTopic.avg_engagement
    (DataProcessor.extract_trending_topics Example.forward [item; item; item]
       5)
  = [Some (S754_finite false 7205759403792795 (-56))]
  /\ float_of_Q (1 # 10) = S754_finite false 7205759403792794 (-56).
Proof. split; vm_compute; reflexivity. Qed.

(* ================================================================== *)
(** ** Further properties of the two filters *)
(* ================================================================== *)

Lemma Subseq_refl {A : Type} (l : list A) : Subseq l l.
Proof.
  induction l as [| x l IH]; [apply Subseq_nil | apply Subseq_keep, IH].
Qed.

Lemma filter_all {A : Type} (f : A -> bool) (l : list A) :
  (forall x, In x l -> f x = true) -> filter f l = l.
Proof.
  intro H. apply forallb_filter_id, forallb_forall, H.
Qed.

Lemma filter_by_relevance_In (m : Q) (data : list Item.t) (item : Item.t) :
  In item (DataProcessor.filter_by_relevance m data)
  <-> In item data /\ m <= relevance_of item.
Proof.
  unfold DataProcessor.filter_by_relevance, relevance_of.
  rewrite filter_In, Qle_bool_iff. reflexivity.
Qed.

(** X1. The relevance filter keeps, in their order, exactly the items whose
    relevance score (0 when the key is missing) reaches the minimum; it
    returns its input when every item does; two filters commute, and after
    a filter with a minimum [m1] a filter with a greater minimum [m2] gives
    what the second gives alone. *)
Theorem relevance_filter_composes (m1 m2 : Q) (data : list Item.t) :
  Subseq (DataProcessor.filter_by_relevance m1 data) data
  /\ (forall item,
        In item (DataProcessor.filter_by_relevance m1 data)
        <-> In item data /\ m1 <= relevance_of item)
  /\ ((forall item, In item data -> m1 <= relevance_of item) ->
      DataProcessor.filter_by_relevance m1 data = data)
  /\ DataProcessor.filter_by_relevance m2
       (DataProcessor.filter_by_relevance m1 data)
     = DataProcessor.filter_by_relevance m1
         (DataProcessor.filter_by_relevance m2 data)
  /\ (m1 <= m2 ->
      DataProcessor.filter_by_relevance m2
        (DataProcessor.filter_by_relevance m1 data)
      = DataProcessor.filter_by_relevance m2 data).
Proof.
  split; [apply filter_Subseq |].
  split; [intro item; apply filter_by_relevance_In |].
  split.
  { intro H. apply filter_all. intros item Hin.
    apply Qle_bool_iff. exact (H item Hin). }
  split; [apply filter_comm |].
  intro Hle. unfold DataProcessor.filter_by_relevance.
  rewrite filter_andb. apply filter_ext. intro item.
  destruct (Qle_bool m2 _) eqn:E; [| apply andb_false_r].
  rewrite andb_true_r. apply Qle_bool_iff. apply Qle_bool_iff in E.
  eapply Qle_trans; eassumption.
Qed.

(** X2. The engagement filter raises exactly when the list is not empty and
    the percentile is outside [0, 1]; in every other case it returns a
    list. *)
Theorem engagement_filter_raises_iff (data : list Item.t) (p : Q) :
  (DataProcessor.filter_by_engagement data p = Raise ValueError
   <-> data <> [] /\ (p < 0 \/ 1 < p))
  /\ ((exists kept, DataProcessor.filter_by_engagement data p = Ok kept)
      <-> data = [] \/ (0 <= p /\ p <= 1)).
Proof.
  assert (Hin : 0 <= p /\ p <= 1 ->
                exists kept, DataProcessor.filter_by_engagement data p = Ok kept)
    by (intros [H0 H1]; now apply filter_by_engagement_returns).
  assert (Hout : data <> [] -> p < 0 \/ 1 < p ->
                 DataProcessor.filter_by_engagement data p = Raise ValueError).
  { intros Hne Hp. destruct data as [| item data]; [congruence |].
    now apply filter_by_engagement_out_of_range. }
  assert (Hcases : (0 <= p /\ p <= 1) \/ (p < 0 \/ 1 < p)).
  { destruct (Qlt_le_dec p 0) as [H | H]; [now right; left |].
    destruct (Qlt_le_dec 1 p) as [H' | H']; [now right; right | now left]. }
  split; split.
  - intro H. split.
    + intros ->. discriminate H.
    + destruct Hcases as [Hc | Hc]; [| exact Hc].
      destruct (Hin Hc) as (kept & Hk). congruence.
  - intros [Hne Hp]. now apply Hout.
  - intros (kept & Hk).
    destruct data as [| item data]; [now left | right].
    destruct Hcases as [Hc | Hc]; [exact Hc |].
    rewrite Hout in Hk by (discriminate || assumption). discriminate Hk.
  - intros [-> | Hc]; [now exists [] | now apply Hin].
Qed.

Lemma filter_filter_weaker {A : Type} (f g : A -> bool) (l : list A) :
  (forall x, f x = true -> g x = true) ->
  filter f (filter g l) = filter f l.
Proof.
  intro H. rewrite filter_andb. apply filter_ext. intro x.
  destruct (f x) eqn:E; [now rewrite (H x E) | apply andb_false_r].
Qed.

(** X3. For percentiles [0 <= p1 <= p2 <= 1] what the engagement filter
    keeps with [p2] is kept with [p1] too, in the same order: the second
    result is the first with some items left out, and both are the input
    with some items left out. *)
Theorem engagement_filter_nested (data : list Item.t) (p1 p2 : Q) :
  0 <= p1 -> p1 <= p2 -> p2 <= 1 ->
  exists kept1 kept2,
    DataProcessor.filter_by_engagement data p1 = Ok kept1
    /\ DataProcessor.filter_by_engagement data p2 = Ok kept2
    /\ Subseq kept2 kept1
    /\ Subseq kept1 data
    /\ DataProcessor.filter_by_engagement kept1 p2 <> Raise ValueError.
Proof.
  intros H0 H12 H1.
  assert (Hnr : forall l, DataProcessor.filter_by_engagement l p2
                          <> Raise ValueError).
  { intro l. destruct (filter_by_engagement_returns l p2) as (k & ->);
      [lra | exact H1 | discriminate]. }
  destruct data as [| item data].
  { exists [], []. cbn. repeat split; try apply Subseq_nil. discriminate. }
  set (d := item :: data).
  assert (Hne : d <> []) by discriminate.
  assert (Hv : map DataProcessor.engagement_value d <> []) by discriminate.
  destruct (quantile_mono (map DataProcessor.engagement_value d) p1 p2
              Hv H0 H12 H1) as (t1 & t2 & Hq1 & Hq2 & Ht).
  exists (filter (fun i => Qle_bool t1 (DataProcessor.engagement_value i)) d),
         (filter (fun i => Qle_bool t2 (DataProcessor.engagement_value i)) d).
  split; [apply filter_by_engagement_ok; assumption |].
  split; [apply filter_by_engagement_ok; assumption |].
  split.
  { rewrite <- (filter_filter_weaker
                  (fun i => Qle_bool t2 (DataProcessor.engagement_value i))
                  (fun i => Qle_bool t1 (DataProcessor.engagement_value i))).
    - apply filter_Subseq.
    - intros x Hx. apply Qle_bool_iff. apply Qle_bool_iff in Hx.
      eapply Qle_trans; eassumption. }
  split; [apply filter_Subseq | apply Hnr].
Qed.

Lemma engagement_filter_nested_witness :
  (0 <= 3 # 10 /\ 3 # 10 <= 7 # 10 /\ 7 # 10 <= 1)
  /\ exists kept1 kept2,
       DataProcessor.filter_by_engagement Example.scenario (3 # 10) = Ok kept1
       /\ DataProcessor.filter_by_engagement Example.scenario (7 # 10)
          = Ok kept2
       /\ Subseq kept2 kept1
       /\ Subseq kept1 Example.scenario
       /\ DataProcessor.filter_by_engagement kept1 (7 # 10)
          <> Raise ValueError.
Proof.
  split.
  - unfold Qle; simpl; lia.
  - apply (engagement_filter_nested Example.scenario (3 # 10) (7 # 10));
      unfold Qle; simpl; lia.
Defined.


(* ================================================================== *)
(** ** Further properties of the topic grouping *)
(* ================================================================== *)

Lemma StronglySorted_app_inv {A : Type} (R : A -> A -> Prop)
    (l1 l2 : list A) :
  StronglySorted R (l1 ++ l2) ->
  StronglySorted R l1 /\ StronglySorted R l2
  /\ forall a b, In a l1 -> In b l2 -> R a b.
Proof.
  induction l1 as [| x l1 IH]; cbn [app]; intro H.
  - split; [constructor | split; [exact H | intros a b []]].
  - inversion H as [| ? ? Hs Hx]; subst.
    destruct (IH Hs) as (H1 & H2 & H12).
    rewrite Forall_app in Hx. destruct Hx as [Hx1 Hx2].
    split; [constructor; assumption |]. split; [exact H2 |].
    intros a b [<- | Ha] Hb.
    + rewrite Forall_forall in Hx2. apply Hx2, Hb.
    + apply H12; assumption.
Qed.

Lemma StronglySorted_Subseq {A : Type} (R : A -> A -> Prop)
    (l1 l2 : list A) :
  Subseq l1 l2 -> StronglySorted R l2 -> StronglySorted R l1.
Proof.
  induction 1 as [| x l1 l2 H IH | x l1 l2 H IH]; intro Hs.
  - exact Hs.
  - inversion Hs; subst. apply IH. assumption.
  - inversion Hs as [| ? ? Hs' Hx]; subst. constructor; [apply IH, Hs' |].
    rewrite Forall_forall in *. intros y Hy. apply Hx.
    eapply Subseq_In; eassumption.
Qed.

Lemma StronglySorted_map_In {A B : Type} (R : A -> A -> Prop)
    (R' : B -> B -> Prop) (f : A -> B) (l : list A) :
  (forall a b, In a l -> In b l -> R a b -> R' (f a) (f b)) ->
  StronglySorted R l -> StronglySorted R' (map f l).
Proof.
  intros HR Hs. induction Hs as [| x l Hs IH Hx]; cbn [map]; constructor.
  - apply IH. intros a b Ha Hb. apply HR; now right.
  - rewrite Forall_forall in *. intros y Hy.
    apply in_map_iff in Hy. destruct Hy as (b & <- & Hb).
    apply HR; [now left | now right | apply Hx, Hb].
Qed.

Section Ranking.
Import DataProcessor.
Variable data : list Item.t.

Let all_entities := flat_map get_entities data.
Let ranked := sort_desc Z.leb (@snd string Z) (tally all_entities).
Let occ := occurrences all_entities.

Lemma ranked_entry (e : string * Z) :
  In e ranked <-> In (fst e) all_entities /\ snd e = occ (fst e).
Proof using Type.
  unfold ranked. split.
  - intro H.
    apply (Permutation_in _
             (Permutation_sym (sort_desc_perm _ _ Z.leb snd _))) in H.
    unfold tally in H. apply in_map_iff in H.
    destruct H as (k & <- & Hk). rewrite dedup_first_In in Hk.
    now split.
  - intros [Hk Hn].
    apply (Permutation_in _ (sort_desc_perm _ _ Z.leb snd _)).
    unfold tally. apply in_map_iff. exists (fst e).
    split; [| now rewrite dedup_first_In].
    destruct e as [k n]. cbn [fst snd] in *. now subst.
Qed.

Lemma ranked_sorted :
  StronglySorted (fun a b => (snd b <= snd a)%Z) ranked.
Proof using Type.
  destruct (ranked_by_count (tally all_entities)) as (_ & H & _). exact H.
Qed.

Lemma top_entities_ranked_eq :
  top_entities data
  = map fst (filter (fun ec => (1 <? snd ec)%Z) (firstn 10 ranked)).
Proof using Type.
  destruct (top_entities_selected data) as (_ & _ & H). exact H.
Qed.

Lemma top_entities_entry (e : string) :
  In e (top_entities data)
  <-> In (e, occ e) (firstn 10 ranked) /\ (1 < occ e)%Z.
Proof using Type.
  rewrite top_entities_ranked_eq, in_map_iff. split.
  - intros ([k n] & <- & H). apply filter_In in H. destruct H as [H Hn].
    cbn [fst snd] in *.
    assert (Hr : In (k, n) ranked) by (eapply firstn_In; exact H).
    apply ranked_entry in Hr. cbn [fst snd] in Hr. destruct Hr as [_ ->].
    split; [exact H | apply Z.ltb_lt, Hn].
  - intros [H Hn]. exists (e, occ e). split; [reflexivity |].
    apply filter_In. split; [exact H | apply Z.ltb_lt, Hn].
Qed.

End Ranking.

(** X5. The selected entities of the topic grouping are at most ten,
    pairwise distinct, each occurring more than once among the entities of
    the items, and they stand in descending order of their number of
    occurrences.  An entity that occurs more than once is left out only when
    ten are selected, and no entity left out occurs more often than a
    selected one. *)
Theorem top_entities_ranked (data : list Item.t) :
  let occ := occurrences (flat_map DataProcessor.get_entities data) in
  let top := DataProcessor.top_entities data in
  (List.length top <= 10)%nat
  /\ NoDup top
  /\ (forall e, In e top -> (1 < occ e)%Z)
  /\ StronglySorted (fun a b => (occ b <= occ a)%Z) top
  /\ (forall e, (1 < occ e)%Z -> In e top \/ List.length top = 10%nat)
  /\ (forall e e', In e top -> ~ In e' top -> (occ e' <= occ e)%Z).
Proof.
  intros occ top.
  set (ranked := sort_desc Z.leb (@snd string Z)
                   (tally (flat_map DataProcessor.get_entities data))).
  destruct (top_entities_selected data) as (Hlen & Hocc & Heq).
  fold ranked in Heq. fold top in Hlen, Hocc, Heq.
  pose proof (ranked_sorted data) as Hs. fold ranked in Hs.
  assert (Hsplit : ranked = firstn 10 ranked ++ skipn 10 ranked)
    by (symmetry; apply firstn_skipn).
  rewrite Hsplit in Hs.
  destruct (StronglySorted_app_inv _ _ _ Hs) as (Hs1 & _ & Hcross).
  assert (Hbeyond : forall e, (1 < occ e)%Z -> ~ In e top ->
                      In (e, occ e) (skipn 10 ranked)).
  { intros e He Hnot.
    assert (Hr : In (e, occ e) ranked).
    { apply ranked_entry. cbn [fst snd]. split; [| reflexivity].
      destruct (in_dec string_dec e
                  (flat_map DataProcessor.get_entities data)) as [H | H];
        [exact H |].
      unfold occ in He. rewrite (occurrences_absent _ _ H) in He. lia. }
    rewrite Hsplit in Hr. apply in_app_iff in Hr.
    destruct Hr as [Hr | Hr]; [| exact Hr].
    exfalso. apply Hnot. apply top_entities_entry. now split. }
  split; [exact Hlen |].
  split; [apply top_entities_NoDup |].
  split; [exact Hocc |].
  split.
  { rewrite Heq.
    apply (StronglySorted_map_In (fun a b : string * Z => (snd b <= snd a)%Z)).
    - intros a b Ha Hb Hab.
      apply filter_In in Ha, Hb. destruct Ha as [Ha _], Hb as [Hb _].
      apply firstn_In, ranked_entry in Ha. apply firstn_In, ranked_entry in Hb.
      destruct Ha as [_ Ha], Hb as [_ Hb]. unfold occ. now rewrite <- Ha, <- Hb.
    - eapply StronglySorted_Subseq; [apply filter_Subseq | exact Hs1]. }
  split.
  { intros e He.
    destruct (in_dec string_dec e top) as [Hin | Hnot]; [now left | right].
    pose proof (Hbeyond e He Hnot) as Hsk.
    assert (Hfull : List.length (firstn 10 ranked) = 10%nat).
    { apply firstn_length_le.
      destruct (Nat.le_gt_cases 10 (List.length ranked)) as [H | H];
        [exact H |].
      rewrite skipn_all2 in Hsk by lia. destruct Hsk. }
    rewrite Heq, length_map, filter_all; [exact Hfull |].
    intros a Ha. apply Z.ltb_lt.
    pose proof (Hcross _ _ Ha Hsk) as Hle. cbn [snd] in Hle. lia. }
  intros e e' He Hnot.
  destruct (Z.le_gt_cases (occ e') 1) as [Hsmall | Hbig].
  - pose proof (Hocc e He) as Hgt. cbv zeta in Hgt. unfold occ in *. lia.
  - apply top_entities_entry in He. destruct He as [He _].
    pose proof (Hcross _ _ He (Hbeyond e' ltac:(lia) Hnot)) as Hle.
    exact Hle.
Qed.

Lemma group_by_topic_without_collision_witness :
  ~ In DataProcessor.outros (DataProcessor.top_entities Example.scenario)
  /\ DataProcessor.group_by_topic Example.scenario
     = map (fun entity =>
              (entity,
               filter (fun item =>
                         str_in entity (DataProcessor.get_entities item))
                 Example.scenario))
         (DataProcessor.top_entities Example.scenario)
       ++ [(DataProcessor.outros,
            filter
              (fun item =>
                 negb (existsb
                         (fun entity =>
                            str_in entity (DataProcessor.get_entities item))
                         (DataProcessor.top_entities Example.scenario)))
              Example.scenario)].
Proof.
  assert (H : ~ In DataProcessor.outros
                (DataProcessor.top_entities Example.scenario)).
  { vm_compute. intros [H | [H | []]]; discriminate H. }
  split; [exact H |].
  apply (group_by_topic_without_collision Example.scenario H).
Defined.

Lemma dict_set_map {V : Type} (f : string -> V) (keys : list string)
    (k : string) (v : V) :
  NoDup keys ->
  dict_set (map (fun e => (e, f e)) keys) k v
  = map (fun e => (e, if String.eqb k e then v else f e)) keys
    ++ (if str_in k keys then [] else [(k, v)]).
Proof.
  induction keys as [| e keys IH]; intro Hnd; [reflexivity |].
  inversion Hnd as [| ? ? He Hnd']; subst.
  cbn [map dict_set]. unfold str_in. cbn [existsb].
  destruct (String.eqb k e) eqn:E; cbn [orb app].
  - apply String.eqb_eq in E. subst e. rewrite app_nil_r. f_equal.
    apply map_ext_in. intros e' He'.
    destruct (String.eqb k e') eqn:E'; [| reflexivity].
    apply String.eqb_eq in E'. subst e'. contradiction.
  - f_equal. exact (IH Hnd').
Qed.

Lemma dict_get_app {V : Type} (d1 d2 : dict V) (k : string) :
  dict_get (d1 ++ d2) k
  = match dict_get d1 k with Some v => Some v | None => dict_get d2 k end.
Proof.
  induction d1 as [| [k' v'] d1 IH]; [reflexivity |].
  cbn [app dict_get]. destruct (String.eqb k k'); [reflexivity | exact IH].
Qed.

Lemma dict_get_map_In {V : Type} (h : string -> V) (keys : list string)
    (rest : dict V) (k : string) :
  In k keys ->
  dict_get (map (fun e => (e, h e)) keys ++ rest) k = Some (h k).
Proof.
  induction keys as [| e keys IH]; intro H; [destruct H |].
  cbn [map app dict_get]. destruct (String.eqb k e) eqn:E.
  - apply String.eqb_eq in E. now subst.
  - apply IH. destruct H as [-> | H]; [| exact H].
    rewrite String.eqb_refl in E. discriminate.
Qed.

(** The grouping in every case: the selected entities in their order, each
    with its cluster, except that a selected entity "outros" holds the
    catch-all; else the catch-all comes last. *)
Lemma group_by_topic_entries (data : list Item.t) :
  let top := DataProcessor.top_entities data in
  let cluster e :=
    filter (fun item => str_in e (DataProcessor.get_entities item)) data in
  let rest :=
    filter
      (fun item =>
         negb (existsb
                 (fun e => str_in e (DataProcessor.get_entities item)) top))
      data in
  DataProcessor.group_by_topic data
  = map (fun e =>
           (e, if String.eqb DataProcessor.outros e then rest else cluster e))
      top
    ++ (if str_in DataProcessor.outros top then []
        else [(DataProcessor.outros, rest)]).
Proof.
  intros top cluster rest. unfold DataProcessor.group_by_topic. cbv zeta.
  rewrite (filter_ext_in _
             (fun o => negb (existsb
                               (fun e =>
                                  str_in e
                                    (DataProcessor.get_entities (snd o)))
                               top)))
    by (intros o Ho; f_equal; apply classified_iff, Ho).
  rewrite entity_topics_entries. fold top.
  rewrite (dict_set_map
             (fun e =>
                filter (fun o => str_in e (DataProcessor.get_entities (snd o)))
                  (DataProcessor.objects data)))
    by apply top_entities_NoDup.
  assert (Hrest :
    map snd
      (filter (fun o => negb (existsb
                                (fun e =>
                                   str_in e
                                     (DataProcessor.get_entities (snd o)))
                                top))
         (DataProcessor.objects data)) = rest).
  { rewrite <- (filter_map_swap
                  (fun item =>
                     negb (existsb
                             (fun e =>
                                str_in e (DataProcessor.get_entities item))
                             top)) snd).
    now rewrite objects_items. }
  rewrite map_app, map_map. cbn [fst snd]. f_equal.
  - apply map_ext. intro e. f_equal.
    destruct (String.eqb DataProcessor.outros e); [exact Hrest |].
    rewrite <- (filter_map_swap
                  (fun item => str_in e (DataProcessor.get_entities item))
                  snd).
    now rewrite objects_items.
  - destruct (str_in DataProcessor.outros top); [reflexivity |].
    cbn [map fst snd]. now rewrite Hrest.
Qed.

Lemma group_by_topic_cluster_Subseq (data : list Item.t) (k : string)
    (cluster : list Item.t) :
  In (k, cluster) (DataProcessor.group_by_topic data) -> Subseq cluster data.
Proof.
  intro Hin.
  pose proof (group_by_topic_entries data) as Hg. cbv beta zeta in Hg.
  rewrite Hg in Hin. apply in_app_iff in Hin.
  destruct Hin as [Hin | Hin].
  - apply in_map_iff in Hin. destruct Hin as (e & E & _).
    apply (f_equal snd) in E. cbn [snd] in E. subst cluster.
    destruct (String.eqb DataProcessor.outros e); apply filter_Subseq.
  - destruct (str_in DataProcessor.outros (DataProcessor.top_entities data));
      [destruct Hin |].
    destruct Hin as [E | []].
    apply (f_equal snd) in E. cbn [snd] in E. subst cluster.
    apply filter_Subseq.
Qed.

(** X7. The result of the topic grouping has pairwise distinct keys, the
    selected entities in their order, and the key "outros", which comes last
    unless it is a selected entity; so it has at most eleven clusters.  The
    cluster under "outros" is always the list of the items without any
    selected entity; the cluster of any other selected entity is the list of
    the items whose entities contain it; and every cluster is the input with
    some items left out. *)
Theorem group_by_topic_clusters (data : list Item.t) :
  let top := DataProcessor.top_entities data in
  let grouped := DataProcessor.group_by_topic data in
  dict_keys grouped
  = (if str_in DataProcessor.outros top then top
     else top ++ [DataProcessor.outros])
  /\ NoDup (dict_keys grouped)
  /\ (List.length grouped <= 11)%nat
  /\ dict_get grouped DataProcessor.outros
     = Some (filter
               (fun item =>
                  negb (existsb
                          (fun e => str_in e (DataProcessor.get_entities item))
                          top))
               data)
  /\ (forall e, In e top -> e <> DataProcessor.outros ->
        dict_get grouped e
        = Some (filter
                  (fun item => str_in e (DataProcessor.get_entities item))
                  data))
  /\ (forall k cluster, In (k, cluster) grouped -> Subseq cluster data).
Proof.
  intros top grouped.
  pose proof (group_by_topic_entries data) as Hg. cbv beta zeta in Hg.
  fold top grouped in Hg.
  pose proof (top_entities_NoDup data) as Hnd. fold top in Hnd.
  assert (Hkeys : dict_keys grouped
                  = (if str_in DataProcessor.outros top then top
                     else top ++ [DataProcessor.outros])).
  { rewrite Hg. unfold dict_keys. rewrite map_app, map_map. cbn [fst].
    rewrite map_id.
    destruct (str_in DataProcessor.outros top);
      [apply app_nil_r | reflexivity]. }
  split; [exact Hkeys |].
  split.
  { rewrite Hkeys. destruct (str_in DataProcessor.outros top) eqn:E;
      [exact Hnd |].
    apply str_in_false in E.
    apply NoDup_app; [exact Hnd | repeat constructor; intros [] |].
    intros x Hx [<- | []]. contradiction. }
  split.
  { rewrite <- (length_map fst grouped). fold (dict_keys grouped).
    rewrite Hkeys.
    destruct (top_entities_selected data) as (Hlen & _). fold top in Hlen.
    destruct (str_in DataProcessor.outros top);
      [| rewrite length_app; cbn [List.length]]; lia. }
  split.
  { rewrite Hg. destruct (str_in DataProcessor.outros top) eqn:E.
    - apply str_in_In in E.
      rewrite (dict_get_map_In _ top [] _ E), String.eqb_refl. reflexivity.
    - apply str_in_false in E. rewrite dict_get_app, dict_get_none.
      + cbn [dict_get]. now rewrite String.eqb_refl.
      + unfold dict_keys. rewrite map_map. cbn [fst]. now rewrite map_id. }
  split.
  { intros e He Hne. rewrite Hg, (dict_get_map_In _ top _ _ He).
    apply not_eq_sym, String.eqb_neq in Hne. now rewrite Hne. }
  intros k cluster Hin. exact (group_by_topic_cluster_Subseq data k cluster Hin).
Qed.

(** The selected entities are entities of the items. *)
Lemma top_entities_of_items (data : list Item.t) (e : string) :
  In e (DataProcessor.top_entities data) ->
  exists item, In item data /\ In e (DataProcessor.get_entities item).
Proof.
  intro He.
  destruct (top_entities_selected data) as (_ & Hocc & _).
  specialize (Hocc e He). cbv zeta in Hocc.
  destruct (in_dec string_dec e (flat_map DataProcessor.get_entities data))
    as [Hin | Hout].
  - apply in_flat_map in Hin. exact Hin.
  - rewrite (occurrences_absent _ _ Hout) in Hocc. lia.
Qed.

(** No selected entity is called "outros" when no item has that entity;
    this is so for the items the agents write, whose entities begin with an
    upper-case character. *)
Lemma no_entity_outros (data : list Item.t) :
  (forall item, In item data ->
     ~ In DataProcessor.outros (DataProcessor.get_entities item)) ->
  ~ In DataProcessor.outros (DataProcessor.top_entities data).
Proof.
  intros H Hin. destruct (top_entities_of_items data _ Hin) as (item & Hi & He).
  exact (H item Hi He).
Qed.

(** C7. When no selected entity is called "outros": the selected entities
    are the entities counted more than once among the first ten of the
    frequency table ranked by descending count, entries with the same count
    keeping their first-seen order; so they are at most ten, each occurs
    more than once, and they descend by count.  The grouping has one cluster
    per selected entity, in their order, holding exactly the items whose
    entities contain it, followed by the cluster "outros", which holds an
    item exactly when the item is in no cluster of a selected entity; so
    every item is in "outros" or in a named cluster. *)
Theorem group_by_topic_selects_and_clusters (data : list Item.t) :
  ~ In DataProcessor.outros (DataProcessor.top_entities data) ->
  let all_entities := flat_map DataProcessor.get_entities data in
  let occ := occurrences all_entities in
  let ranked := sort_desc Z.leb (@snd string Z) (tally all_entities) in
  let top := DataProcessor.top_entities data in
  let grouped := DataProcessor.group_by_topic data in
  let named e :=
    filter (fun item => str_in e (DataProcessor.get_entities item)) data in
  let rest :=
    filter
      (fun item =>
         negb (existsb (fun e => str_in e (DataProcessor.get_entities item))
                 top))
      data in
  top = map fst (filter (fun ec => (1 <? snd ec)%Z) (firstn 10 ranked))
  /\ StronglySorted (fun a b => (snd b <= snd a)%Z) ranked
  /\ (forall n : Z,
        filter (fun e => (snd e =? n)%Z) ranked
        = filter (fun e => (snd e =? n)%Z) (tally all_entities))
  /\ (List.length top <= 10)%nat
  /\ NoDup top
  /\ (forall e, In e top -> (1 < occ e)%Z)
  /\ StronglySorted (fun a b => (occ b <= occ a)%Z) top
  /\ grouped = map (fun e => (e, named e)) top ++ [(DataProcessor.outros, rest)]
  /\ (forall e item,
        In item (named e)
        <-> In item data /\ In e (DataProcessor.get_entities item))
  /\ (forall item,
        In item rest
        <-> In item data /\ forall e, In e top -> ~ In item (named e))
  /\ (forall item, In item data ->
        exists k cluster, In (k, cluster) grouped /\ In item cluster).
Proof.
  intros Hfree all_entities occ ranked top grouped named rest.
  destruct (top_entities_selected data) as (Hlen & Hocc & Heq).
  fold all_entities ranked in Heq. fold top in Hlen, Hocc, Heq.
  destruct (ranked_by_count (tally all_entities)) as (_ & Hs & Hties).
  fold ranked in Hs, Hties.
  assert (Hnamed : forall e item,
            In item (named e)
            <-> In item data /\ In e (DataProcessor.get_entities item)).
  { intros e item. unfold named. rewrite filter_In.
    split; intros [H1 H2]; (split; [exact H1 |]).
    - apply str_in_In, H2.
    - destruct (str_in e (DataProcessor.get_entities item)) eqn:E;
        [reflexivity |].
      apply str_in_false in E. contradiction. }
  assert (Hrest : forall item,
            In item rest
            <-> In item data /\ forall e, In e top -> ~ In item (named e)).
  { intro item. unfold rest. rewrite filter_In, negb_true_iff.
    split; intros [Hi H]; (split; [exact Hi |]).
    - intros e He Hin. apply Hnamed in Hin. destruct Hin as [_ Hin].
      assert (Hex : existsb
                      (fun e => str_in e (DataProcessor.get_entities item))
                      top = true).
      { apply existsb_exists. exists e. split; [exact He |].
        destruct (str_in e (DataProcessor.get_entities item)) eqn:E;
          [reflexivity |].
        apply str_in_false in E. contradiction. }
      rewrite Hex in H. discriminate H.
    - apply not_true_is_false. intro Hex.
      apply existsb_exists in Hex. destruct Hex as (e & He & Hin).
      apply (H e He). apply Hnamed. split; [exact Hi |].
      apply str_in_In, Hin. }
  assert (Hg : grouped
               = map (fun e => (e, named e)) top
                 ++ [(DataProcessor.outros, rest)]).
  { pose proof (group_by_topic_entries data) as Hg. cbv beta zeta in Hg.
    fold top grouped in Hg. fold rest in Hg. rewrite Hg.
    assert (E : str_in DataProcessor.outros top = false).
    { destruct (str_in DataProcessor.outros top) eqn:E; [| reflexivity].
      apply str_in_In in E. contradiction. }
    rewrite E. f_equal. apply map_ext_in. intros e He.
    destruct (String.eqb DataProcessor.outros e) eqn:Ee; [| reflexivity].
    apply String.eqb_eq in Ee. subst e. contradiction. }
  split; [exact Heq |].
  split; [exact Hs |].
  split; [exact Hties |].
  split; [exact Hlen |].
  split; [apply top_entities_NoDup |].
  split; [exact Hocc |].
  split.
  { rewrite Heq.
    apply (StronglySorted_map_In (fun a b : string * Z => (snd b <= snd a)%Z)).
    - intros a b Ha Hb Hab.
      apply filter_In in Ha, Hb. destruct Ha as [Ha _], Hb as [Hb _].
      apply firstn_In, ranked_entry in Ha. apply firstn_In, ranked_entry in Hb.
      destruct Ha as [_ Ha], Hb as [_ Hb]. unfold occ, all_entities.
      now rewrite <- Ha, <- Hb.
    - eapply StronglySorted_Subseq; [apply filter_Subseq |].
      eapply StronglySorted_Subseq; [apply firstn_Subseq | exact Hs]. }
  split; [exact Hg |].
  split; [exact Hnamed |].
  split; [exact Hrest |].
  intros item Hi.
  destruct (existsb (fun e => str_in e (DataProcessor.get_entities item)) top)
    eqn:E.
  - apply existsb_exists in E. destruct E as (e & He & Hin).
    exists e, (named e). split.
    + rewrite Hg. apply in_or_app. left. apply in_map_iff. now exists e.
    + apply Hnamed. split; [exact Hi | apply str_in_In, Hin].
  - exists DataProcessor.outros, rest. split.
    + rewrite Hg. apply in_or_app. right. now left.
    + unfold rest. apply filter_In. split; [exact Hi |]. now rewrite E.
Qed.

Lemma group_by_topic_selects_and_clusters_witness :
  ~ In DataProcessor.outros (DataProcessor.top_entities Example.scenario)
  /\ DataProcessor.top_entities Example.scenario = ["Lula"; "Dilma"]%string
  /\ DataProcessor.group_by_topic Example.scenario
     = map (fun e =>
              (e,
               filter (fun item => str_in e (DataProcessor.get_entities item))
                 Example.scenario))
         (DataProcessor.top_entities Example.scenario)
       ++ [(DataProcessor.outros,
            filter
              (fun item =>
                 negb (existsb
                         (fun e => str_in e (DataProcessor.get_entities item))
                         (DataProcessor.top_entities Example.scenario)))
              Example.scenario)].
Proof.
  assert (H : ~ In DataProcessor.outros
                (DataProcessor.top_entities Example.scenario)).
  { vm_compute. intros [H | [H | []]]; discriminate H. }
  split; [exact H |]. split; [reflexivity |].
  exact (proj1 (proj2 (proj2 (proj2 (proj2 (proj2 (proj2 (proj2
           (group_by_topic_selects_and_clusters Example.scenario H))))))))).
Defined.

(* ================================================================== *)
(** ** Further properties of the trend extraction *)
(* ================================================================== *)

Lemma occurrences_app (l1 l2 : list string) (k : string) :
  occurrences (l1 ++ l2) k = (occurrences l1 k + occurrences l2 k)%Z.
Proof. unfold occurrences. rewrite count_occ_app. lia. Qed.

Lemma occurrences_flat_map {A : Type} (f : A -> list string) (l : list A)
    (k : string) :
  occurrences (flat_map f l) k
  = fold_right (fun x acc => (occurrences (f x) k + acc)%Z) 0%Z l.
Proof.
  induction l as [| x l IH]; [reflexivity |].
  cbn [flat_map fold_right]. now rewrite occurrences_app, IH.
Qed.

(** Every related item holds the topic at least once among its entities and
    hashtags, so the related items are not more than the occurrences. *)
Lemma related_le_occurrences (data : list Item.t) (k : string) :
  (Z.of_nat (List.length (filter (DataProcessor.is_related k) data))
   <= occurrences (flat_map DataProcessor.get_entities data) k
      + occurrences (flat_map DataProcessor.get_hashtags data) k)%Z.
Proof.
  induction data as [| item data IH]; [cbn; lia |].
  cbn [flat_map filter]. rewrite !occurrences_app.
  pose proof (occurrences_nonneg (DataProcessor.get_entities item) k).
  pose proof (occurrences_nonneg (DataProcessor.get_hashtags item) k).
  destruct (DataProcessor.is_related k item) eqn:E; [| lia].
  cbn [List.length]. unfold DataProcessor.is_related in E.
  apply orb_true_iff in E. rewrite !str_in_In in E.
  destruct E as [E | E]; apply occurrences_pos in E; lia.
Qed.

Lemma related_of_token (data : list Item.t) (k : string) :
  In k (flat_map DataProcessor.get_entities data
        ++ flat_map DataProcessor.get_hashtags data) ->
  exists item, In item data /\ DataProcessor.is_related k item = true.
Proof.
  rewrite in_app_iff, !in_flat_map.
  intros [(item & Hi & Hk) | (item & Hi & Hk)]; exists item;
    (split; [exact Hi |]); unfold DataProcessor.is_related;
    apply orb_true_iff; rewrite !str_in_In; tauto.
Qed.

Lemma NoDup_map_Some {A : Type} (l : list A) :
  NoDup l -> NoDup (map (@Some A) l).
Proof.
  induction 1 as [| x l Hx Hnd IH]; cbn [map]; constructor; [| exact IH].
  intro H. apply in_map_iff in H. destruct H as (y & E & Hy).
  injection E as ->. contradiction.
Qed.

(** X8. The trend extraction returns at most [top_n] candidates with
    pairwise distinct topics.  The topic of a candidate is an entity or
    hashtag of some item; its [related_items_count] is the number of items
    that have it among their entities or hashtags, which is at least 1 and
    at most its [count]; its sources are pairwise distinct, each the source
    of a related item (the empty string for an item without source); and it
    has no key facts yet. *)
Theorem trending_topics_counts
    (R : Runtime) (data : list Item.t) (top_n : Z) :
  let out := DataProcessor.extract_trending_topics R data top_n in
  (List.length out <= Z.to_nat top_n)%nat
  /\ NoDup (map TrendingTopic.topic out)
  /\ Forall
       (fun t =>
          exists k n srcs,
            let related := filter (DataProcessor.is_related k) data in
            TrendingTopic.topic t = Some k
            /\ TrendingTopic.count t = Some n
            /\ TrendingTopic.related_items_count t
               = Some (Z.of_nat (List.length related))
            /\ (1 <= Z.of_nat (List.length related) <= n)%Z
            /\ In k (flat_map DataProcessor.get_entities data
                     ++ flat_map DataProcessor.get_hashtags data)
            /\ TrendingTopic.sources t = Some srcs
            /\ NoDup srcs
            /\ (forall s,
                  In s srcs
                  <-> exists item,
                        In item related
                        /\ s = match Item.source item with
                               | Some src => src
                               | None => EmptyString
                               end)
            /\ TrendingTopic.key_facts t = None)
       out.
Proof.
  intro out.
  set (entities := flat_map DataProcessor.get_entities data).
  set (hashtags := flat_map DataProcessor.get_hashtags data).
  set (merged := counter_add (counter_of entities) (counter_of hashtags)).
  set (ranked := sort_desc Z.leb (@snd string Z) merged).
  set (chosen := firstn (Z.to_nat top_n) ranked).
  assert (Hm : merged = merged_tally entities hashtags)
    by apply counter_add_merged.
  assert (Hentry : forall e, In e chosen ->
             In (fst e) (entities ++ hashtags)
             /\ snd e = (occurrences entities (fst e)
                         + occurrences hashtags (fst e))%Z).
  { intros e He. apply firstn_In in He.
    apply (Permutation_in _
             (Permutation_sym (sort_desc_perm _ _ Z.leb snd _))) in He.
    rewrite Hm in He. unfold merged_tally in He.
    apply in_map_iff in He. destruct He as (k & <- & Hk).
    rewrite dedup_first_In in Hk. cbn [fst snd]. now split. }
  assert (Hkeys : NoDup (map fst chosen)).
  { apply (Subseq_NoDup _ (map fst ranked));
      [apply Subseq_map, firstn_Subseq |].
    eapply Permutation_NoDup;
      [apply Permutation_map, sort_desc_perm |].
    rewrite Hm. unfold merged_tally. rewrite map_map. cbn [fst].
    rewrite map_id. apply dedup_first_NoDup. }
  unfold out, DataProcessor.extract_trending_topics. cbv zeta.
  fold entities hashtags merged. unfold most_common.
  fold ranked. fold chosen.
  split; [rewrite length_map; apply firstn_le_length |].
  split.
  { rewrite map_map. cbn [TrendingTopic.topic].
    rewrite <- (map_map fst (@Some string)). apply NoDup_map_Some, Hkeys. }
  apply Forall_map, Forall_forall. intros e He.
  destruct (Hentry e He) as [Hk Hn].
  exists (fst e), (snd e). eexists. cbv zeta.
  cbn [TrendingTopic.topic TrendingTopic.count
       TrendingTopic.related_items_count TrendingTopic.sources
       TrendingTopic.key_facts].
  split; [reflexivity |]. split; [reflexivity |]. split; [reflexivity |].
  split.
  { split.
    - destruct (related_of_token data (fst e) Hk) as (item & Hi & Hr).
      assert (Hin : In item (filter (DataProcessor.is_related (fst e)) data))
        by (apply filter_In; now split).
      destruct (filter (DataProcessor.is_related (fst e)) data);
        [destruct Hin | cbn [List.length]; lia].
    - rewrite Hn. apply related_le_occurrences. }
  split; [exact Hk |]. split; [reflexivity |].
  split; [apply set_iter_NoDup |]. split; [| reflexivity].
  intro s. rewrite set_iter_In, in_map_iff. split.
  - intros (item & <- & Hi). now exists item.
  - intros (item & Hi & ->). now exists item.
Qed.

(** Every ranked topic has a related item. *)
Lemma trending_related_nonempty
    (R : Runtime) (data : list Item.t) (top_n : Z) :
  Forall
    (fun e : string * Z =>
       filter (DataProcessor.is_related (fst e)) data <> [])
    (most_common top_n
       (counter_add
          (counter_of (flat_map DataProcessor.get_entities data))
          (counter_of (flat_map DataProcessor.get_hashtags data)))).
Proof.
  apply Forall_forall. intros e He. unfold most_common in He.
  apply firstn_In in He.
  apply (Permutation_in _
           (Permutation_sym (sort_desc_perm _ _ Z.leb snd _))) in He.
  rewrite counter_add_merged in He. unfold merged_tally in He.
  apply in_map_iff in He. destruct He as (k & <- & Hk).
  rewrite dedup_first_In in Hk. cbn [fst].
  destruct (related_of_token data k Hk) as (item & Hi & Hr).
  intro E.
  assert (Hin : In item (filter (DataProcessor.is_related k) data))
    by (apply filter_In; now split).
  rewrite E in Hin. exact Hin.
Qed.

(* ================================================================== *)
(** ** Further properties of the consolidation *)
(* ================================================================== *)





(* ================================================================== *)
(** ** Further properties of the insight generator *)
(* ================================================================== *)

Lemma sumZ_counter_incr (c : Counter) (k : string) :
  sumZ (map snd (counter_incr c k)) = (sumZ (map snd c) + 1)%Z.
Proof.
  induction c as [| [k' n] c IH]; cbn [counter_incr]; [reflexivity |].
  destruct (String.eqb k k'); cbn [map snd sumZ fold_right] in *.
  - fold (sumZ (map snd c)). lia.
  - fold (sumZ (map snd (counter_incr c k))). fold (sumZ (map snd c)).
    rewrite IH. lia.
Qed.

Lemma sumZ_counter_fold (l : list string) (c : Counter) :
  sumZ (map snd (fold_left counter_incr l c))
  = (sumZ (map snd c) + Z.of_nat (List.length l))%Z.
Proof.
  revert c. induction l as [| x l IH]; intro c; cbn [fold_left List.length].
  - lia.
  - rewrite IH, sumZ_counter_incr. lia.
Qed.

(** X11. The source distribution has one entry for each source that occurs
    among the items of the clusters, in first-seen order; the count of a
    source is the number of these items that have it, at least 1, and the
    counts add up to the number of items.  Each percentage is the quotient
    of the count by that number, rounded to a float, times 100 in binary64
    arithmetic; three sources with one item each get 33.33333333333333
    each.  An item without source counts under "Desconhecido". *)
Theorem source_distribution_totals (data : Consolidated.t) :
  let sources := item_sources data in
  let total := Z.of_nat (List.length (InsightGenerator.all_items data)) in
  let dist := InsightGenerator.generate_source_distribution data in
  dict_keys dist = dedup_first sources
  /\ Forall
       (fun e =>
          SourceShare.count (snd e) = occurrences sources (fst e)
          /\ (1 <= SourceShare.count (snd e) <= total)%Z
          /\ SourceShare.percentage (snd e)
             = fmul
                 (float_of_Q
                    (Qmake (SourceShare.count (snd e)) (Z.to_pos total)))
                 (float_of_Z 100))
       dist
  /\ sumZ (map (fun e => SourceShare.count (snd e)) dist) = total
  /\ (InsightGenerator.all_items data = [] -> dist = [])
  /\ map (fun e => (fst e, SourceShare.percentage (snd e)))
       (InsightGenerator.generate_source_distribution
          (Consolidated.mk 3 3
             [("outros",
               [Example.entity_item "G1" []; Example.entity_item "Twitter" [];
                Example.entity_item "Instagram" []])]%string
             [] EmptyString))
     = [("G1", S754_finite false 4691249611844266 (-47));
        ("Twitter", S754_finite false 4691249611844266 (-47));
        ("Instagram", S754_finite false 4691249611844266 (-47))]%string.
Proof.
  intros sources total dist.
  set (items := InsightGenerator.all_items data) in *.
  assert (Hc : fold_left counter_incr sources [] = tally sources)
    by apply counter_of_tally.
  assert (Hd : dist
               = map (fun sc =>
                        (fst sc,
                         SourceShare.mk (snd sc)
                           (if (0 <? total)%Z
                            then fmul
                                   (float_of_Q
                                      (Qmake (snd sc) (Z.to_pos total)))
                                   (float_of_Z 100)
                            else float_of_Z 0)))
                   (tally sources)).
  { unfold dist, InsightGenerator.generate_source_distribution. cbv zeta.
    fold items. fold total. unfold sources, item_sources in Hc.
    fold items in Hc. rewrite Hc. reflexivity. }
  assert (Hsum : sumZ (map snd (tally sources)) = total).
  { rewrite <- Hc, sumZ_counter_fold. cbn [map sumZ fold_right].
    unfold sources, item_sources. rewrite length_map. reflexivity. }
  assert (Hocc : forall k, (occurrences sources k <= total)%Z).
  { intro k. unfold occurrences, total, sources, item_sources.
    pose proof (count_occ_bound string_dec k
                  (map InsightGenerator.get_source items)) as H.
    rewrite length_map in H. fold items. lia. }
  split.
  { rewrite Hd. unfold dict_keys. rewrite map_map. cbn [fst].
    exact (tally_keys sources). }
  split.
  { rewrite Hd. apply Forall_map, Forall_forall. intros e He.
    unfold tally in He. apply in_map_iff in He.
    destruct He as (k & <- & Hk). rewrite dedup_first_In in Hk.
    cbn [fst snd SourceShare.count SourceShare.percentage].
    pose proof (occurrences_pos _ _ Hk) as Hpos.
    pose proof (Hocc k) as Hle.
    replace (0 <? total)%Z with true by (symmetry; apply Z.ltb_lt; lia).
    split; [reflexivity |]. split; [lia | reflexivity]. }
  split.
  { rewrite Hd, map_map. cbn [snd SourceShare.count]. exact Hsum. }
  split; [| vm_compute; reflexivity].
  intro He. rewrite Hd. unfold sources, item_sources. fold items.
  rewrite He. reflexivity.
Qed.

Section RowCounts.
Import InsightGenerator.
Variable cfg : Config.

Lemma row_counts_mem (rows : dict SourceMetrics.t) (k : string) :
  dict_mem (row_counts rows) k = dict_mem rows k.
Proof using Type.
  rewrite !dict_mem_keys. f_equal. unfold row_counts, dict_keys.
  rewrite map_map. reflexivity.
Qed.

Lemma counter_incr_absent (c : Counter) (k : string) :
  dict_mem c k = false -> counter_incr c k = c ++ [(k, 1%Z)].
Proof using Type.
  unfold dict_mem. induction c as [| [k' n] c IH]; [reflexivity |].
  cbn [dict_get counter_incr app]. destruct (String.eqb k k');
    [discriminate |].
  intro H. now rewrite (IH H).
Qed.

Lemma row_counts_update (rows : dict SourceMetrics.t) (k : string)
    (f : SourceMetrics.t -> SourceMetrics.t) :
  (forall m, SourceMetrics.total_items (f m)
             = (SourceMetrics.total_items m + 1)%Z) ->
  dict_mem rows k = true ->
  row_counts (dict_update rows k f) = counter_incr (row_counts rows) k.
Proof using Type.
  intro Hf. unfold dict_mem.
  induction rows as [| [k' m] rows IH]; [discriminate |].
  cbn [dict_get dict_update row_counts map counter_incr fst snd].
  destruct (String.eqb k k'); intro H.
  - cbn [map fst snd]. now rewrite Hf.
  - cbn [map fst snd]. f_equal. exact (IH H).
Qed.

(** One turn of the metrics loop counts one more item for its source. *)
Lemma row_counts_count_item (rows : dict SourceMetrics.t) (item : Item.t) :
  row_counts (count_item cfg rows item)
  = counter_incr (row_counts rows) (get_source item).
Proof using Type.
  unfold count_item. cbv zeta.
  destruct (dict_mem rows (get_source item)) eqn:E; cbn [negb].
  - apply row_counts_update; [reflexivity | exact E].
  - rewrite (dict_set_absent _ _ _ E), (dict_update_last _ _ _ _ E).
    rewrite counter_incr_absent by (now rewrite row_counts_mem).
    unfold row_counts. rewrite map_app. reflexivity.
Qed.

Lemma row_counts_fold (items : list Item.t) (rows : dict SourceMetrics.t) :
  row_counts (fold_left (count_item cfg) items rows)
  = fold_left counter_incr (map get_source items) (row_counts rows).
Proof using Type.
  revert rows. induction items as [| item items IH]; intro rows;
    [reflexivity |].
  cbn [fold_left map]. now rewrite IH, row_counts_count_item.
Qed.



End RowCounts.

(** X12. The engagement metrics and the source distribution agree: they
    have the same sources in the same order, and the [total_items] of a
    source in the metrics is its [count] in the distribution, the number of
    items of that source; so the [total_items] add up to the number of
    items. *)
Theorem engagement_metrics_match_distribution
    (cfg : InsightGenerator.Config) (data : Consolidated.t) :
  let metrics := InsightGenerator.generate_engagement_metrics cfg data in
  let dist := InsightGenerator.generate_source_distribution data in
  row_counts metrics
  = map (fun e => (fst e, SourceShare.count (snd e))) dist
  /\ row_counts metrics = tally (item_sources data)
  /\ dict_keys metrics = dict_keys dist
  /\ sumZ (map (fun e => SourceMetrics.total_items (snd e)) metrics)
     = Z.of_nat (List.length (InsightGenerator.all_items data)).
Proof.
  intros metrics dist.
  assert (Hm : row_counts metrics = tally (item_sources data)).
  { unfold metrics, InsightGenerator.generate_engagement_metrics, row_counts.
    rewrite map_map. cbn [fst snd].
    rewrite (map_ext _ (fun e : string * SourceMetrics.t =>
                          (fst e, SourceMetrics.total_items (snd e)))).
    - fold (row_counts (InsightGenerator.engagement_by_source cfg data)).
      unfold InsightGenerator.engagement_by_source.
      rewrite row_counts_fold. apply counter_of_tally.
    - intro e. f_equal. unfold InsightGenerator.finish_row.
      destruct (0 <? _)%Z; reflexivity. }
  assert (Hd : map (fun e => (fst e, SourceShare.count (snd e))) dist
               = tally (item_sources data)).
  { unfold dist, InsightGenerator.generate_source_distribution. cbv zeta.
    rewrite map_map. cbn [fst snd SourceShare.count].
    rewrite (map_ext _ (fun sc : string * Z => sc))
      by (intros [k n]; reflexivity).
    rewrite map_id. apply counter_of_tally. }
  split; [now rewrite Hm, Hd |]. split; [exact Hm |].
  split.
  { transitivity (dict_keys (row_counts metrics)).
    - unfold row_counts, dict_keys. now rewrite map_map.
    - rewrite Hm, <- Hd. unfold dict_keys. now rewrite map_map. }
  transitivity (sumZ (map snd (row_counts metrics))).
  { unfold row_counts. now rewrite map_map. }
  rewrite Hm, <- counter_of_tally. unfold counter_of.
  rewrite sumZ_counter_fold. cbn [map sumZ fold_right].
  unfold item_sources. now rewrite length_map.
Qed.




Section RowTotals.
Import InsightGenerator.
Variable cfg : Config.




End RowTotals.


Lemma Permutation_filter {A : Type} (f : A -> bool) (l l' : list A) :
  Permutation l l' -> Permutation (filter f l) (filter f l').
Proof.
  induction 1 as [| x l l' _ IH | x y l | l l' l'' _ IH1 _ IH2];
    cbn [filter].
  - constructor.
  - destruct (f x); [apply perm_skip |]; exact IH.
  - destruct (f x), (f y); try apply Permutation_refl. apply perm_swap.
  - eapply perm_trans; eassumption.
Qed.

Lemma filter_two_le {A : Type} (f g h : A -> bool) (l : list A) :
  (forall x, f x = true -> g x = false /\ h x = true) ->
  (forall x, g x = true -> h x = true) ->
  (List.length (filter f l) + List.length (filter g l)
   <= List.length (filter h l))%nat.
Proof.
  intros Hf Hg. induction l as [| x l IH]; cbn [filter]; [cbn; lia |].
  destruct (f x) eqn:Ef.
  - destruct (Hf x Ef) as [-> ->]. cbn [List.length]. lia.
  - destruct (g x) eqn:Eg.
    + rewrite (Hg x Eg). cbn [List.length]. lia.
    + destruct (h x); cbn [List.length]; lia.
Qed.

Section StatusFacts.
Import InsightGenerator.
Variable cfg : Config.

Lemma high_band_status (t : TrendingTopic.t) :
  in_high_band cfg t = String.eqb (status_of cfg (score t)) Alta.
Proof using Type.
  unfold in_high_band, status_of.
  destruct (flt (trending_threshold cfg) (score t)); [reflexivity |].
  destruct (flt (half_threshold cfg) (score t)); reflexivity.
Qed.

Lemma not_baixa_status (t : TrendingTopic.t) :
  negb (String.eqb (status_of cfg (score t)) Baixa)
  = in_high_band cfg t || flt (half_threshold cfg) (score t).
Proof using Type.
  unfold in_high_band, status_of.
  destruct (flt (trending_threshold cfg) (score t)); [reflexivity |].
  destruct (flt (half_threshold cfg) (score t)); reflexivity.
Qed.

Lemma medium_band_status (t : TrendingTopic.t) :
  in_medium_band cfg t = true -> status_of cfg (score t) = Media.
Proof using Type.
  unfold in_medium_band. intro H.
  apply andb_true_iff in H. apply status_media. exact H.
Qed.

Lemma recommendations_split (data : Consolidated.t) :
  generate_content_recommendations cfg data
  = map high_recommendation
      (filter (in_high_band cfg) (Consolidated.trending_topics data))
    ++ map medium_recommendation
         (filter
            (fun t => in_medium_band cfg t
                      && (2 <=? List.length (get_key_facts t))%nat)
            (Consolidated.trending_topics data)).
Proof using Type.
  unfold generate_content_recommendations. cbv zeta.
  now rewrite filter_andb.
Qed.

End StatusFacts.

(** X14. The recommendations follow the topic insights: there are as many
    insights as trending topics; the recommendations are at least as many as
    the insights of status "Alta" and at most as many as the insights that
    are not of status "Baixa"; every recommendation has the topic and key
    facts of an insight that is not "Baixa", comes with three key facts or
    more from an insight of status "Alta" when its priority is "Alta", and
    has two key facts or more when the insight is "Média"; and every insight
    of status "Alta" has a recommendation. *)
Theorem recommendations_follow_insights
    (cfg : InsightGenerator.Config) (R : Runtime) (data : Consolidated.t) :
  let insights := InsightGenerator.generate_topic_insights cfg R data in
  let recs := InsightGenerator.generate_content_recommendations cfg data in
  let alta :=
    filter (fun i => String.eqb (Insight.trend_status i) Alta) insights in
  let not_baixa :=
    filter (fun i => negb (String.eqb (Insight.trend_status i) Baixa))
      insights in
  List.length insights = List.length (Consolidated.trending_topics data)
  /\ (List.length alta <= List.length recs)%nat
  /\ (List.length recs <= List.length not_baixa)%nat
  /\ (forall r, In r recs ->
        exists i,
          In i insights
          /\ Insight.topic i = Recommendation.topic r
          /\ Insight.key_facts i = Recommendation.key_facts r
          /\ Insight.trend_status i <> Baixa
          /\ (Recommendation.priority r = Alta ->
              Insight.trend_status i = Alta
              /\ (3 <= List.length (Recommendation.key_facts r))%nat)
          /\ (Insight.trend_status i = Media ->
              (2 <= List.length (Recommendation.key_facts r))%nat))
  /\ (forall i, In i insights -> Insight.trend_status i = Alta ->
        exists r,
          In r recs
          /\ Recommendation.topic r = Insight.topic i
          /\ Recommendation.key_facts r = Insight.key_facts i).
Proof.
  intros insights recs alta not_baixa.
  set (topics := Consolidated.trending_topics data).
  assert (Hperm : Permutation (map (InsightGenerator.insight_of cfg R) topics)
                    insights) by apply sort_desc_perm.
  assert (Hrecs := recommendations_split cfg data). fold recs topics in Hrecs.
  assert (Hcount : forall f : string -> bool,
            List.length (filter (fun i => f (Insight.trend_status i)) insights)
            = List.length
                (filter (fun t => f (InsightGenerator.status_of cfg
                                       (InsightGenerator.score t))) topics)).
  { intro f.
    rewrite <- (Permutation_length
                  (Permutation_filter
                     (fun i => f (Insight.trend_status i)) _ _ Hperm)).
    rewrite filter_map_swap, length_map. reflexivity. }
  assert (Hins : forall t, In t topics ->
            In (InsightGenerator.insight_of cfg R t) insights)
    by (intros t Ht; apply (Permutation_in _ Hperm), in_map, Ht).
  split.
  { rewrite <- (Permutation_length Hperm). apply length_map. }
  split.
  { unfold alta. rewrite (Hcount (fun s => String.eqb s Alta)).
    rewrite Hrecs, length_app, !length_map.
    rewrite (filter_ext _ (InsightGenerator.in_high_band cfg))
      by (intro t; symmetry; apply high_band_status).
    lia. }
  split.
  { unfold not_baixa. rewrite (Hcount (fun s => negb (String.eqb s Baixa))).
    rewrite Hrecs, length_app, !length_map.
    apply filter_two_le.
    - intros t Ht. split.
      + pose proof (bands_disjoint cfg t) as Hd. rewrite Ht in Hd.
        cbn [andb] in Hd. now rewrite Hd.
      + rewrite not_baixa_status, Ht. reflexivity.
    - intros t Ht. apply andb_true_iff in Ht. destruct Ht as [Ht _].
      rewrite not_baixa_status.
      unfold InsightGenerator.in_medium_band in Ht.
      apply andb_true_iff in Ht. destruct Ht as [Ht _].
      rewrite Ht. apply orb_true_r. }
  split.
  { intros r Hr. rewrite Hrecs in Hr. apply in_app_iff in Hr.
    destruct Hr as [Hr | Hr]; apply in_map_iff in Hr;
      destruct Hr as (t & <- & Ht); apply filter_In in Ht;
      destruct Ht as [Ht Hb];
      exists (InsightGenerator.insight_of cfg R t);
      (split; [exact (Hins t Ht) |]);
      cbn [InsightGenerator.insight_of Insight.topic Insight.key_facts
           Insight.trend_status InsightGenerator.high_recommendation
           InsightGenerator.medium_recommendation Recommendation.topic
           Recommendation.key_facts Recommendation.priority];
      (split; [reflexivity |]); (split; [reflexivity |]).
    - rewrite high_band_status in Hb. apply String.eqb_eq in Hb.
      rewrite Hb. split; [discriminate |]. split; [| discriminate].
      intro Hp. split; [reflexivity |].
      destruct (3 <=? _)%nat eqn:E; [now apply Nat.leb_le | discriminate Hp].
    - apply andb_true_iff in Hb. destruct Hb as [Hb Hf].
      rewrite (medium_band_status cfg t Hb).
      split; [discriminate |]. split; [discriminate |].
      intros _. now apply Nat.leb_le. }
  intros i Hi Hs.
  apply (Permutation_in _ (Permutation_sym Hperm)) in Hi.
  apply in_map_iff in Hi. destruct Hi as (t & <- & Ht).
  cbn [InsightGenerator.insight_of Insight.trend_status] in Hs.
  exists (InsightGenerator.high_recommendation t).
  split; [| split; reflexivity].
  rewrite Hrecs. apply in_or_app. left. apply in_map, filter_In.
  split; [exact Ht |]. rewrite high_band_status, Hs. reflexivity.
Qed.

(* ================================================================== *)
(** ** The validator of the generated articles *)
(* ================================================================== *)

Section ValidatorFacts.
Import Validator.

Lemma split_paragraphs_length (n : nat) :
  forall (s cur : string), (String.length s <= n)%nat ->
    (1 <= List.length (split_paragraphs cur s))%nat.
Proof using Type.
  induction n as [| n IH]; intros s cur Hn.
  - destruct s; [cbn; lia | cbn in Hn; lia].
  - destruct s as [| c s']; [cbn; lia |].
    cbn [split_paragraphs]. destruct s' as [| c' s'']; [cbn; lia |].
    cbn [String.length] in Hn.
    destruct (Ascii.eqb c newline && Ascii.eqb c' newline).
    + cbn [List.length]. lia.
    + apply IH. cbn [String.length]. lia.
Qed.

Lemma missing_fields_nil (a : dict json) :
  filter (fun field => negb (dict_mem a field)) required_fields = []
  <-> forall field, In field required_fields -> dict_mem a field = true.
Proof using Type.
  split.
  - intros H field Hin.
    destruct (dict_mem a field) eqn:E; [reflexivity |].
    assert (Hf : In field
                   (filter (fun field => negb (dict_mem a field))
                      required_fields))
      by (apply filter_In; split; [exact Hin | now rewrite E]).
    rewrite H in Hf. destruct Hf.
  - intro H. destruct (filter _ required_fields) as [| f l] eqn:E;
      [reflexivity |].
    assert (Hf : In f (f :: l)) by now left.
    rewrite <- E in Hf. apply filter_In in Hf. destruct Hf as [Hin Hf].
    rewrite (H f Hin) in Hf. discriminate Hf.
Qed.

Lemma get_present (a : dict json) (k : string) (d : json) :
  dict_mem a k = true -> exists v, dict_get a k = Some v /\ get a k d = v.
Proof using Type.
  unfold dict_mem, get. destruct (dict_get a k) as [v |]; [| discriminate].
  intros _. now exists v.
Qed.

End ValidatorFacts.

Section ArticleFormat.
Import Validator.
Variable R : Runtime.
Variable a : dict json.

Lemma validate_missing (f : string) (l : list string) :
  filter (fun field => negb (dict_mem a field)) required_fields = f :: l ->
  exists msg, validate_article_format R a = Done (invalid msg a).
Proof using Type.
  intro H. unfold validate_article_format. cbv zeta. rewrite H.
  eexists. reflexivity.
Qed.

(** The validation once the required keys are there, [v] being the body. *)
Lemma validate_present (v : json) :
  (forall field, In field required_fields -> dict_mem a field = true) ->
  dict_get a "materia" = Some v ->
  validate_article_format R a
  = if negb (truthy v)
    then Done (invalid "Conteúdo da matéria está vazio" a)
    else
      match v with
      | JStr s =>
          let word_count := Z.of_nat (List.length (str_split R s)) in
          if (word_count <? 500)%Z
          then Done (invalid ("Matéria tem apenas " ++ fmt_int R word_count
                                ++ " palavras (mínimo: 500)")%string a)
          else
            let paragraphs := split_paragraphs EmptyString s in
            if (5 <? List.length paragraphs)%nat
            then Done (invalid ("Matéria tem "
                                  ++ fmt_int R
                                       (Z.of_nat (List.length paragraphs))
                                  ++ " parágrafos (máximo: 5)")%string a)
            else if has_char double_quote s || has_char single_quote s
            then Done (invalid "Matéria contém aspas" a)
            else
              match get a "keywords" (JArr []) with
              | JArr (_ :: _) =>
                  Done (mkArticleResult true "Matéria válida" a
                          (Some word_count)
                          (Some (Z.of_nat (List.length paragraphs))))
              | _ =>
                  Done (invalid "Keywords ausentes ou em formato inválido" a)
              end
      | other => Thrown (AttributeError other)
      end.
Proof using Type.
  intros Hall Hm. unfold validate_article_format. cbv zeta.
  rewrite (proj2 (missing_fields_nil a) Hall).
  assert (Hg : get a "materia" (JStr EmptyString) = v)
    by (unfold get; now rewrite Hm).
  rewrite Hg. reflexivity.
Qed.

End ArticleFormat.

Section ArticleOutcome.
Import Validator.
Variable R : Runtime.
Variable a : dict json.

(** What each outcome of the validation says about the article. *)
Lemma validate_outcome :
  match validate_article_format R a with
  | Done r =>
      article r = a
      /\ (forall v, ~ ill_typed a v)
      /\ if valid r
         then well_formed R a
              /\ exists n k,
                   word_count r = Some n /\ paragraph_count r = Some k
                   /\ (500 <= n)%Z /\ (1 <= k <= 5)%Z
         else ~ well_formed R a
              /\ word_count r = None /\ paragraph_count r = None
  | Thrown e =>
      ~ well_formed R a /\ exists v, e = AttributeError v /\ ill_typed a v
  end.
Proof using Type.
  destruct (filter (fun field => negb (dict_mem a field)) required_fields)
    as [| f l] eqn:Emiss.
  2:{ assert (Hnot : ~ (forall field, In field required_fields ->
                          dict_mem a field = true)).
      { intro H. apply (proj2 (missing_fields_nil a)) in H. congruence. }
      destruct (validate_missing R a f l Emiss) as (msg & ->).
      cbn [article valid invalid word_count paragraph_count].
      split; [reflexivity |].
      split; [intros v (H & _); exact (Hnot H) |].
      split; [intros (H & _); exact (Hnot H) | now split]. }
  pose proof (proj1 (missing_fields_nil a) Emiss) as Hall.
  clear Emiss. rename Hall into Emiss.
  destruct (get_present a "materia" (JStr EmptyString)) as (v & Hm & _).
  { apply Emiss. cbn. tauto. }
  rewrite (validate_present R a v Emiss Hm).
  assert (Hwf : well_formed R a ->
                exists s k ks,
                  v = JStr s /\ s <> EmptyString
                  /\ (500 <= List.length (str_split R s))%nat
                  /\ (List.length (split_paragraphs EmptyString s) <= 5)%nat
                  /\ has_char double_quote s = false
                  /\ has_char single_quote s = false
                  /\ dict_get a "keywords" = Some (JArr (k :: ks))).
  { intros (_ & s & k & ks & H1 & H2).
    exists s, k, ks. split; [congruence | exact H2]. }
  assert (Hill : forall v', ill_typed a v' ->
                   truthy v = true /\ forall s, v <> JStr s).
  { intros v' (_ & H1 & H2 & H3).
    assert (v' = v) by congruence. subst v'. now split. }
  assert (Hfalsy : truthy v = false ->
            (forall v', ~ ill_typed a v') /\ ~ well_formed R a).
  { intro Hf. split.
    - intros v' Hi. destruct (Hill v' Hi) as [Ht _]. congruence.
    - intro Hw. destruct (Hwf Hw) as (s & k & ks & -> & Hs & _).
      destruct s; [now apply Hs | discriminate Hf]. }
  destruct (truthy v) eqn:Et; cbn [negb].
  2:{ cbn [article valid invalid word_count paragraph_count].
      destruct (Hfalsy eq_refl) as [H1 H2].
      split; [reflexivity |]. split; [exact H1 |]. now split. }
  clear Hfalsy.
  assert (Hthrow : (forall s, v <> JStr s) ->
            ~ well_formed R a
            /\ exists v', AttributeError v = AttributeError v'
                          /\ ill_typed a v').
  { intro Hns. split.
    - intro Hw. destruct (Hwf Hw) as (s & _ & _ & E & _).
      exact (Hns s E).
    - exists v. split; [reflexivity |].
      split; [exact Emiss |]. now split. }
  destruct v as [| b | q | x | s | l | o];
    try (apply Hthrow; intros s; discriminate).
  clear Hthrow.
  assert (Hni : forall v', ~ ill_typed a v').
  { intros v' Hi. destruct (Hill v' Hi) as [_ H]. now apply (H s). }
  cbv zeta.
  destruct (Z.of_nat (List.length (str_split R s)) <? 500)%Z eqn:Ew.
  { cbn [article valid invalid word_count paragraph_count].
    split; [reflexivity |]. split; [exact Hni |].
    split; [| now split].
    intro Hw. destruct (Hwf Hw) as (s' & _ & _ & E & _ & Hlen & _).
    injection E as <-. apply Z.ltb_lt in Ew. lia. }
  destruct (5 <? List.length (split_paragraphs EmptyString s))%nat eqn:Ep.
  { cbn [article valid invalid word_count paragraph_count].
    split; [reflexivity |]. split; [exact Hni |].
    split; [| now split].
    intro Hw. destruct (Hwf Hw) as (s' & _ & _ & E & _ & _ & Hlen & _).
    injection E as <-. apply Nat.ltb_lt in Ep. lia. }
  destruct (has_char double_quote s || has_char single_quote s) eqn:Eq.
  { cbn [article valid invalid word_count paragraph_count].
    split; [reflexivity |]. split; [exact Hni |].
    split; [| now split].
    intro Hw.
    destruct (Hwf Hw) as (s' & _ & _ & E & _ & _ & _ & Hd & Hs & _).
    injection E as <-. rewrite Hd, Hs in Eq. discriminate Eq. }
  assert (Hkw : forall kv, get a "keywords" (JArr []) = kv ->
            (forall k ks, kv <> JArr (k :: ks)) -> ~ well_formed R a).
  { intros kv Hg Hne Hw.
    destruct (Hwf Hw) as (_ & k & ks & _ & _ & _ & _ & _ & _ & Hk).
    unfold get in Hg. rewrite Hk in Hg. exact (Hne k ks (eq_sym Hg)). }
  destruct (get a "keywords" (JArr [])) as [| b | q | x | s' | [| k ks] | o]
    eqn:Ek;
    try (cbn [article valid invalid word_count paragraph_count];
         split; [reflexivity |]; split; [exact Hni |];
         split; [apply (Hkw _ eq_refl); intros; discriminate | now split]).
  cbn [article valid word_count paragraph_count].
  split; [reflexivity |]. split; [exact Hni |].
  apply Z.ltb_ge in Ew. apply Nat.ltb_ge in Ep.
  apply orb_false_iff in Eq. destruct Eq as [Ed Es].
  split.
  - split; [exact Emiss |]. exists s, k, ks.
    split; [exact Hm |].
    split; [intros ->; discriminate Et |].
    split; [lia |]. split; [exact Ep |].
    split; [exact Ed |]. split; [exact Es |].
    unfold get in Ek.
    destruct (dict_get a "keywords") as [kv |] eqn:E; [now subst |].
    discriminate Ek.
  - do 2 eexists. split; [reflexivity |]. split; [reflexivity |].
    split; [exact Ew |].
    pose proof (split_paragraphs_length (String.length s) s EmptyString
                  (Nat.le_refl _)).
    lia.
Qed.

End ArticleOutcome.

(** X15. The validation of an article returns a valid result exactly when
    the article has the five required keys, a body that is a non-empty
    string of 500 words or more and five paragraphs or fewer without
    quotation marks, and a non-empty list of keywords.  It raises exactly
    when the keys are there and the body is a value other than a string
    that counts as true.  A result always carries the article it was given;
    a valid one carries a word count of 500 or more and a paragraph count
    from 1 to 5, an invalid one carries neither. *)
Theorem validate_article_format_spec (R : Runtime) (a : dict json) :
  ((exists r, Validator.validate_article_format R a = Validator.Done r
              /\ Validator.valid r = true)
   <-> well_formed R a)
  /\ (forall e,
        Validator.validate_article_format R a = Validator.Thrown e
        <-> exists v, e = Validator.AttributeError v /\ ill_typed a v)
  /\ (forall r,
        Validator.validate_article_format R a = Validator.Done r ->
        Validator.article r = a
        /\ (Validator.valid r = true ->
            exists n k,
              Validator.word_count r = Some n
              /\ Validator.paragraph_count r = Some k
              /\ (500 <= n)%Z /\ (1 <= k <= 5)%Z)
        /\ (Validator.valid r = false ->
            Validator.word_count r = None
            /\ Validator.paragraph_count r = None)).
Proof.
  pose proof (validate_outcome R a) as H.
  destruct (Validator.validate_article_format R a) as [r | e].
  - destruct H as (Ha & Hni & Hv).
    split; [| split].
    + split.
      * intros (r' & E & Hr). injection E as <-. rewrite Hr in Hv. tauto.
      * intro Hw. exists r. split; [reflexivity |].
        destruct (Validator.valid r); [reflexivity |]. tauto.
    + intro e. split; [discriminate |].
      intros (v & _ & Hi). exfalso. exact (Hni v Hi).
    + intros r' E. injection E as <-. split; [exact Ha |].
      destruct (Validator.valid r); split; try discriminate; tauto.
  - destruct H as (Hnw & v & -> & Hi).
    split; [| split].
    + split; [intros (r & E & _); discriminate E | tauto].
    + intro e. split.
      * intro E. injection E as <-. now exists v.
      * intros (v' & -> & Hi'). f_equal. f_equal.
        destruct Hi as (_ & H1 & _), Hi' as (_ & H2 & _). congruence.
    + intros r E. discriminate E.
Qed.

Section ArticlesFile.
Import Validator.
Variable R : Runtime.




End ArticlesFile.


(* ================================================================== *)
(** ** The text processor *)
(* ================================================================== *)

Lemma filter_nil_iff {A : Type} (f : A -> bool) (l : list A) :
  filter f l = [] <-> forall x, In x l -> f x = false.
Proof.
  split.
  - intros H x Hx. destruct (f x) eqn:E; [| reflexivity].
    assert (Hin : In x (filter f l)) by (apply filter_In; now split).
    rewrite H in Hin. destruct Hin.
  - intro H. destruct (filter f l) as [| y l'] eqn:E; [reflexivity |].
    assert (Hy : In y (filter f l)) by (rewrite E; now left).
    apply filter_In in Hy. destruct Hy as [Hy Hf].
    rewrite (H y Hy) in Hf. discriminate Hf.
Qed.

(** X17. The relevance score of a text is between 0 and 1.  It is 0 exactly
    when the text is empty, or there is no keyword, or no token of the
    processed text is among the processed keywords. *)
Theorem relevance_score_range
    (self : TextProcessor.t) (R : Runtime) (T : TextRuntime)
    (text : string) (keywords : list string) :
  let score :=
    TextProcessor.calculate_relevance_score self R T text keywords in
  let tokens := TextProcessor.preprocess_text self R T text in
  let processed_keywords :=
    flat_map (TextProcessor.preprocess_text self R T) keywords in
  0 <= score
  /\ score <= 1
  /\ (score == 0
      <-> text = EmptyString \/ keywords = []
          \/ forall token, In token tokens -> ~ In token processed_keywords).
Proof.
  intros score tokens processed_keywords.
  unfold score, TextProcessor.calculate_relevance_score.
  destruct text as [| c text'].
  { split; [lra |]. split; [lra |]. split; [now left | reflexivity]. }
  destruct keywords as [| kw keywords'].
  { split; [lra |]. split; [lra |]. split; [now right; left | reflexivity]. }
  cbv zeta. fold tokens. fold processed_keywords.
  set (hits := filter (fun token => str_in token processed_keywords) tokens).
  assert (Hhits : hits = []
                  <-> forall token, In token tokens ->
                        ~ In token processed_keywords).
  { unfold hits. rewrite filter_nil_iff. split; intros H token Ht.
    - apply str_in_false. now apply H.
    - apply str_in_false. now apply H. }
  destruct tokens as [| t0 tokens'] eqn:Et.
  { split; [lra |]. split; [lra |].
    split; [| reflexivity]. intros _. right. right. intros token []. }
  set (n := inject_Z (Z.of_nat (List.length (t0 :: tokens')))).
  set (k := inject_Z (Z.of_nat (List.length hits))).
  assert (Hn : 0 < n * (1 # 10)).
  { assert (0 < n); [| lra].
    unfold n. change 0 with (inject_Z 0). rewrite <- Zlt_Qlt.
    cbn [List.length]. lia. }
  assert (Hk : 0 <= k).
  { unfold k. change 0 with (inject_Z 0). rewrite <- Zle_Qle. lia. }
  assert (Hratio : 0 <= k / (n * (1 # 10)))
    by (apply Qle_shift_div_l; [exact Hn | lra]).
  assert (Hzero : k / (n * (1 # 10)) == 0 <-> hits = []).
  { split.
    - intro Hz. destruct hits as [| h hits']; [reflexivity |]. exfalso.
      assert (Hpos : 0 < k).
      { unfold k. change 0 with (inject_Z 0). rewrite <- Zlt_Qlt.
        cbn [List.length]. lia. }
      assert (0 < k / (n * (1 # 10)))
        by (apply Qlt_shift_div_l; [exact Hn | lra]).
      lra.
    - intro Hh. unfold k. rewrite Hh. cbn [List.length].
      change (inject_Z (Z.of_nat 0)) with 0. unfold Qdiv. ring. }
  destruct (Qle_bool 1 (k / (n * (1 # 10)))) eqn:E.
  - apply Qle_bool_iff in E.
    split; [lra |]. split; [lra |]. split.
    + intro H. exfalso. lra.
    + intros [H | [H | H]]; try discriminate H.
      apply Hhits, Hzero in H. lra.
  - assert (Hlt : k / (n * (1 # 10)) < 1).
    { apply Qnot_le_lt. intro H. apply Qle_bool_iff in H. congruence. }
    split; [exact Hratio |]. split; [lra |]. split.
    + intro H. right. right. now apply Hhits, Hzero.
    + intros [H | [H | H]]; try discriminate H.
      now apply Hzero, Hhits.
Qed.

Lemma combine_seq_fst {A : Type} (a : nat) (l : list A) :
  map fst (combine (seq a (List.length l)) l) = seq a (List.length l).
Proof.
  revert a. induction l as [| x l IH]; intro a; [reflexivity |].
  cbn. now rewrite IH.
Qed.

(** The entries of an enumeration of the images of a list. *)
Lemma combine_seq_map_In {A B : Type} (f : A -> B) (d : A) (a : nat)
    (l : list A) (e : nat * B) :
  In e (combine (seq a (List.length l)) (map f l))
  <-> (a <= fst e < a + List.length l)%nat
      /\ snd e = f (nth (fst e - a) l d).
Proof.
  revert a. induction l as [| x l IH]; intro a.
  - cbn. split; [intros [] | lia].
  - cbn [List.length seq map combine In]. rewrite IH. split.
    + intros [<- | [Hr Hs]].
      * cbn [fst snd]. rewrite Nat.sub_diag. split; [lia | reflexivity].
      * split; [lia |]. rewrite Hs.
        replace (fst e - a)%nat with (S (fst e - S a)) by lia. reflexivity.
    + intros [Hr Hs]. destruct (Nat.eq_dec (fst e) a) as [E | NE].
      * left. destruct e as [i s]. cbn [fst snd] in *. subst i.
        rewrite Nat.sub_diag in Hs. cbn in Hs. now subst.
      * right. split; [lia |]. rewrite Hs.
        replace (fst e - a)%nat with (S (fst e - S a)) by lia. reflexivity.
Qed.

Lemma sort_asc_nat_sorted {A : Type} (key : A -> nat) (l : list A) :
  StronglySorted (fun a b => (key a <= key b)%nat) (sort_asc Nat.leb key l).
Proof.
  unfold sort_asc.
  pose proof (@sort_desc_sorted A nat (fun a b => Nat.leb b a) key) as H.
  assert (Hs : StronglySorted (desc (fun a b => Nat.leb b a) key)
                 (sort_desc (fun a b => Nat.leb b a) key l)).
  { apply H.
    - intros a b. rewrite !Nat.leb_le. lia.
    - intros a b c. rewrite !Nat.leb_le. lia. }
  clear H. induction Hs as [| x s _ IH Hx]; constructor; [exact IH |].
  eapply Forall_impl; [| exact Hx].
  intros y Hy. unfold desc in Hy. now apply Nat.leb_le.
Qed.

Lemma StronglySorted_le_lt (l : list nat) :
  StronglySorted le l -> NoDup l -> StronglySorted lt l.
Proof.
  induction 1 as [| x l _ IH Hx]; intro Hnd; constructor.
  - apply IH. now inversion Hnd.
  - inversion Hnd as [| ? ? Hnot _]; subst.
    rewrite Forall_forall in *. intros y Hy.
    specialize (Hx y Hy). assert (x <> y) by (intros ->; contradiction).
    lia.
Qed.

(** X18. The summary of the empty text is empty, and a text with no more
    sentences than allowed is returned as it is.  Otherwise, for a limit
    that is not negative, the summary joins exactly that many sentences of
    the text with blanks, in the order they have in the text, and no
    sentence left out has a higher score than a chosen one. *)
Theorem summarize_text_selection
    (self : TextProcessor.t) (R : Runtime) (T : TextRuntime)
    (text : string) (max_sentences : Z) :
  let sentences := sent_tokenize R text in
  let n := List.length sentences in
  let word_freq :=
    counter_of
      (TextProcessor.remove_stopwords self
         (TextProcessor.tokenize R T text)) in
  let score i :=
    TextProcessor.sentence_score self R T word_freq
      (nth i sentences EmptyString) in
  let summary := TextProcessor.summarize_text self R T text max_sentences in
  (text = EmptyString -> summary = EmptyString)
  /\ ((Z.of_nat n <= max_sentences)%Z -> summary = text)
  /\ (text <> EmptyString -> (0 <= max_sentences < Z.of_nat n)%Z ->
      exists idx,
        summary
        = String.concat " " (map (fun i => nth i sentences EmptyString) idx)
        /\ List.length idx = Z.to_nat max_sentences
        /\ StronglySorted lt idx
        /\ Forall (fun i => (i < n)%nat) idx
        /\ forall i j, In i idx -> (j < n)%nat -> ~ In j idx ->
             (score j <= score i)%Z).
Proof.
  intros sentences n word_freq score summary.
  split; [intros ->; reflexivity |].
  split.
  { intro Hle. unfold summary, TextProcessor.summarize_text.
    destruct text; [reflexivity |]. fold sentences. fold n.
    now rewrite (proj2 (Z.leb_le _ _) Hle). }
  intros Hne Hmax. unfold summary, TextProcessor.summarize_text.
  destruct text as [| c text']; [congruence |].
  set (text := String c text') in *.
  fold sentences. fold n. cbv zeta. fold word_freq.
  replace (Z.of_nat n <=? max_sentences)%Z with false
    by (symmetry; apply Z.leb_gt; lia).
  unfold slice_to.
  replace (0 <=? max_sentences)%Z with true by (symmetry; apply Z.leb_le; lia).
  set (m := Z.to_nat max_sentences).
  set (entries := combine (seq 0 n)
                    (map (TextProcessor.sentence_score self R T word_freq)
                       sentences)).
  set (ranked := sort_desc Z.leb (@snd nat Z) entries).
  set (chosen := firstn m ranked).
  set (ordered := sort_asc Nat.leb (@fst nat Z) chosen).
  assert (Hentry : forall e, In e entries
                   <-> (fst e < n)%nat /\ snd e = score (fst e)).
  { intro e. unfold entries, n.
    rewrite (combine_seq_map_In _ EmptyString 0 sentences e).
    rewrite Nat.sub_0_r. unfold score. split; intros [H1 H2];
      (split; [lia | exact H2]). }
  assert (Hperm : Permutation entries ranked) by apply sort_desc_perm.
  assert (Hord : Permutation chosen ordered) by apply sort_desc_perm.
  assert (Hids : NoDup (map fst ranked)).
  { eapply Permutation_NoDup; [apply Permutation_map, Hperm |].
    unfold entries, n.
    rewrite <- (length_map (TextProcessor.sentence_score self R T word_freq)
                  sentences).
    rewrite combine_seq_fst. apply seq_NoDup. }
  assert (Hlen : List.length ranked = n).
  { rewrite <- (Permutation_length Hperm).
    rewrite <- (length_map fst entries). unfold entries, n.
    rewrite <- (length_map (TextProcessor.sentence_score self R T word_freq)
                  sentences) at 1.
    rewrite combine_seq_fst, length_seq. apply length_map. }
  assert (Hsorted : StronglySorted (fun a b => (snd b <= snd a)%Z) ranked).
  { pose proof (@sort_desc_sorted _ _ Z.leb (@snd nat Z)
                  Zleb_total Zleb_trans entries) as H.
    fold ranked in H. revert H. generalize ranked.
    induction 1 as [| x s _ IH Hx]; constructor; [exact IH |].
    eapply Forall_impl; [| exact Hx]. intros y Hy. apply Z.leb_le, Hy. }
  rewrite <- (firstn_skipn m ranked) in Hsorted. fold chosen in Hsorted.
  destruct (StronglySorted_app_inv _ _ _ Hsorted) as (_ & _ & Hcross).
  exists (map fst ordered).
  split; [now rewrite map_map |].
  split.
  { rewrite length_map, <- (Permutation_length Hord). unfold chosen.
    rewrite length_firstn, Hlen. lia. }
  assert (Hchosen_ids : NoDup (map fst chosen)).
  { eapply Subseq_NoDup; [apply Subseq_map, firstn_Subseq | exact Hids]. }
  split.
  { apply StronglySorted_le_lt.
    - apply (StronglySorted_map_In
               (fun a b : nat * Z => (fst a <= fst b)%nat)).
      + intros a b _ _ H. exact H.
      + apply sort_asc_nat_sorted.
    - eapply Permutation_NoDup; [apply Permutation_map, Hord |].
      exact Hchosen_ids. }
  assert (Hin_chosen : forall i, In i (map fst ordered)
                       -> In (i, score i) chosen).
  { intros i Hi. apply in_map_iff in Hi. destruct Hi as (e & <- & He).
    apply (Permutation_in _ (Permutation_sym Hord)) in He.
    assert (Hen : In e entries).
    { apply (Permutation_in _ (Permutation_sym Hperm)).
      eapply firstn_In. exact He. }
    apply Hentry in Hen. destruct Hen as [_ Hs].
    destruct e as [i s]. cbn [fst snd] in *. now subst. }
  split.
  { apply Forall_forall. intros i Hi.
    assert (Hen : In (i, score i) entries).
    { apply (Permutation_in _ (Permutation_sym Hperm)).
      eapply firstn_In. apply Hin_chosen, Hi. }
    apply Hentry in Hen. tauto. }
  intros i j Hi Hj Hnot.
  assert (Hje : In (j, score j) ranked).
  { apply (Permutation_in _ Hperm). apply Hentry. now split. }
  rewrite <- (firstn_skipn m ranked) in Hje. fold chosen in Hje.
  apply in_app_iff in Hje. destruct Hje as [Hje | Hje].
  - exfalso. apply Hnot. apply in_map_iff. exists (j, score j).
    split; [reflexivity |]. apply (Permutation_in _ Hord), Hje.
  - exact (Hcross _ _ (Hin_chosen i Hi) Hje).
Qed.

(* ================================================================== *)
(** ** The generation of articles *)
(* ================================================================== *)

Lemma string_app_assoc (a b c : string) :
  ((a ++ b) ++ c = a ++ (b ++ c))%string.
Proof. induction a as [| x a IH]; cbn; [reflexivity | now rewrite IH]. Qed.

Lemma string_app_nil_r (a : string) : (a ++ EmptyString = a)%string.
Proof. induction a as [| x a IH]; cbn; [reflexivity | now rewrite IH]. Qed.

Lemma has_char_app (c : ascii) (a b : string) :
  Validator.has_char c (a ++ b)
  = Validator.has_char c a || Validator.has_char c b.
Proof.
  induction a as [| x a IH]; cbn; [reflexivity |].
  now rewrite IH, orb_assoc.
Qed.

(** A split gives at least one piece, and no piece holds the separator. *)
Lemma split_char_length (sep : ascii) (cur s : string) :
  (1 <= List.length (split_char sep cur s))%nat.
Proof.
  revert cur. induction s as [| c s IH]; intro cur; cbn; [lia |].
  destruct (Ascii.eqb c sep); cbn; [lia | apply IH].
Qed.

Lemma split_char_pieces (sep : ascii) (cur s piece : string) :
  Validator.has_char sep cur = false ->
  In piece (split_char sep cur s) ->
  Validator.has_char sep piece = false.
Proof.
  revert cur. induction s as [| c s IH]; intros cur Hc Hin; cbn in Hin.
  - destruct Hin as [<- | []]. exact Hc.
  - destruct (Ascii.eqb c sep) eqn:E.
    + destruct Hin as [<- | Hin]; [exact Hc |].
      exact (IH EmptyString eq_refl Hin).
    + refine (IH _ _ Hin).
      rewrite has_char_app, Hc. cbn. now rewrite Ascii.eqb_sym, E.
Qed.

Lemma slice_to_length {A : Type} (n : Z) (l : list A) :
  (0 <= n)%Z ->
  List.length (slice_to n l) = Nat.min (Z.to_nat n) (List.length l).
Proof.
  intro Hn. unfold slice_to.
  rewrite (proj2 (Z.leb_le _ _) Hn). apply length_firstn.
Qed.

Lemma slice_to_Forall {A : Type} (P : A -> Prop) (n : Z) (l : list A) :
  Forall P l -> Forall P (slice_to n l).
Proof.
  intro H. rewrite Forall_forall in *. intros x Hx. apply H.
  unfold slice_to in Hx. destruct (0 <=? n)%Z; eapply firstn_In; exact Hx.
Qed.

Lemma slice_to_nonempty {A : Type} (n : Z) (l : list A) :
  (1 <= n)%Z -> l <> [] -> slice_to n l <> [].
Proof.
  intros Hn Hl E. apply (f_equal (@List.length A)) in E.
  rewrite slice_to_length in E by lia. cbn in E.
  destruct l; [congruence | cbn in E; lia].
Qed.

(** What [str.strip] returns holds no character its argument has not. *)
Lemma strip_has_char (T : TextRuntime) (c : ascii) (s : string) :
  Validator.has_char c s = false ->
  Validator.has_char c (str_strip T s) = false.
Proof.
  intro H. destruct (str_strip_within T s) as (a & b & E).
  rewrite E, !has_char_app in H.
  apply orb_false_iff in H. destruct H as [_ H].
  apply orb_false_iff in H. tauto.
Qed.

Lemma strip_nonempty (T : TextRuntime) (s : string) :
  nonempty (str_strip T s) = true -> s <> EmptyString.
Proof. intros H ->. now rewrite str_strip_empty in H. Qed.

(** The calls and the size of what the extraction of keywords returns. *)
Lemma extract_keywords_parts
    (W : World) (R : Runtime) (T : TextRuntime)
    (content : string) (num_keywords : Z) (c : Calls) :
  let result := OllamaClient.extract_keywords W R T content num_keywords c in
  snd result = mkCalls (S (requests c)) (draws c) (choices c) (readings c)
  /\ ((0 <= num_keywords)%Z ->
      (List.length (fst result) <= Z.to_nat num_keywords)%nat)
  /\ ((1 <= num_keywords)%Z -> fst result <> []).
Proof.
  intro result.
  unfold result, OllamaClient.extract_keywords, bind, ret.
  cbn [fst snd]. split; [reflexivity |].
  set (response := fst (OllamaClient.generate W _ _ _ c)).
  split.
  { intro Hn. rewrite slice_to_length by exact Hn. lia. }
  intro Hn. apply slice_to_nonempty; [exact Hn |].
  intro E.
  pose proof (split_char_length "," EmptyString response) as H.
  rewrite <- (length_map (str_strip T)), E in H. cbn in H. lia.
Qed.

(** X19. The extraction of keywords makes one request.  For a number of
    keywords that is not negative it returns at most that many; for a
    positive number it never returns the empty list, and when the request
    gives no text it returns the one keyword that is the empty text.  No
    keyword holds a comma. *)
Theorem extract_keywords_count
    (W : World) (R : Runtime) (T : TextRuntime)
    (content : string) (num_keywords : Z) (c : Calls) :
  let result := OllamaClient.extract_keywords W R T content num_keywords c in
  let keywords := fst result in
  snd result = mkCalls (S (requests c)) (draws c) (choices c) (readings c)
  /\ ((0 <= num_keywords)%Z ->
      (List.length keywords <= Z.to_nat num_keywords)%nat)
  /\ ((1 <= num_keywords)%Z -> keywords <> [])
  /\ ((forall p t m response,
         ollama_generate W (requests c) p t m <> Text response) ->
      (1 <= num_keywords)%Z -> keywords = [EmptyString])
  /\ Forall (fun k => Validator.has_char "," k = false) keywords.
Proof.
  intros result keywords.
  unfold keywords, result, OllamaClient.extract_keywords, bind, ret.
  cbn [fst snd]. split; [reflexivity |].
  set (response := fst (OllamaClient.generate W _ _ _ c)).
  split.
  { intro Hn. rewrite slice_to_length by exact Hn. lia. }
  split.
  { intro Hn.
    exact (proj2 (proj2 (extract_keywords_parts W R T content num_keywords c))
             Hn). }
  split.
  { intros Hno Hn.
    assert (E : response = EmptyString).
    { unfold response, OllamaClient.generate. cbn [fst].
      match goal with
      | |- match ?r with _ => _ end = _ => destruct r eqn:Er
      end; [| reflexivity | reflexivity].
      exfalso. exact (Hno _ _ _ _ Er). }
    rewrite E. cbn [split_char map]. rewrite str_strip_empty.
    unfold slice_to. rewrite (proj2 (Z.leb_le 0 num_keywords)) by lia.
    destruct (Z.to_nat num_keywords) eqn:En; [lia |].
    cbn [firstn]. now rewrite firstn_nil. }
  apply slice_to_Forall. apply Forall_forall. intros k Hk.
  apply in_map_iff in Hk. destruct Hk as (piece & <- & Hp).
  apply strip_has_char.
  exact (split_char_pieces "," EmptyString response piece eq_refl Hp).
Qed.

(** The body the loop over the lines builds. *)
Lemma read_line_corpo (T : TextRuntime) (p : OllamaClient.Parts)
    (e : nat * string) :
  OllamaClient.corpo (OllamaClient.read_line T p e)
  = if body_line T e
    then (OllamaClient.corpo p ++ snd e ++ OllamaClient.nl)%string
    else OllamaClient.corpo p.
Proof.
  unfold OllamaClient.read_line, body_line.
  destruct (String.prefix "Título:" (snd e)); [reflexivity |].
  destruct (String.prefix "Subtítulo:" (snd e)); [reflexivity |].
  destruct (String.prefix "Editoria:" (snd e)); [reflexivity |].
  cbn [negb andb].
  destruct ((3 <? fst e)%nat && nonempty (str_strip T (snd e)));
    reflexivity.
Qed.

Lemma fold_read_line_corpo (T : TextRuntime) (es : list (nat * string))
    (p : OllamaClient.Parts) :
  OllamaClient.corpo (fold_left (OllamaClient.read_line T) es p)
  = (OllamaClient.corpo p
       ++ body_of (map snd (filter (body_line T) es)))%string.
Proof.
  revert p. induction es as [| e es IH]; intro p; cbn [fold_left filter].
  - cbn. now rewrite string_app_nil_r.
  - rewrite IH, read_line_corpo. destruct (body_line T e).
    + cbn [map body_of fold_right]. now rewrite !string_app_assoc.
    + reflexivity.
Qed.

Lemma has_blank_line_tail (c : ascii) (s : string) :
  has_blank_line (String c s) = false -> has_blank_line s = false.
Proof.
  destruct s as [| c' s]; [reflexivity |].
  cbn [has_blank_line]. intro H. apply orb_false_iff in H. tauto.
Qed.

Lemma has_blank_line_suffix (a s : string) :
  has_blank_line (a ++ s) = false -> has_blank_line s = false.
Proof.
  induction a as [| c a IH]; cbn [String.append]; [tauto |].
  intro H. apply IH. exact (has_blank_line_tail _ _ H).
Qed.

Lemma has_blank_line_prefix (s b : string) :
  has_blank_line (s ++ b) = false -> has_blank_line s = false.
Proof.
  induction s as [| c s IH]; [reflexivity |].
  destruct s as [| c' s]; [reflexivity |].
  cbn [String.append has_blank_line] in *. intro H.
  apply orb_false_iff in H. destruct H as [H1 H2].
  rewrite H1. cbn [orb]. apply IH. exact H2.
Qed.

(** A line feed after a line without one, before a text that does not
    begin with one, makes no empty line. *)
Lemma line_then_rest (line rest : string) :
  Validator.has_char Validator.newline line = false ->
  has_blank_line rest = false ->
  starts_blank rest = false ->
  has_blank_line (line ++ OllamaClient.nl ++ rest) = false
  /\ (line <> EmptyString ->
      starts_blank (line ++ OllamaClient.nl ++ rest) = false).
Proof.
  intros Hline Hrest Hstart.
  assert (Hnl : has_blank_line (OllamaClient.nl ++ rest) = false).
  { unfold OllamaClient.nl. cbn [String.append].
    destruct rest as [| c' rest]; [reflexivity |].
    cbn [starts_blank] in Hstart.
    change (has_blank_line
              (String Validator.newline (String c' rest)))
      with (Ascii.eqb Validator.newline Validator.newline
              && Ascii.eqb c' Validator.newline
            || has_blank_line (String c' rest)).
    rewrite Hstart, andb_false_r. exact Hrest. }
  induction line as [| c line IH].
  - split; [exact Hnl | congruence].
  - cbn [Validator.has_char] in Hline. apply orb_false_iff in Hline.
    destruct Hline as [Hc Hl]. rewrite Ascii.eqb_sym in Hc.
    specialize (IH Hl). destruct IH as [IH _]. split.
    + cbn [String.append]. cbn [has_blank_line].
      destruct (line ++ OllamaClient.nl ++ rest)%string eqn:E;
        [reflexivity |].
      rewrite Hc. cbn [andb orb]. exact IH.
    + intros _. cbn. exact Hc.
Qed.

Lemma body_of_no_blank_line (lines : list string) :
  Forall (fun line => line <> EmptyString
                      /\ Validator.has_char Validator.newline line = false)
    lines ->
  has_blank_line (body_of lines) = false
  /\ starts_blank (body_of lines) = false.
Proof.
  induction 1 as [| line lines [Hne Hnl] _ [IH1 IH2]]; [now split |].
  cbn [body_of fold_right].
  destruct (line_then_rest line (body_of lines) Hnl IH1 IH2) as [H1 H2].
  split; [exact H1 | exact (H2 Hne)].
Qed.

(** A text without an empty line inside is one paragraph. *)
Lemma split_paragraphs_single (cur s : string) :
  has_blank_line s = false ->
  Validator.split_paragraphs cur s = [(cur ++ s)%string].
Proof.
  revert cur. induction s as [| c s IH]; intros cur H.
  - cbn. now rewrite string_app_nil_r.
  - destruct s as [| c' s]; [reflexivity |].
    cbn [has_blank_line] in H. apply orb_false_iff in H.
    destruct H as [H1 H2].
    change (Validator.split_paragraphs cur (String c (String c' s)))
      with (if Ascii.eqb c Validator.newline && Ascii.eqb c' Validator.newline
            then cur :: Validator.split_paragraphs EmptyString s
            else Validator.split_paragraphs (cur ++ String c EmptyString)
                   (String c' s)).
    rewrite H1, (IH _ H2), string_app_assoc. reflexivity.
Qed.

(** The body of the article of the client, read off the reply. *)
Lemma client_article_materia
    (W : World) (R : Runtime) (T : TextRuntime)
    (topic : string) (facts : list string) (min_words max_paragraphs : Z)
    (c : Calls) :
  let prompt :=
    OllamaClient.article_prompt R topic facts min_words max_paragraphs in
  let response := fst (OllamaClient.generate W prompt (7 # 10) 2000 c) in
  let lines :=
    split_char Validator.newline EmptyString (str_strip T response) in
  Article.materia
    (fst (OllamaClient.generate_article W R T topic facts min_words
            max_paragraphs c))
  = str_strip T
      (body_of
         (map snd
            (filter (body_line T)
               (combine (seq 0 (List.length lines)) lines)))).
Proof.
  intros prompt response lines.
  unfold OllamaClient.generate_article, bind, ret. cbn [fst snd].
  cbv zeta. fold prompt. fold response. fold lines. cbn [Article.materia].
  unfold OllamaClient.read_lines. now rewrite fold_read_line_corpo.
Qed.

Lemma body_lines_ok (T : TextRuntime) (text : string) :
  let lines := split_char Validator.newline EmptyString text in
  Forall (fun line => line <> EmptyString
                      /\ Validator.has_char Validator.newline line = false)
    (map snd
       (filter (body_line T) (combine (seq 0 (List.length lines)) lines))).
Proof.
  intro lines. apply Forall_forall. intros line Hline.
  apply in_map_iff in Hline. destruct Hline as (e & <- & He).
  apply filter_In in He. destruct He as [Hin Hb]. split.
  - unfold body_line in Hb. apply andb_true_iff in Hb.
    destruct Hb as [_ Hb]. exact (strip_nonempty T _ Hb).
  - destruct e as [i line]. apply in_combine_r in Hin. cbn [snd].
    exact (split_char_pieces Validator.newline EmptyString text line
             eq_refl Hin).
Qed.

(** What the client makes of any reply. *)
Lemma client_article_parts
    (W : World) (R : Runtime) (T : TextRuntime)
    (topic : string) (facts : list string) (min_words max_paragraphs : Z)
    (c : Calls) :
  let result :=
    OllamaClient.generate_article W R T topic facts min_words
      max_paragraphs c in
  has_blank_line (Article.materia (fst result)) = false
  /\ (1 <= List.length (Article.keywords (fst result)) <= 5)%nat
  /\ Article.generated_at (fst result) = None
  /\ snd result
     = mkCalls (2 + requests c) (draws c) (choices c) (readings c).
Proof.
  intro result. split.
  { unfold result. rewrite client_article_materia.
    match goal with
    | |- has_blank_line (str_strip T ?b) = false =>
        destruct (str_strip_within T b) as (x & y & E);
        assert (Hb : has_blank_line b = false)
          by apply body_of_no_blank_line, body_lines_ok;
        rewrite E in Hb
    end.
    apply has_blank_line_suffix in Hb.
    exact (has_blank_line_prefix _ _ Hb). }
  unfold result, OllamaClient.generate_article, bind, ret. cbn [fst snd].
  cbv zeta. cbn [Article.keywords Article.generated_at].
  match goal with
  | |- context [OllamaClient.extract_keywords W R T ?b 5 ?c'] =>
      pose proof (extract_keywords_parts W R T b 5 c') as H
  end.
  cbv zeta in H. destruct H as (Hc & Hle & Hne).
  split; [| split; [reflexivity |]].
  - specialize (Hle ltac:(lia)). specialize (Hne ltac:(lia)).
    split; [| exact Hle].
    destruct (fst (OllamaClient.extract_keywords W R T _ 5 _));
      [congruence | cbn; lia].
  - rewrite Hc. reflexivity.
Qed.

(** X20. The article the client makes of a reply: its body is, stripped,
    the lines of the stripped reply after the fourth that are no header
    line and not blank, each followed by a line feed; so a reply of four
    lines or fewer gives the empty body.  The body has no empty line
    inside, hence is one paragraph for the validator.  There are between
    one and five keywords, and two requests are made. *)
Theorem client_article_shape
    (W : World) (R : Runtime) (T : TextRuntime)
    (topic : string) (facts : list string) (min_words max_paragraphs : Z)
    (c : Calls) :
  let prompt :=
    OllamaClient.article_prompt R topic facts min_words max_paragraphs in
  let response := fst (OllamaClient.generate W prompt (7 # 10) 2000 c) in
  let lines :=
    split_char Validator.newline EmptyString (str_strip T response) in
  let result :=
    OllamaClient.generate_article W R T topic facts min_words
      max_paragraphs c in
  let article := fst result in
  Article.materia article
  = str_strip T
      (body_of
         (map snd
            (filter (body_line T)
               (combine (seq 0 (List.length lines)) lines))))
  /\ ((List.length lines <= 4)%nat -> Article.materia article = EmptyString)
  /\ has_blank_line (Article.materia article) = false
  /\ List.length
       (Validator.split_paragraphs EmptyString (Article.materia article))
     = 1%nat
  /\ (1 <= List.length (Article.keywords article) <= 5)%nat
  /\ snd result
     = mkCalls (2 + requests c) (draws c) (choices c) (readings c).
Proof.
  intros prompt response lines result article.
  pose proof (client_article_materia W R T topic facts min_words
                max_paragraphs c) as Hm.
  cbv zeta in Hm. fold prompt response lines result article in Hm.
  pose proof (client_article_parts W R T topic facts min_words
                max_paragraphs c) as Hp.
  cbv zeta in Hp. fold result article in Hp.
  destruct Hp as (Hb & Hk & _ & Hc).
  split; [exact Hm |].
  split.
  { intro Hlen. rewrite Hm.
    replace (filter (body_line T) (combine (seq 0 (List.length lines)) lines))
      with (@nil (nat * string)); [apply str_strip_empty |].
    symmetry. apply filter_nil_iff. intros [i line] Hin.
    apply in_combine_l, in_seq in Hin. unfold body_line. cbn [fst snd].
    replace (3 <? i)%nat with false by (symmetry; apply Nat.ltb_ge; lia).
    now rewrite andb_false_r. }
  split; [exact Hb |].
  split; [now rewrite split_paragraphs_single |].
  split; [exact Hk | exact Hc].
Qed.

(** The section of an article of the content generator is never empty. *)
Lemma editorias_nonempty (k : nat) :
  nth (k mod List.length ContentGenerator.editorias)
    ContentGenerator.editorias EmptyString <> EmptyString.
Proof.
  assert (H : (k mod List.length ContentGenerator.editorias < 8)%nat)
    by (apply Nat.mod_upper_bound; cbn; lia).
  destruct (k mod List.length ContentGenerator.editorias)%nat
    as [| [| [| [| [| [| [| [| n]]]]]]]]; cbn; try discriminate; lia.
Qed.

Lemma content_article_parts
    (self : ContentGenerator.t) (W : World) (R : Runtime) (T : TextRuntime)
    (topic : string) (facts : list string) (c : Calls) :
  let result :=
    ContentGenerator.generate_article self W R T topic facts None c in
  generated (fst result)
  /\ Article.generated_at (fst result) = Some (datetime_now W (readings c))
  /\ snd result
     = mkCalls (2 + requests c) (draws c) (S (choices c)) (S (readings c)).
Proof.
  intro result.
  unfold result, ContentGenerator.generate_article, bind, ret.
  cbn [fst snd ContentGenerator.random_choice_of ContentGenerator.now].
  set (c1 := mkCalls (requests c) (draws c) (S (choices c)) (readings c)).
  pose proof (client_article_parts W R T topic facts
                (ContentGenerator.min_words self)
                (ContentGenerator.max_paragraphs self) c1) as Hp.
  cbv zeta in Hp. destruct Hp as (Hb & Hk & _ & Hc).
  set (a := fst (OllamaClient.generate_article W R T topic facts _ _ c1))
    in *.
  rewrite Hc. cbn [requests draws choices readings c1].
  split; [| split; reflexivity].
  unfold generated. cbn [Article.generated_at].
  split.
  { destruct (nonempty (Article.editoria a)); exact Hb. }
  split.
  { destruct (nonempty (Article.editoria a));
      cbn [Article.keywords]; intro E; rewrite E in Hk; cbn in Hk; lia. }
  split; [| discriminate].
  destruct (nonempty (Article.editoria a)) eqn:En; cbn [Article.editoria].
  - intro E. now rewrite E in En.
  - apply editorias_nonempty.
Qed.

Lemma fold_read_line_editoria (T : TextRuntime) (es : list (nat * string))
    (p : OllamaClient.Parts) :
  (forall e, In e es -> String.prefix "Editoria:" (snd e) = false) ->
  OllamaClient.editoria (fold_left (OllamaClient.read_line T) es p)
  = OllamaClient.editoria p.
Proof.
  revert p. induction es as [| e es IH]; intros p H; [reflexivity |].
  cbn [fold_left]. rewrite IH by (intros e' He'; apply H; now right).
  unfold OllamaClient.read_line. rewrite (H e (or_introl eq_refl)).
  destruct (String.prefix "Título:" (snd e)); [reflexivity |].
  destruct (String.prefix "Subtítulo:" (snd e)); [reflexivity |].
  destruct ((3 <? fst e)%nat && nonempty (str_strip T (snd e)));
    reflexivity.
Qed.

(** X21. An article the content generator makes when it is called without a
    section, as all its callers do: its section is never empty, and it is
    one of the eight sections of the generator whenever no line of the
    reply begins with the section header; it carries the clock reading,
    has between one and five keywords and a body that is one paragraph for
    the validator; one choice, two requests and one clock reading are
    made. *)
Theorem content_article_complete
    (self : ContentGenerator.t) (W : World) (R : Runtime) (T : TextRuntime)
    (topic : string) (facts : list string) (c : Calls) :
  let result :=
    ContentGenerator.generate_article self W R T topic facts None c in
  let article := fst result in
  let asked := mkCalls (requests c) (draws c) (S (choices c)) (readings c) in
  let prompt :=
    OllamaClient.article_prompt R topic facts
      (ContentGenerator.min_words self)
      (ContentGenerator.max_paragraphs self) in
  let response := fst (OllamaClient.generate W prompt (7 # 10) 2000 asked) in
  let lines :=
    split_char Validator.newline EmptyString (str_strip T response) in
  Article.editoria article <> EmptyString
  /\ ((forall line, In line lines ->
         String.prefix "Editoria:" line = false) ->
      In (Article.editoria article) ContentGenerator.editorias)
  /\ Article.generated_at article = Some (datetime_now W (readings c))
  /\ (1 <= List.length (Article.keywords article) <= 5)%nat
  /\ List.length
       (Validator.split_paragraphs EmptyString (Article.materia article))
     = 1%nat
  /\ snd result
     = mkCalls (2 + requests c) (draws c) (S (choices c)) (S (readings c)).
Proof.
  intros result article asked prompt response lines.
  pose proof (content_article_parts self W R T topic facts c) as H.
  cbv zeta in H. fold result article in H.
  destruct H as ((Hb & Hk & He & _) & Ht & Hc).
  split; [exact He |].
  split.
  { intro Hno. unfold article, result, ContentGenerator.generate_article,
      bind, ret.
    cbn [fst snd ContentGenerator.random_choice_of ContentGenerator.now].
    fold asked.
    assert (E : Article.editoria
                  (fst (OllamaClient.generate_article W R T topic facts
                          (ContentGenerator.min_words self)
                          (ContentGenerator.max_paragraphs self) asked))
                = EmptyString).
    { unfold OllamaClient.generate_article, bind, ret. cbn [fst snd].
      cbv zeta. fold prompt response lines. cbn [Article.editoria].
      unfold OllamaClient.read_lines. rewrite fold_read_line_editoria.
      - reflexivity.
      - intros [i line] Hin. apply in_combine_r in Hin. cbn [snd].
        exact (Hno line Hin). }
    rewrite E. cbn [nonempty Article.editoria].
    apply nth_In. apply Nat.mod_upper_bound. cbn. lia. }
  split; [exact Ht |].
  split.
  { unfold article, result, ContentGenerator.generate_article, bind, ret.
    cbn [fst snd ContentGenerator.random_choice_of ContentGenerator.now].
    fold asked.
    pose proof (client_article_parts W R T topic facts
                  (ContentGenerator.min_words self)
                  (ContentGenerator.max_paragraphs self) asked) as Hp.
    cbv zeta in Hp. destruct Hp as (_ & Hk' & _).
    destruct (nonempty _); exact Hk'. }
  split; [now rewrite split_paragraphs_single | exact Hc].
Qed.

Section Articles.
Variable self : ContentGenerator.t.
Variable W : World.
Variable R : Runtime.
Variable T : TextRuntime.

Lemma selected_cases (priority : string) (c : Calls) :
  ContentGenerator.selected W priority c
  = if String.eqb priority Alta then (true, c)
    else if String.eqb priority Media then
      (InsightGenerator.Qgtb (random_random W (draws c)) (1 # 2),
       mkCalls (requests c) (S (draws c)) (choices c) (readings c))
    else (false, c).
Proof.
  unfold ContentGenerator.selected.
  destruct (String.eqb priority Alta); [reflexivity |].
  destruct (String.eqb priority Media); reflexivity.
Qed.

Lemma recommendations_cons (r : Recommendation.t)
    (rest : list Recommendation.t) (c : Calls) :
  ContentGenerator.generate_articles_from_recommendations self W R T
    (r :: rest) c
  = let s := ContentGenerator.selected W (Recommendation.priority r) c in
    if fst s then
      let g :=
        ContentGenerator.generate_article self W R T (Recommendation.topic r)
          (Recommendation.key_facts r) None (snd s) in
      let t :=
        ContentGenerator.generate_articles_from_recommendations self W R T
          rest (snd g) in
      (fst g :: fst t, snd t)
    else
      ContentGenerator.generate_articles_from_recommendations self W R T
        rest (snd s).
Proof.
  cbn [ContentGenerator.generate_articles_from_recommendations].
  unfold bind at 1. cbv zeta.
  destruct (fst (ContentGenerator.selected W (Recommendation.priority r) c));
    reflexivity.
Qed.

Lemma recommendation_articles_parts (recs : list Recommendation.t) :
  forall c : Calls,
  let result :=
    ContentGenerator.generate_articles_from_recommendations self W R T
      recs c in
  let high :=
    List.length
      (filter (fun r => String.eqb (Recommendation.priority r) Alta) recs) in
  let medium :=
    List.length
      (filter (fun r => String.eqb (Recommendation.priority r) Media) recs) in
  let n := List.length (fst result) in
  (high <= n <= high + medium)%nat
  /\ snd result
     = mkCalls (requests c + 2 * n) (draws c + medium) (choices c + n)
         (readings c + n)
  /\ Forall generated (fst result)
  /\ ((forall k, random_random W k <= 1 # 2) -> n = high)
  /\ ((forall k, 1 # 2 < random_random W k) -> n = (high + medium)%nat).
Proof.
  induction recs as [| r rest IH]; intro c; cbv zeta.
  - cbn. repeat split; try lia; try constructor.
    destruct c; cbn; f_equal; lia.
  - rewrite recommendations_cons, selected_cases. cbv zeta.
    cbn [filter].
    destruct (String.eqb (Recommendation.priority r) Alta) eqn:Ea.
    + assert (Em : String.eqb (Recommendation.priority r) Media = false).
      { apply String.eqb_eq in Ea. now rewrite Ea. }
      rewrite Em. cbn [fst snd].
      pose proof (content_article_parts self W R T (Recommendation.topic r)
                    (Recommendation.key_facts r) c) as Hg.
      cbv zeta in Hg. destruct Hg as (Hgen & _ & Hc). rewrite Hc.
      specialize (IH (mkCalls (2 + requests c) (draws c) (S (choices c))
                        (S (readings c)))).
      cbv zeta in IH. destruct IH as (Hn & Hs & Hall & Hlow & Hup).
      rewrite Hs. cbn [List.length requests draws choices readings].
      repeat split; try lia.
      * f_equal; lia.
      * constructor; assumption.
      * intro H. specialize (Hlow H). lia.
      * intro H. specialize (Hup H). lia.
    + destruct (String.eqb (Recommendation.priority r) Media) eqn:Em;
        cbn [fst snd].
      * destruct (InsightGenerator.Qgtb (random_random W (draws c)) (1 # 2))
          eqn:Ed.
        -- set (c1 := mkCalls (requests c) (S (draws c)) (choices c)
                        (readings c)).
           pose proof (content_article_parts self W R T
                         (Recommendation.topic r)
                         (Recommendation.key_facts r) c1) as Hg.
           cbv zeta in Hg. destruct Hg as (Hgen & _ & Hc). rewrite Hc.
           specialize (IH (mkCalls (2 + requests c1) (draws c1)
                             (S (choices c1)) (S (readings c1)))).
           cbv zeta in IH. destruct IH as (Hn & Hs & Hall & Hlow & Hup).
           rewrite Hs. subst c1.
           cbn [fst snd List.length requests draws choices readings] in *.
           repeat split; try lia.
           ++ f_equal; lia.
           ++ constructor; assumption.
           ++ intro H. exfalso. apply Qgtb_lt in Ed.
              specialize (H (draws c)). lra.
           ++ intro H. specialize (Hup H). lia.
        -- specialize (IH (mkCalls (requests c) (S (draws c)) (choices c)
                             (readings c))).
           cbv zeta in IH. destruct IH as (Hn & Hs & Hall & Hlow & Hup).
           rewrite Hs. cbn [List.length requests draws choices readings].
           repeat split; try lia.
           ++ f_equal; lia.
           ++ assumption.
           ++ intro H. specialize (Hlow H). lia.
           ++ intro H. exfalso. apply Qgtb_false_le in Ed.
              specialize (H (draws c)). lra.
      * specialize (IH c). cbv zeta in IH.
        destruct IH as (Hn & Hs & Hall & Hlow & Hup).
        repeat split; try lia; assumption.
Qed.

(** X22. The articles made from the recommendations: every recommendation
    of high priority gets one and no recommendation of another priority
    than high or medium does, so their number lies between the number of
    high ones and the number of high and medium ones; it is the first when
    no draw exceeds one half and the second when every draw does.  One
    draw is made for each medium recommendation, and two requests, one
    choice and one clock reading for each article. *)
Theorem recommendation_articles_count (recs : list Recommendation.t)
    (c : Calls) :
  let result :=
    ContentGenerator.generate_articles_from_recommendations self W R T
      recs c in
  let high :=
    List.length
      (filter (fun r => String.eqb (Recommendation.priority r) Alta) recs) in
  let medium :=
    List.length
      (filter (fun r => String.eqb (Recommendation.priority r) Media) recs) in
  let n := List.length (fst result) in
  (high <= n <= high + medium)%nat
  /\ ((forall k, random_random W k <= 1 # 2) -> n = high)
  /\ ((forall k, 1 # 2 < random_random W k) -> n = (high + medium)%nat)
  /\ snd result
     = mkCalls (requests c + 2 * n) (draws c + medium) (choices c + n)
         (readings c + n).
Proof.
  intros result high medium n.
  pose proof (recommendation_articles_parts recs c) as H. cbv zeta in H.
  fold result high medium n in H.
  destruct H as (Hn & Hs & _ & Hlow & Hup). tauto.
Qed.

End Articles.

Section AllArticles.
Variable self : ContentGenerator.t.
Variable W : World.
Variable R : Runtime.
Variable T : TextRuntime.

(** The run on insights that could be read, step by step. *)
Lemma all_articles_some (insights : InsightBundle.t) (max_articles : Z)
    (c : Calls) :
  ContentGenerator.generate_all_articles self W R T (Some insights)
    max_articles c
  = let from_recs :=
      ContentGenerator.generate_articles_from_recommendations self W R T
        (InsightBundle.content_recommendations insights) c in
    let remaining_articles :=
      (max_articles - Z.of_nat (List.length (fst from_recs)))%Z in
    let more :=
      if (0 <? remaining_articles)%Z then
        let trending :=
          ContentGenerator.generate_articles_from_trending_topics self W R T
            (InsightBundle.topic_insights insights) remaining_articles
            (snd from_recs) in
        ((fst from_recs ++ fst trending)%list, snd trending)
      else from_recs in
    (slice_to max_articles (fst more), snd more).
Proof.
  unfold ContentGenerator.generate_all_articles, bind, ret. cbv zeta.
  cbn [fst snd].
  match goal with |- context [if ?b then _ else _] => destruct b end;
    reflexivity.
Qed.

(** What holds of every article the generator makes holds of every article
    of its lists. *)
Section Lifting.
Variable P : Article.t -> Prop.
Hypothesis P_article :
  forall topic facts c,
    P (fst (ContentGenerator.generate_article self W R T topic facts None c)).

Lemma recommendations_Forall (recs : list Recommendation.t) (c : Calls) :
  Forall P
    (fst (ContentGenerator.generate_articles_from_recommendations self W R T
            recs c)).
Proof using P_article.
  revert c. induction recs as [| r rest IH]; intro c; [constructor |].
  rewrite recommendations_cons. cbv zeta.
  destruct (fst (ContentGenerator.selected W (Recommendation.priority r) c)).
  - cbn [fst]. constructor; [apply P_article | apply IH].
  - apply IH.
Qed.

Lemma topics_Forall (tops : list Insight.t) (c : Calls) :
  Forall P (fst (ContentGenerator.articles_of_topics self W R T tops c)).
Proof using P_article.
  revert c. induction tops as [| t rest IH]; intro c; [constructor |].
  cbn [ContentGenerator.articles_of_topics].
  destruct (Insight.key_facts t) as [| f fs]; [apply IH |].
  unfold bind, ret. cbn [fst snd].
  constructor; [apply P_article | apply IH].
Qed.

Lemma all_articles_Forall (loaded : option InsightBundle.t)
    (max_articles : Z) (c : Calls) :
  Forall P
    (fst (ContentGenerator.generate_all_articles self W R T loaded
            max_articles c)).
Proof using P_article.
  destruct loaded as [insights |]; [| constructor].
  rewrite all_articles_some. cbv zeta. cbn [fst].
  apply slice_to_Forall.
  match goal with |- context [if ?b then _ else _] => destruct b end.
  - cbn [fst]. apply Forall_app. split.
    + apply recommendations_Forall.
    + unfold ContentGenerator.generate_articles_from_trending_topics.
      apply topics_Forall.
  - apply recommendations_Forall.
Qed.

End Lifting.

(** The articles made from topics: one for each topic that has a fact. *)
Lemma topics_articles_parts (tops : list Insight.t) :
  forall c : Calls,
  let result := ContentGenerator.articles_of_topics self W R T tops c in
  let n := List.length (fst result) in
  n = List.length
        (filter (fun t => match Insight.key_facts t with
                          | [] => false
                          | _ :: _ => true
                          end) tops)
  /\ snd result
     = mkCalls (requests c + 2 * n) (draws c) (choices c + n)
         (readings c + n).
Proof.
  induction tops as [| t rest IH]; intro c; cbv zeta.
  - cbn. split; [reflexivity |]. destruct c; cbn; f_equal; lia.
  - cbn [ContentGenerator.articles_of_topics filter].
    destruct (Insight.key_facts t) as [| f fs] eqn:Ef; [apply IH |].
    unfold bind, ret. cbn [fst snd].
    pose proof (content_article_parts self W R T (Insight.topic t) (f :: fs)
                  c) as Hg.
    cbv zeta in Hg. destruct Hg as (_ & _ & Hc). rewrite Hc.
    specialize (IH (mkCalls (2 + requests c) (draws c) (S (choices c))
                      (S (readings c)))).
    cbv zeta in IH. destruct IH as [Hn Hs]. rewrite Hs.
    cbn [fst snd List.length requests draws choices readings] in *.
    split; [lia | f_equal; lia].
Qed.

(** X23. The articles of a whole run.  Without insights there are none
    and no call is made.  For a limit that is not negative there are at
    most that many, and never more than there are recommendations and
    topic insights together.  With a negative limit no article comes from
    the topics and the recommendation articles lose their last ones.  The
    requests for the recommendations of high priority are made whatever
    the limit is. *)
Theorem all_articles_bounded (loaded : option InsightBundle.t)
    (max_articles : Z) (c : Calls) :
  let result :=
    ContentGenerator.generate_all_articles self W R T loaded max_articles c in
  let articles := fst result in
  (loaded = None -> result = ([], c))
  /\ ((0 <= max_articles)%Z ->
      (List.length articles <= Z.to_nat max_articles)%nat)
  /\ forall insights, loaded = Some insights ->
       let recs := InsightBundle.content_recommendations insights in
       let from_recs :=
         ContentGenerator.generate_articles_from_recommendations self W R T
           recs c in
       let high :=
         List.length
           (filter (fun r => String.eqb (Recommendation.priority r) Alta)
              recs) in
       (List.length articles
        <= List.length recs
           + List.length (InsightBundle.topic_insights insights))%nat
       /\ ((max_articles < 0)%Z ->
           articles = slice_to max_articles (fst from_recs)
           /\ snd result = snd from_recs)
       /\ (requests c + 2 * high <= requests (snd result))%nat.
Proof.
  intros result articles.
  split; [intros ->; reflexivity |].
  split.
  { intro Hmax. unfold articles, result.
    destruct loaded as [insights |]; [| cbn; lia].
    rewrite all_articles_some. cbv zeta. cbn [fst].
    rewrite slice_to_length by exact Hmax. lia. }
  intros insights -> recs from_recs high.
  pose proof (recommendation_articles_parts self W R T recs c) as Hr.
  cbv zeta in Hr. fold from_recs high in Hr.
  destruct Hr as (Hn & Hs & _).
  assert (Hrecs : (List.length (fst from_recs) <= List.length recs)%nat).
  { pose proof (List.filter_length_le
                  (fun r => String.eqb (Recommendation.priority r) Alta)
                  recs) as H1.
    assert (H2 : forall l : list Recommendation.t,
               (List.length
                  (filter (fun r => String.eqb (Recommendation.priority r)
                                      Alta) l)
                + List.length
                    (filter (fun r => String.eqb (Recommendation.priority r)
                                        Media) l)
                <= List.length l)%nat).
    { induction l as [| r l IH]; [cbn; lia |]. cbn [filter List.length].
      destruct (String.eqb (Recommendation.priority r) Alta) eqn:Ea.
      - apply String.eqb_eq in Ea. rewrite Ea.
        change (String.eqb Alta Media) with false. cbn [List.length]. lia.
      - destruct (String.eqb (Recommendation.priority r) Media);
          cbn [List.length]; lia. }
    specialize (H2 recs). fold high in H2. lia. }
  unfold articles, result. rewrite all_articles_some. cbv zeta.
  fold recs. fold from_recs.
  destruct (0 <? max_articles - Z.of_nat (List.length (fst from_recs)))%Z
    eqn:Erem.
  - apply Z.ltb_lt in Erem. cbn [fst snd].
    unfold ContentGenerator.generate_articles_from_trending_topics.
    set (tops := slice_to _ (sort_desc _ _ _)).
    pose proof (topics_articles_parts tops (snd from_recs)) as Ht.
    cbv zeta in Ht. destruct Ht as [Htn Hts].
    assert (Htops : (List.length tops
                     <= List.length (InsightBundle.topic_insights insights))%nat).
    { unfold tops. rewrite slice_to_length by lia.
      rewrite <- (Permutation_length
                    (sort_desc_perm _ _ fle Insight.trend_score
                       (InsightBundle.topic_insights insights))).
      lia. }
    split.
    { unfold slice_to. destruct (0 <=? max_articles)%Z;
        rewrite length_firstn, length_app, Htn;
        pose proof (List.filter_length_le
                      (fun t => match Insight.key_facts t with
                                | [] => false
                                | _ :: _ => true
                                end) tops);
        lia. }
    split; [lia |].
    rewrite Hts, Hs. cbn [requests]. lia.
  - cbn [fst snd]. split.
    { unfold slice_to. destruct (0 <=? max_articles)%Z;
        rewrite length_firstn; lia. }
    split; [intros _; split; reflexivity |].
    rewrite Hs. cbn [requests]. lia.
Qed.

(** The validation of an article with the five keys of the generator. *)
Lemma validate_article_json (a : Article.t) :
  Validator.validate_article_format R (article_json a)
  = match Article.materia a with
    | EmptyString =>
        Validator.Done
          (Validator.invalid "Conteúdo da matéria está vazio"
             (article_json a))
    | String _ _ =>
        let s := Article.materia a in
        let word_count := Z.of_nat (List.length (str_split R s)) in
        if (word_count <? 500)%Z
        then Validator.Done
               (Validator.invalid
                  ("Matéria tem apenas " ++ fmt_int R word_count
                     ++ " palavras (mínimo: 500)")%string (article_json a))
        else
          let paragraphs := Validator.split_paragraphs EmptyString s in
          if (5 <? List.length paragraphs)%nat
          then Validator.Done
                 (Validator.invalid
                    ("Matéria tem "
                       ++ fmt_int R (Z.of_nat (List.length paragraphs))
                       ++ " parágrafos (máximo: 5)")%string (article_json a))
          else if Validator.has_char Validator.double_quote s
                  || Validator.has_char Validator.single_quote s
          then Validator.Done
                 (Validator.invalid "Matéria contém aspas" (article_json a))
          else
            match Article.keywords a with
            | _ :: _ =>
                Validator.Done
                  (Validator.mkArticleResult true "Matéria válida"
                     (article_json a) (Some word_count)
                     (Some (Z.of_nat (List.length paragraphs))))
            | [] =>
                Validator.Done
                  (Validator.invalid
                     "Keywords ausentes ou em formato inválido"
                     (article_json a))
            end
    end.
Proof.
  rewrite (validate_present R (article_json a) (JStr (Article.materia a))).
  - destruct (Article.materia a) as [| ch s]; [reflexivity |].
    cbn [Validator.truthy negb]. cbv zeta.
    destruct (_ <? 500)%Z; [reflexivity |].
    destruct (5 <? _)%nat; [reflexivity |].
    destruct (_ || _); [reflexivity |].
    assert (E : Validator.get (article_json a) "keywords" (JArr [])
                = JArr (map JStr (Article.keywords a))) by reflexivity.
    rewrite E. destruct (Article.keywords a); reflexivity.
  - intros field Hf. cbn in Hf.
    destruct Hf as [<- | [<- | [<- | [<- | [<- | []]]]]]; reflexivity.
  - reflexivity.
Qed.

(** X24. The validator on the articles of a run: the validation of none of
    them raises, and none is rejected for a missing field, for the number
    of its paragraphs, which is always one, or for its keywords.  An
    article is valid exactly when its body is not empty, has 500 words or
    more and no quotation mark. *)
Theorem generated_articles_validation (loaded : option InsightBundle.t)
    (max_articles : Z) (c : Calls) :
  let articles :=
    fst (ContentGenerator.generate_all_articles self W R T loaded
           max_articles c) in
  Forall
    (fun a =>
       let s := Article.materia a in
       let word_count := Z.of_nat (List.length (str_split R s)) in
       Validator.validate_article_format R (article_json a)
       = Validator.Done
           (match s with
            | EmptyString =>
                Validator.invalid "Conteúdo da matéria está vazio"
                  (article_json a)
            | String _ _ =>
                if (word_count <? 500)%Z
                then Validator.invalid
                       ("Matéria tem apenas " ++ fmt_int R word_count
                          ++ " palavras (mínimo: 500)")%string
                       (article_json a)
                else if Validator.has_char Validator.double_quote s
                        || Validator.has_char Validator.single_quote s
                then Validator.invalid "Matéria contém aspas" (article_json a)
                else Validator.mkArticleResult true "Matéria válida"
                       (article_json a) (Some word_count) (Some 1%Z)
            end))
    articles
  /\ exists results,
       Validator.validate_each R (map article_json articles)
       = Validator.Done results.
Proof.
  intro articles.
  assert (Hgen : Forall generated articles).
  { apply all_articles_Forall. intros topic facts c'.
    exact (proj1 (content_article_parts self W R T topic facts c')). }
  assert (Hall : Forall
    (fun a =>
       let s := Article.materia a in
       let word_count := Z.of_nat (List.length (str_split R s)) in
       Validator.validate_article_format R (article_json a)
       = Validator.Done
           (match s with
            | EmptyString =>
                Validator.invalid "Conteúdo da matéria está vazio"
                  (article_json a)
            | String _ _ =>
                if (word_count <? 500)%Z
                then Validator.invalid
                       ("Matéria tem apenas " ++ fmt_int R word_count
                          ++ " palavras (mínimo: 500)")%string
                       (article_json a)
                else if Validator.has_char Validator.double_quote s
                        || Validator.has_char Validator.single_quote s
                then Validator.invalid "Matéria contém aspas" (article_json a)
                else Validator.mkArticleResult true "Matéria válida"
                       (article_json a) (Some word_count) (Some 1%Z)
            end))
    articles).
  { eapply Forall_impl; [| exact Hgen].
    intros a (Hb & Hk & _ & _). cbv zeta.
    rewrite validate_article_json.
    destruct (Article.materia a) as [| ch s] eqn:Em; [reflexivity |].
    cbv zeta.
    destruct (_ <? 500)%Z; [reflexivity |].
    rewrite (split_paragraphs_single EmptyString (String ch s) Hb).
    cbn [List.length]. change (5 <? 1)%nat with false. cbv iota.
    destruct (_ || _); [reflexivity |].
    destruct (Article.keywords a); [congruence | reflexivity]. }
  split; [exact Hall |].
  clear Hgen. induction Hall as [| a l Ha _ [rs IH]].
  - exists []. reflexivity.
  - cbv zeta in Ha. cbn [map Validator.validate_each].
    rewrite Ha, IH. eexists. reflexivity.
Qed.

Section Unreachable.
Hypothesis no_text :
  forall k prompt temperature max_tokens response,
    ollama_generate W k prompt temperature max_tokens <> Text response.

Lemma generate_no_text (prompt : string) (temperature : Q) (max_tokens : Z)
    (c : Calls) :
  fst (OllamaClient.generate W prompt temperature max_tokens c) = EmptyString.
Proof using no_text.
  unfold OllamaClient.generate. cbn [fst].
  destruct (ollama_generate W (requests c) prompt temperature max_tokens)
    eqn:E; [| reflexivity | reflexivity].
  exfalso. exact (no_text _ _ _ _ _ E).
Qed.

Lemma client_article_no_text (topic : string) (facts : list string)
    (min_words max_paragraphs : Z) (c : Calls) :
  fst (OllamaClient.generate_article W R T topic facts min_words
         max_paragraphs c)
  = Article.mk EmptyString EmptyString EmptyString EmptyString
      [EmptyString] None.
Proof using no_text.
  unfold OllamaClient.generate_article, OllamaClient.extract_keywords,
    bind, ret.
  cbn [fst snd]. cbv zeta. rewrite !generate_no_text.
  rewrite !str_strip_empty.
  cbn [split_char List.length seq combine OllamaClient.read_lines fold_left].
  unfold OllamaClient.read_lines.
  cbn [split_char List.length seq combine fold_left].
  assert (E : OllamaClient.read_line T
                (OllamaClient.mkParts EmptyString EmptyString EmptyString
                   EmptyString) (0%nat, EmptyString)
              = OllamaClient.mkParts EmptyString EmptyString EmptyString
                  EmptyString) by reflexivity.
  rewrite E.
  cbn [OllamaClient.corpo OllamaClient.titulo OllamaClient.subtitulo
       OllamaClient.editoria].
  cbn [map]. rewrite str_strip_empty. reflexivity.
Qed.

Lemma content_article_no_text (topic : string) (facts : list string)
    (c : Calls) :
  let a :=
    fst (ContentGenerator.generate_article self W R T topic facts None c) in
  Article.materia a = EmptyString
  /\ Article.titulo a = EmptyString
  /\ Article.subtitulo a = EmptyString
  /\ Article.keywords a = [EmptyString]
  /\ In (Article.editoria a) ContentGenerator.editorias.
Proof using no_text.
  intro a. unfold a, ContentGenerator.generate_article, bind, ret.
  cbn [fst snd ContentGenerator.random_choice_of ContentGenerator.now].
  rewrite client_article_no_text.
  cbn [Article.editoria nonempty Article.materia Article.titulo
       Article.subtitulo Article.keywords].
  repeat split.
  apply nth_In. apply Nat.mod_upper_bound. cbn. lia.
Qed.

(** X25. While no request to the model server gives a text, every article
    of a run has an empty body, title and subtitle, the one keyword that is
    the empty text and one of the eight sections of the generator; the
    validator rejects each of them for its empty body, so the file of the
    run has no valid article. *)
Theorem unreachable_server_articles (loaded : option InsightBundle.t)
    (max_articles : Z) (c : Calls)
    (str_of : Validator.Error -> string) (file_path : string) :
  let articles :=
    fst (ContentGenerator.generate_all_articles self W R T loaded
           max_articles c) in
  let checked :=
    Validator.validate_articles_file R str_of file_path
      (Validator.Articles (map article_json articles)) in
  Forall
    (fun a =>
       Article.materia a = EmptyString
       /\ Article.titulo a = EmptyString
       /\ Article.subtitulo a = EmptyString
       /\ Article.keywords a = [EmptyString]
       /\ In (Article.editoria a) ContentGenerator.editorias)
    articles
  /\ Validator.file_valid checked = false
  /\ Validator.valid_articles checked = Some 0%Z
  /\ Validator.invalid_articles checked
     = Some (Z.of_nat (List.length articles))
  /\ Validator.validation_results checked
     = Some (map (fun a =>
                    Validator.invalid "Conteúdo da matéria está vazio"
                      (article_json a))
               articles).
Proof using no_text.
  intros articles checked.
  assert (Hall : Forall
    (fun a =>
       Article.materia a = EmptyString
       /\ Article.titulo a = EmptyString
       /\ Article.subtitulo a = EmptyString
       /\ Article.keywords a = [EmptyString]
       /\ In (Article.editoria a) ContentGenerator.editorias)
    articles).
  { apply all_articles_Forall. intros topic facts c'.
    exact (content_article_no_text topic facts c'). }
  split; [exact Hall |].
  assert (Heach : Validator.validate_each R (map article_json articles)
                  = Validator.Done
                      (map (fun a =>
                              Validator.invalid
                                "Conteúdo da matéria está vazio"
                                (article_json a))
                         articles)).
  { clear checked. induction Hall as [| a l (Hm & _) _ IH]; [reflexivity |].
    cbn [map Validator.validate_each].
    rewrite validate_article_json, Hm, IH. reflexivity. }
  assert (Hnone : filter Validator.valid
                    (map (fun a =>
                            Validator.invalid
                              "Conteúdo da matéria está vazio"
                              (article_json a))
                       articles) = []).
  { clear. induction articles as [| a l IH]; [reflexivity | exact IH]. }
  unfold checked, Validator.validate_articles_file. rewrite Heach.
  cbv zeta.
  cbn [Validator.file_valid Validator.valid_articles
       Validator.invalid_articles Validator.validation_results].
  rewrite Hnone, !length_map. cbn [List.length].
  repeat split. f_equal. lia.
Qed.

End Unreachable.

End AllArticles.

(** X25 at a run on one recommendation of high priority while the model
    server is unreachable. *)
Lemma unreachable_server_articles_witness :
  (forall k prompt temperature max_tokens response,
     ollama_generate Outage.world k prompt temperature max_tokens
     <> Text response)
  /\ (let articles :=
        fst (ContentGenerator.generate_all_articles Outage.generator
               Outage.world Example.forward Outage.text
               (Some Outage.insights) 10 Outage.start) in
      let checked :=
        Validator.validate_articles_file Example.forward
          (fun _ => EmptyString) "materias.json"
          (Validator.Articles (map article_json articles)) in
      Forall
        (fun a =>
           Article.materia a = EmptyString
           /\ Article.titulo a = EmptyString
           /\ Article.subtitulo a = EmptyString
           /\ Article.keywords a = [EmptyString]
           /\ In (Article.editoria a) ContentGenerator.editorias)
        articles
      /\ Validator.file_valid checked = false
      /\ Validator.valid_articles checked = Some 0%Z
      /\ Validator.invalid_articles checked
         = Some (Z.of_nat (List.length articles))
      /\ Validator.validation_results checked
         = Some (map (fun a =>
                        Validator.invalid "Conteúdo da matéria está vazio"
                          (article_json a))
                   articles)).
Proof.
  split.
  - intros k prompt temperature max_tokens response. discriminate.
  - apply (unreachable_server_articles Outage.generator Outage.world
             Example.forward Outage.text).
    intros k prompt temperature max_tokens response. discriminate.
Defined.

(* ================================================================== *)
(** ** The G1 agent *)
(* ================================================================== *)

(** The relevance score is a number between 0 and 1. *)
Lemma relevance_score_bounds
    (self : TextProcessor.t) (R : Runtime) (T : TextRuntime)
    (text : string) (keywords : list string) :
  0 <= TextProcessor.calculate_relevance_score self R T text keywords
  /\ TextProcessor.calculate_relevance_score self R T text keywords <= 1.
Proof.
  unfold TextProcessor.calculate_relevance_score.
  destruct text as [| ch text']; [split; lra |].
  destruct keywords as [| kw keywords']; [split; lra |].
  cbv zeta.
  destruct (TextProcessor.preprocess_text self R T (String ch text'))
    as [| t0 tokens']; [split; lra |].
  match goal with
  | |- context [inject_Z (Z.of_nat (List.length ?h))
                / (inject_Z (Z.of_nat (List.length ?l)) * _)] =>
      set (k := inject_Z (Z.of_nat (List.length h)));
      set (n := inject_Z (Z.of_nat (List.length l)))
  end.
  assert (Hn : 0 < n * (1 # 10)).
  { assert (0 < n); [| lra].
    unfold n. change 0 with (inject_Z 0). rewrite <- Zlt_Qlt.
    cbn [List.length]. lia. }
  assert (Hk : 0 <= k).
  { unfold k. change 0 with (inject_Z 0). rewrite <- Zle_Qle. lia. }
  assert (Hratio : 0 <= k / (n * (1 # 10)))
    by (apply Qle_shift_div_l; [exact Hn | lra]).
  destruct (Qle_bool 1 (k / (n * (1 # 10)))) eqn:E; [split; lra |].
  split; [exact Hratio |].
  apply Qlt_le_weak, Qnot_le_lt. intro H. apply Qle_bool_iff in H.
  congruence.
Qed.

(** Of a list in descending order of a key, the elements whose key reaches
    a bound are the first ones. *)
Lemma filter_sorted_prefix {A : Type} (key : A -> Q) (bound : Q)
    (l : list A) :
  StronglySorted (fun a b => key b <= key a) l ->
  exists k, filter (fun x => Qle_bool bound (key x)) l = firstn k l.
Proof.
  induction 1 as [| x l _ [k IH] Hx]; [now exists 0%nat |].
  cbn [filter]. destruct (Qle_bool bound (key x)) eqn:E.
  - exists (S k). cbn [firstn]. now rewrite IH.
  - exists 0%nat. cbn [firstn]. apply filter_nil_iff. intros y Hy.
    rewrite Forall_forall in Hx. specialize (Hx y Hy).
    destruct (Qle_bool bound (key y)) eqn:Ey; [| reflexivity].
    apply Qle_bool_iff in Ey.
    assert (Qle_bool bound (key x) = true)
      by (apply Qle_bool_iff; lra).
    congruence.
Qed.

(** Items that all have the engagement 0 pass the engagement filter. *)
Lemma filter_by_engagement_all_zero (data : list Item.t) (p : Q) :
  Forall (fun item => DataProcessor.engagement_value item = 0) data ->
  0 <= p -> p <= 1 ->
  DataProcessor.filter_by_engagement data p = Ok data.
Proof.
  intros Hall H0 H1. destruct data as [| item data]; [reflexivity |].
  destruct (quantile_le_max
              (map DataProcessor.engagement_value (item :: data)) p)
    as (t & m & Hq & Hm & Htm & _); [discriminate | exact H0 | exact H1 |].
  rewrite (filter_by_engagement_ok (item :: data) p t) by
    (discriminate || exact Hq).
  f_equal. apply in_map_iff in Hm. destruct Hm as (i & <- & Hi).
  rewrite Forall_forall in Hall. rewrite (Hall i Hi) in Htm.
  apply forallb_filter_id. apply forallb_forall. intros x Hx.
  rewrite (Hall x Hx). now apply Qle_bool_iff.
Qed.

Section G1.
Variable text_processor : TextProcessor.t.
Variable W : World.
Variable R : Runtime.
Variable T : TextRuntime.

(** What the loop makes of each article with content. *)
Lemma process_each_parts (data : list G1Agent.Raw.t) :
  forall c : Calls,
  let result := G1Agent.process_each text_processor W R T data c in
  let with_content :=
    filter (fun a => nonempty (G1Agent.get (G1Agent.Raw.content a))) data in
  map G1Agent.Processed.content (fst result)
  = map (fun a => TextProcessor.clean_text T
                    (G1Agent.get (G1Agent.Raw.content a))) with_content
  /\ map G1Agent.Processed.processed_at (fst result)
     = map (datetime_now W)
         (seq (readings c) (List.length with_content))
  /\ Forall
       (fun p =>
          G1Agent.Processed.source p = "G1"%string
          /\ 0 <= G1Agent.Processed.relevance_score p
          /\ G1Agent.Processed.relevance_score p <= 1
          /\ NoDup (G1Agent.Processed.entities p)
          /\ G1Agent.Processed.word_count p
             = Z.of_nat
                 (List.length (str_split R (G1Agent.Processed.content p))))
       (fst result)
  /\ snd result
     = mkCalls (requests c) (draws c) (choices c)
         (readings c + List.length with_content).
Proof.
  induction data as [| a rest IH]; intro c; cbv zeta.
  - cbn. repeat split; try constructor. destruct c; cbn; f_equal; lia.
  - cbn [G1Agent.process_each filter].
    destruct (nonempty (G1Agent.get (G1Agent.Raw.content a))).
    + unfold bind, ret, G1Agent.now. cbn [fst snd].
      specialize (IH (mkCalls (requests c) (draws c) (choices c)
                        (S (readings c)))).
      cbv zeta in IH. destruct IH as (Hc & Ht & Hall & Hs).
      cbn [requests draws choices readings] in *.
      cbn [map List.length seq G1Agent.Processed.content
           G1Agent.Processed.processed_at].
      rewrite Hc, Ht, Hs.
      split; [reflexivity |]. split; [reflexivity |].
      split; [| f_equal; lia].
      constructor; [| exact Hall].
      cbn [G1Agent.Processed.source G1Agent.Processed.relevance_score
           G1Agent.Processed.entities G1Agent.Processed.word_count
           G1Agent.Processed.content].
      split; [reflexivity |].
      split; [apply relevance_score_bounds |].
      split; [apply relevance_score_bounds |].
      split; [| reflexivity].
      unfold TextProcessor.extract_entities. apply set_iter_NoDup.
    + specialize (IH c). cbv zeta in IH. exact IH.
Qed.

(** X26. The processing of the G1 agent keeps the articles that have
    content, each with its cleaned text, the source G1, a relevance
    between 0 and 1, entities without repetition and the number of words
    of the cleaned text, in descending order of relevance.  One clock
    reading is made for each article kept. *)
Theorem g1_process_data_sorted (data : list G1Agent.Raw.t) (c : Calls) :
  let result := G1Agent.process_data text_processor W R T data c in
  let articles := fst result in
  let with_content :=
    filter (fun a => nonempty (G1Agent.get (G1Agent.Raw.content a))) data in
  List.length articles = List.length with_content
  /\ Permutation (map G1Agent.Processed.content articles)
       (map (fun a => TextProcessor.clean_text T
                        (G1Agent.get (G1Agent.Raw.content a)))
          with_content)
  /\ StronglySorted
       (fun a b =>
          G1Agent.Processed.relevance_score b
          <= G1Agent.Processed.relevance_score a)
       articles
  /\ Forall
       (fun p =>
          G1Agent.Processed.source p = "G1"%string
          /\ 0 <= G1Agent.Processed.relevance_score p
          /\ G1Agent.Processed.relevance_score p <= 1
          /\ NoDup (G1Agent.Processed.entities p)
          /\ G1Agent.Processed.word_count p
             = Z.of_nat
                 (List.length (str_split R (G1Agent.Processed.content p))))
       articles
  /\ snd result
     = mkCalls (requests c) (draws c) (choices c)
         (readings c + List.length articles).
Proof.
  intros result articles with_content.
  pose proof (process_each_parts data c) as H. cbv zeta in H.
  fold with_content in H. destruct H as (Hc & _ & Hall & Hs).
  unfold articles, result, G1Agent.process_data, bind, ret.
  cbn [fst snd].
  set (processed := fst (G1Agent.process_each text_processor W R T data c))
    in *.
  assert (Hperm : Permutation processed
                    (sort_desc Qle_bool G1Agent.Processed.relevance_score
                       processed)) by apply sort_desc_perm.
  assert (Hlen : List.length processed = List.length with_content).
  { rewrite <- (length_map G1Agent.Processed.content), Hc.
    apply length_map. }
  split; [now rewrite <- (Permutation_length Hperm) |].
  split.
  { rewrite <- Hc. apply Permutation_map, Permutation_sym, Hperm. }
  split.
  { pose proof (@sort_desc_sorted _ _ Qle_bool
                  G1Agent.Processed.relevance_score
                  Qle_bool_total Qle_bool_trans processed) as Hsorted.
    revert Hsorted.
    generalize (sort_desc Qle_bool G1Agent.Processed.relevance_score
                  processed).
    induction 1 as [| x s _ IH Hx]; constructor; [exact IH |].
    eapply Forall_impl; [| exact Hx]. intros y Hy.
    apply Qle_bool_iff, Hy. }
  split.
  { rewrite Forall_forall in *. intros p Hp. apply Hall.
    exact (Permutation_in _ (Permutation_sym Hperm) Hp). }
  rewrite Hs, <- (Permutation_length Hperm), Hlen. reflexivity.
Qed.

(** X27. The items of the G1 agent in the data processor: the relevance
    filter keeps the first ones of the list and drops the rest, none of
    them has an engagement other than 0, and the engagement filter keeps
    them all for every percentile between 0 and 1. *)
Theorem g1_items_through_filters (data : list G1Agent.Raw.t) (c : Calls)
    (min_relevance_score min_percentile : Q) :
  let items :=
    map G1Agent.item_of
      (fst (G1Agent.process_data text_processor W R T data c)) in
  (exists k,
     DataProcessor.filter_by_relevance min_relevance_score items
     = firstn k items)
  /\ Forall (fun item => DataProcessor.engagement_value item = 0) items
  /\ (0 <= min_percentile -> min_percentile <= 1 ->
      forall k,
        DataProcessor.filter_by_engagement (firstn k items) min_percentile
        = Ok (firstn k items)).
Proof.
  intro items.
  assert (Hzero : Forall (fun item => DataProcessor.engagement_value item = 0)
                    items).
  { apply Forall_forall. intros item Hi. unfold items in Hi.
    apply in_map_iff in Hi. destruct Hi as (p & <- & _). reflexivity. }
  split.
  { unfold DataProcessor.filter_by_relevance, items.
    unfold G1Agent.process_data, bind, ret. cbn [fst snd].
    pose proof (@sort_desc_sorted _ _ Qle_bool
                  G1Agent.Processed.relevance_score
                  Qle_bool_total Qle_bool_trans
                  (fst (G1Agent.process_each text_processor W R T data c)))
      as Hsorted.
    revert Hsorted.
    generalize (sort_desc Qle_bool G1Agent.Processed.relevance_score
                  (fst (G1Agent.process_each text_processor W R T data c))).
    intros s Hs.
    apply (filter_sorted_prefix
             (fun item => match Item.relevance_score item with
                          | Some v => v
                          | None => 0
                          end)).
    induction Hs as [| x s' _ IH Hx]; cbn [map]; constructor; [exact IH |].
    apply Forall_forall. intros y Hy. apply in_map_iff in Hy.
    destruct Hy as (p & <- & Hp). rewrite Forall_forall in Hx.
    cbn. apply Qle_bool_iff. exact (Hx p Hp). }
  split; [exact Hzero |].
  intros H0 H1 k. apply filter_by_engagement_all_zero; [| exact H0 | exact H1].
  rewrite Forall_forall in *. intros item Hi. apply Hzero.
  eapply firstn_In. exact Hi.
Qed.

End G1.

(* ================================================================== *)
(** ** The collecting agents *)
(* ================================================================== *)

(** X28. The run of an agent succeeds exactly when the collection returns
    at least one article and the processing of the collected articles
    returns; its data are then what the processing returned.  A run that
    fails has no data and no file path.  A run succeeds also when its file
    cannot be written: the file path is then the empty text. *)
Theorem agent_run_outcome (self : BaseAgent.t) (R : Runtime)
    (writable : string -> bool) :
  let result := BaseAgent.run self R writable in
  BaseAgent.Result.source result = BaseAgent.source_name self
  /\ (BaseAgent.Result.success result = true
      <-> exists raw_data processed_data,
            BaseAgent.collect_data self = BaseAgent.Returned raw_data
            /\ raw_data <> []
            /\ BaseAgent.process_data self raw_data
               = BaseAgent.Returned processed_data)
  /\ (forall raw_data processed_data,
        BaseAgent.collect_data self = BaseAgent.Returned raw_data ->
        BaseAgent.process_data self raw_data
        = BaseAgent.Returned processed_data ->
        raw_data <> [] ->
        BaseAgent.Result.data result = processed_data
        /\ BaseAgent.Result.file_path result
           = BaseAgent.save_data self writable
               (BaseAgent.source_name self ++ "_processed.json"))
  /\ (BaseAgent.Result.success result = false ->
      BaseAgent.Result.data result = []
      /\ BaseAgent.Result.file_path result = EmptyString)
  /\ ((forall path, writable path = false) ->
      BaseAgent.Result.file_path result = EmptyString).
Proof.
  intro result. unfold result, BaseAgent.run.
  destruct (BaseAgent.collect_data self) as [[| first others] | e] eqn:Ec.
  - cbn. split; [reflexivity |]. split.
    { split; [discriminate |]. intros (raw & p & E & Hne & _).
      injection E as <-. congruence. }
    split.
    { intros raw p E _ Hne. injection E as <-. congruence. }
    split; [now split | reflexivity].
  - cbv zeta.
    destruct (BaseAgent.process_data self (first :: others)) as [p | e]
      eqn:Ep.
    + cbn [BaseAgent.Result.source BaseAgent.Result.success
           BaseAgent.Result.data BaseAgent.Result.file_path].
      split; [reflexivity |]. split.
      { split; [| reflexivity]. intros _. exists (first :: others), p.
        split; [reflexivity |]. split; [discriminate | exact Ep]. }
      split.
      { intros raw p' E Hp _. injection E as <-. rewrite Ep in Hp.
        injection Hp as <-. split; reflexivity. }
      split; [discriminate |].
      intro Hw. unfold BaseAgent.save_data. now rewrite Hw.
    + cbn. split; [reflexivity |]. split.
      { split; [discriminate |]. intros (raw & p & E & _ & Hp).
        injection E as <-. rewrite Ep in Hp. discriminate Hp. }
      split.
      { intros raw p E Hp _. injection E as <-. rewrite Ep in Hp.
        discriminate Hp. }
      split; [now split | reflexivity].
  - cbn. split; [reflexivity |]. split.
    { split; [discriminate |]. intros (raw & p & E & _). discriminate E. }
    split.
    { intros raw p E. discriminate E. }
    split; [now split | reflexivity].
Qed.

Lemma agent_run_failure_data (self : BaseAgent.t) (R : Runtime)
    (writable : string -> bool) :
  BaseAgent.Result.success (BaseAgent.run self R writable) = false ->
  BaseAgent.Result.data (BaseAgent.run self R writable) = [].
Proof.
  unfold BaseAgent.run.
  destruct (BaseAgent.collect_data self) as [[| first others] | e];
    try reflexivity.
  cbv zeta.
  destruct (BaseAgent.process_data self (first :: others)) as [p | e];
    [discriminate | reflexivity].
Qed.

(** X29. The run of all agents gives one result for each of the three
    agents, in the order G1, Twitter, Instagram, and what it writes to the
    file of all data is the data of the three runs one after the other, a
    failed run adding nothing.  The run of an agent of another name fails
    with that name as its source. *)
Theorem run_all_agents_consolidated (self : AgentOrchestrator.t)
    (R : Runtime) (writable : string -> bool) :
  let results := AgentOrchestrator.run_all_agents self R writable in
  let run agent := BaseAgent.run agent R writable in
  results
  = [ ("g1", run (AgentOrchestrator.g1 self));
      ("twitter", run (AgentOrchestrator.twitter self));
      ("instagram", run (AgentOrchestrator.instagram self)) ]%string
  /\ AgentOrchestrator.consolidated_results results
     = (BaseAgent.Result.data (run (AgentOrchestrator.g1 self))
        ++ BaseAgent.Result.data (run (AgentOrchestrator.twitter self))
        ++ BaseAgent.Result.data (run (AgentOrchestrator.instagram self)))%list
  /\ (forall item,
        In item (AgentOrchestrator.consolidated_results results)
        <-> exists name result,
              In (name, result) results
              /\ BaseAgent.Result.success result = true
              /\ In item (BaseAgent.Result.data result))
  /\ forall agent_name,
       dict_get (AgentOrchestrator.agents self) agent_name = None ->
       AgentOrchestrator.run_agent self R writable agent_name
       = BaseAgent.Result.mk agent_name false "Agente não encontrado" []
           EmptyString.
Proof.
  intros results run.
  assert (Hres : results
                 = [ ("g1", run (AgentOrchestrator.g1 self));
                     ("twitter", run (AgentOrchestrator.twitter self));
                     ("instagram", run (AgentOrchestrator.instagram self)) ]
                     %string) by reflexivity.
  assert (Hdata : forall agent,
             (if BaseAgent.Result.success (run agent)
              then BaseAgent.Result.data (run agent) else [])
             = BaseAgent.Result.data (run agent)).
  { intro agent. destruct (BaseAgent.Result.success (run agent)) eqn:E;
      [reflexivity |].
    symmetry. exact (agent_run_failure_data agent R writable E). }
  assert (Hcons : AgentOrchestrator.consolidated_results results
                  = (BaseAgent.Result.data (run (AgentOrchestrator.g1 self))
                     ++ BaseAgent.Result.data
                          (run (AgentOrchestrator.twitter self))
                     ++ BaseAgent.Result.data
                          (run (AgentOrchestrator.instagram self)))%list).
  { rewrite Hres. unfold AgentOrchestrator.consolidated_results.
    cbn [fold_left snd app].
    rewrite <- (Hdata (AgentOrchestrator.g1 self)),
      <- (Hdata (AgentOrchestrator.twitter self)),
      <- (Hdata (AgentOrchestrator.instagram self)).
    destruct (BaseAgent.Result.success (run (AgentOrchestrator.g1 self)));
      destruct (BaseAgent.Result.success
                  (run (AgentOrchestrator.twitter self)));
      destruct (BaseAgent.Result.success
                  (run (AgentOrchestrator.instagram self)));
      cbn [app]; rewrite ?app_nil_r, <- ?app_assoc; reflexivity. }
  split; [exact Hres |]. split; [exact Hcons |]. split.
  - intro item. rewrite Hcons, Hres. rewrite !in_app_iff.
    unfold run in *. split.
    + intros [H | [H | H]].
      * exists "g1"%string, (run (AgentOrchestrator.g1 self)).
        split; [cbn; tauto |]. split; [| exact H].
        destruct (BaseAgent.Result.success
                    (run (AgentOrchestrator.g1 self))) eqn:E;
          [reflexivity |].
        rewrite (agent_run_failure_data _ R writable E) in H. destruct H.
      * exists "twitter"%string, (run (AgentOrchestrator.twitter self)).
        split; [cbn; tauto |]. split; [| exact H].
        destruct (BaseAgent.Result.success
                    (run (AgentOrchestrator.twitter self))) eqn:E;
          [reflexivity |].
        rewrite (agent_run_failure_data _ R writable E) in H. destruct H.
      * exists "instagram"%string, (run (AgentOrchestrator.instagram self)).
        split; [cbn; tauto |]. split; [| exact H].
        destruct (BaseAgent.Result.success
                    (run (AgentOrchestrator.instagram self))) eqn:E;
          [reflexivity |].
        rewrite (agent_run_failure_data _ R writable E) in H. destruct H.
    + intros (name & result & Hin & _ & Hitem).
      cbn [In] in Hin. destruct Hin as [E | [E | [E | []]]];
        injection E as _ <-; tauto.
  - intros agent_name Hnone. unfold AgentOrchestrator.run_agent.
    now rewrite Hnone.
Qed.

(* ================================================================== *)
(** ** The validation of the insights file *)
(* ================================================================== *)

(** X30. The validation of the insights file is valid exactly when the file
    holds an object with the four required keys whose topic insights and
    content recommendations have a length; the two counts are then these
    lengths, and an invalid result has no counts.  The insights the
    insight generator writes are always valid, with the numbers of their
    topic insights and of their recommendations as counts. *)
Theorem validate_insights_file_spec
    (str_of : ResultValidator.Error -> string) (str_len : string -> Z)
    (file_path : string) (file : ResultValidator.InsightsFile) :
  let result :=
    ResultValidator.validate_insights_file str_of str_len file_path file in
  (ResultValidator.valid result = true
   <-> exists insights t r,
         file = ResultValidator.Loaded (JObj insights)
         /\ (forall field, In field ResultValidator.required_fields ->
               dict_mem insights field = true)
         /\ ResultValidator.len str_len
              (Validator.get insights "topic_insights" (JArr [])) = Some t
         /\ ResultValidator.len str_len
              (Validator.get insights "content_recommendations" (JArr []))
            = Some r
         /\ ResultValidator.topic_count result = Some t
         /\ ResultValidator.recommendation_count result = Some r
         /\ ResultValidator.insights result = JObj insights)
  /\ (ResultValidator.valid result = false ->
      ResultValidator.topic_count result = None
      /\ ResultValidator.recommendation_count result = None)
  /\ forall b : InsightBundle.t,
       ResultValidator.validate_insights_file str_of str_len file_path
         (ResultValidator.Loaded (JObj (insights_json b)))
       = ResultValidator.mkInsightsResult true "Arquivo de insights válido"
           (JObj (insights_json b))
           (Some (Z.of_nat (List.length (InsightBundle.topic_insights b))))
           (Some (Z.of_nat
                    (List.length (InsightBundle.content_recommendations b)))).
Proof.
  intro result. split; [| split].
  - unfold result, ResultValidator.validate_insights_file.
    destruct file as [| detail | [| b | q | x | s | l | insights]];
      try (split; [discriminate | intros (i & t & r & E & _); discriminate E]).
    cbv zeta.
    destruct (filter (fun field => negb (dict_mem insights field))
                ResultValidator.required_fields) as [| f fs] eqn:Em.
    + assert (Hall : forall field, In field ResultValidator.required_fields ->
                       dict_mem insights field = true).
      { intros field Hf. apply (proj1 (filter_nil_iff _ _) Em) in Hf.
        now apply negb_false_iff in Hf. }
      destruct (ResultValidator.len str_len
                  (Validator.get insights "topic_insights" (JArr [])))
        as [t |] eqn:Et.
      * destruct (ResultValidator.len str_len
                    (Validator.get insights "content_recommendations"
                       (JArr []))) as [r |] eqn:Er.
        -- split; [| reflexivity]. intros _. exists insights, t, r.
           split; [reflexivity |]. split; [exact Hall |].
           split; [exact Et |]. split; [exact Er |].
           split; [reflexivity |]. split; reflexivity.
        -- split; [discriminate |].
           intros (i & t' & r & E & _ & _ & Hr & _).
           injection E as <-. congruence.
      * split; [discriminate |].
        intros (i & t & r & E & _ & Ht & _). injection E as <-. congruence.
    + split; [discriminate |].
      intros (i & t & r & E & Hall & _). injection E as <-.
      assert (Hin : In f (filter (fun field => negb (dict_mem insights field))
                            ResultValidator.required_fields))
        by (rewrite Em; now left).
      apply filter_In in Hin. destruct Hin as [Hf Hn].
      rewrite (Hall f Hf) in Hn. discriminate Hn.
  - unfold result, ResultValidator.validate_insights_file.
    destruct file as [| detail | [| b | q | x | s | l | insights]];
      try (intros _; split; reflexivity).
    cbv zeta.
    destruct (filter _ ResultValidator.required_fields);
      [| intros _; split; reflexivity].
    destruct (ResultValidator.len str_len
                (Validator.get insights "topic_insights" (JArr [])));
      [| intros _; split; reflexivity].
    destruct (ResultValidator.len str_len
                (Validator.get insights "content_recommendations" (JArr [])));
      [discriminate | intros _; split; reflexivity].
  - intro b. unfold ResultValidator.validate_insights_file. cbv zeta.
    assert (Em : filter (fun field => negb (dict_mem (insights_json b) field))
                   ResultValidator.required_fields = []) by reflexivity.
    rewrite Em.
    assert (Et : Validator.get (insights_json b) "topic_insights" (JArr [])
                 = JArr (map insight_json (InsightBundle.topic_insights b)))
      by reflexivity.
    assert (Er : Validator.get (insights_json b) "content_recommendations"
                   (JArr [])
                 = JArr (map recommendation_json
                           (InsightBundle.content_recommendations b)))
      by reflexivity.
    rewrite Et, Er. cbn [ResultValidator.len]. now rewrite !length_map.
Qed.
